(** * Payment-plan lifecycle and client reputation score (CRS)

    A shallow embedding of the scoring arithmetic, the reminder policy, the
    payment-plan negotiation handlers and the database rules (constraints,
    indexes, triggers) of the accounting-firm / client application, with the
    properties of the specification stated and proved over it.

    Conventions of the embedding:
    - a JavaScript number that the code only adds, multiplies, compares,
      floors and clamps is an exact rational ([Q]); a number that is an
      integer column of the database, or the result of [parseInt] or
      [Math.ceil], is a [Z];
    - a value that may be [null] or [undefined] is an [option];
    - a table is the list of its rows, oldest first;
    - a handler that awaits the database is a function from the database to
      an outcome and the database it leaves behind: what was written before
      an error stays written, as there is no transaction around a handler. *)

From Stdlib Require Import ZArith QArith Qminmax Qpower Lqa Lia.
From Stdlib Require Import List String Bool.
Import ListNotations.

Open Scope Z_scope.

(* ===================================================================== *)
(** ** JavaScript values *)
(* ===================================================================== *)

Module Js.

(** [v || d] for a numeric [v]: [null], [undefined] and [0] are falsy. *)
Definition or_num (v : option Z) (d : Z) : Z :=
  match v with
  | Some z => if z =? 0 then d else z
  | None => d
  end.

(** [v || d] for a value with no falsy inhabitant but null/undefined. *)
Definition or_else {A : Type} (v : option A) (d : A) : A :=
  match v with
  | Some a => a
  | None => d
  end.

(** Truthiness of a numeric [v], as in [filter(t => t.days_to_payment)]. *)
Definition truthy_num (v : option Z) : bool :=
  match v with
  | Some z => negb (z =? 0)
  | None => false
  end.

(** [v >= k] for a numeric [v] and a constant [k > 0]: [null] converts to
    0 and [undefined] to NaN, so a missing value never passes. *)
Definition ge_num (v : option Z) (k : Z) : bool :=
  match v with
  | Some z => k <=? z
  | None => false
  end.

(** [Math.ceil (a / b)] for integers [a] and [b > 0]. *)
Definition ceil_div (a b : Z) : Z := - ((- a) / b).

End Js.

(* ===================================================================== *)
(** ** CRS analysis page: the score engine *)
(* ===================================================================== *)

Module CRS.

Inductive RiskLevel := low | medium | high.

Record RiskThresholds := {
  HIGH : Q;
  MEDIUM : Q;
  LOW : Q
}.

Record Constants := {
  BASE_PENALTY : Q;
  PENALTY_MULTIPLIER : Q;
  RECOVERY_INCREMENT : Q;
  RECOVERY_BONUS : Q;
  MAX_SCORE : Q;
  MIN_SCORE : Q;
  RISK_THRESHOLDS : RiskThresholds
}.

(** [CRS_CONSTANTS], the "CRS Algorithm Constants". *)
Definition CRS_CONSTANTS : Constants := {|
  BASE_PENALTY := 10;
  PENALTY_MULTIPLIER := 3 # 2;
  RECOVERY_INCREMENT := 5;
  RECOVERY_BONUS := 10;
  MAX_SCORE := 100;
  MIN_SCORE := 0;
  RISK_THRESHOLDS := {| HIGH := 60; MEDIUM := 75; LOW := 85 |}
|}.

(** [BASE_PENALTY * Math.pow(PENALTY_MULTIPLIER, consecutiveMisses - 1)] *)
Definition calculatePenalty (consecutiveMisses : Z) : Q :=
  (BASE_PENALTY CRS_CONSTANTS
   * PENALTY_MULTIPLIER CRS_CONSTANTS ^ (consecutiveMisses - 1))%Q.

(** [baseRecovery + bonusPeriods * RECOVERY_BONUS] with
    [bonusPeriods = Math.floor(monthsOnTime / 6)]. *)
Definition calculateRecoveryBonus (monthsOnTime : Z) : Q :=
  let baseRecovery := RECOVERY_INCREMENT CRS_CONSTANTS in
  let bonusPeriods := monthsOnTime / 6 in
  (baseRecovery + inject_Z bonusPeriods * RECOVERY_BONUS CRS_CONSTANTS)%Q.

(** The block "Calculate predicted score" of [fetchCRSData]: the update
    that the specification calls [applyOutcome]. *)
Definition predictedScore (hasTransactions : bool) (currentScore : Q)
           (missedPayments currentStreak : Z) : Q :=
  if hasTransactions then
    if 0 <? missedPayments then
      Qmax (MIN_SCORE CRS_CONSTANTS)
           (currentScore - calculatePenalty missedPayments)
    else if 0 <? currentStreak then
      Qmin (MAX_SCORE CRS_CONSTANTS)
           (currentScore + calculateRecoveryBonus currentStreak)
    else currentScore
  else currentScore.

(** [currentScore >= 80 ? 'low' : currentScore >= 70 ? 'medium' : 'high'],
    the classification of a score used when there is no transaction. *)
Definition classifyRisk (currentScore : Q) : RiskLevel :=
  if Qle_bool 80 currentScore then low
  else if Qle_bool 70 currentScore then medium
  else high.

(** The same CASE in the migration that seeds pending transactions. *)
Definition risk_level_of_crs (crs_score : Z) : RiskLevel :=
  if 80 <=? crs_score then low
  else if 70 <=? crs_score then medium
  else high.

Inductive TxStatus := pending | paid | overdue | cancelled.

Definition TxStatus_eqb (a b : TxStatus) : bool :=
  match a, b with
  | pending, pending | paid, paid | overdue, overdue
  | cancelled, cancelled => true
  | _, _ => false
  end.

(** The columns of [transactions] that [fetchCRSData] selects; dates are
    milliseconds since the epoch. *)
Record Transaction := {
  amount : Q;
  due_date : Z;
  completion_date : option Z;
  status : TxStatus;
  impact_score : option Z;
  days_to_payment : option Z;
  payment_streak : option Z;
  payment_consistency_score : option Q;
  risk_level : option RiskLevel
}.

Record TransactionMetrics := {
  totalTransactions : Z;
  onTimePayments : Z;
  averageDelay : Q;
  currentStreak : Z;
  riskLevel : RiskLevel;
  metricsPredictedScore : Q
}.

Definition isOnTime (t : Transaction) : bool :=
  match completion_date t with
  | Some c => c <=? due_date t
  | None => false
  end.

(** [fetchCRSData], from the liaison's stored score and the transactions
    ordered by due date to the score shown and the metrics (the texts of
    the recommendations and impact factors are left out). *)
Definition fetchCRSData (crs_score : option Z) (transactions : list Transaction)
  : Q * TransactionMetrics :=
  let currentScore := inject_Z (Js.or_num crs_score 85) in
  let hasTransactions := negb (List.length transactions =? 0)%nat in
  let completedTransactions :=
    filter (fun t => negb (TxStatus_eqb (status t) pending)) transactions in
  let onTime := Z.of_nat (List.length (filter isOnTime completedTransactions)) in
  let completed := Z.of_nat (List.length completedTransactions) in
  let delaySum :=
    fold_left (fun sum t => sum + Js.or_num (days_to_payment t) 0)
              (filter (fun t => Js.truthy_num (days_to_payment t))
                      completedTransactions) 0 in
  let delay :=
    if 0 <? completed then (inject_Z delaySum / inject_Z completed)%Q
    else 0%Q in
  let lastTransaction :=
    nth_error transactions (List.length transactions - 1) in
  let streak :=
    if hasTransactions then
      Js.or_num (match lastTransaction with
                 | Some t => payment_streak t
                 | None => None
                 end) 0
    else 0 in
  let risk :=
    if hasTransactions then
      Js.or_else (match lastTransaction with
                  | Some t => risk_level t
                  | None => None
                  end) medium
    else classifyRisk currentScore in
  let predicted :=
    predictedScore hasTransactions currentScore (completed - onTime) streak in
  (currentScore,
   {| totalTransactions := completed;
      onTimePayments := onTime;
      averageDelay := delay;
      currentStreak := streak;
      riskLevel := risk;
      metricsPredictedScore := predicted |}).

(** A run of score updates, each with its count of misses and its streak. *)
Definition applyOutcomes (currentScore : Q) (outcomes : list (Z * Z)) : Q :=
  fold_left (fun score o => predictedScore true score (fst o) (snd o))
            outcomes currentScore.

End CRS.

(* ===================================================================== *)
(** ** The database: relationships, liaisons, payment plans, messages *)
(* ===================================================================== *)

(** The tables of the migrations in force, with the constraints that the
    handlers can run into. Users and companies are not tables of the model:
    an identifier of one is taken to exist. Row-level security is not
    modelled either: the actor of a statement is taken to be a party of the
    liaison it touches, which is what the policies ask for. *)

Module Db.

(** Identifiers (uuid and identity columns) are drawn from one counter. *)
Definition uuid := Z.

Inductive PlanStatus := pending | active | rejected | completed | cancelled.

Definition PlanStatus_eqb (a b : PlanStatus) : bool :=
  match a, b with
  | pending, pending | active, active | rejected, rejected
  | completed, completed | cancelled, cancelled => true
  | _, _ => false
  end.

Inductive RelStatus := rel_pending | rel_verified | rel_established | rel_rejected.

Inductive Party := client | accountant.

Record Relationship := {
  rel_id : uuid;
  accounting_firm_id : uuid;
  client_firm_id : uuid;
  verification_status : RelStatus;
  initiated_by : Party
}.

(** [crs_score integer NOT NULL DEFAULT 85 CHECK (0 <= crs_score <= 100)]. *)
Record Liaison := {
  liaison_id : uuid;
  company_relationship_id : uuid;
  accountant_id : uuid;
  client_id : uuid;
  crs_score : Z
}.

(** ["Payment_plan"]: [total_due bigint], [payment_rate integer],
    [num_payment integer], none of them constrained; [status] is one of the
    five values of the CHECK and defaults to pending. *)
Record Payment_plan := {
  plan_id : Z;
  total_due : Z;
  payment_rate : Z;
  num_payment : Z;
  plan_liaison_id : uuid;
  status : PlanStatus;
  parent_plan_id : option Z;
  modified_by : option uuid
}.

Inductive PlanType := installment | lumpsum.

(** The [PaymentPlan] interface of the client code. *)
Record PaymentPlan := {
  type : PlanType;
  totalAmount : Z;
  paymentPeriod : Z;
  numberOfPayments : Z;
  paymentAmount : option Q;
  reason : option string
}.

(** The content of a message: free text, or the JSON of a
    [payment_plan_request] with its two plans. *)
Inductive Content :=
| Text (text : string)
| PaymentPlanRequest (currentPlan newPlan : PaymentPlan) (liaisonId : uuid).

Record Message := {
  msg_id : uuid;
  msg_liaison_id : uuid;
  sender_id : uuid;
  content : Content;
  is_read : bool
}.

Record t := {
  company_relationships : list Relationship;
  liaisons : list Liaison;
  plans : list Payment_plan;
  messages : list Message;
  next_id : Z
}.

Definition empty : t := {|
  company_relationships := [];
  liaisons := [];
  plans := [];
  messages := [];
  next_id := 1
|}.

(** *** Results of a call *)

Inductive Failure :=
| PgError (code : string)
| Thrown (message : string).

Inductive Result (A : Type) :=
| Ok (a : A)
| Error (e : Failure).
Arguments Ok {A} a.
Arguments Error {A} e.

(** A sequence of awaited calls: the first error ends it, and the
    database stays as the calls before the error left it. *)
Definition M (A : Type) : Type := t -> Result A * t.

Definition ret {A : Type} (a : A) : M A := fun db => (Ok a, db).

Definition throw {A : Type} (e : Failure) : M A := fun db => (Error e, db).

Definition bind {A B : Type} (m : M A) (k : A -> M B) : M B :=
  fun db =>
    match m db with
    | (Ok a, db') => k a db'
    | (Error e, db') => (Error e, db')
    end.

Definition lift {A : Type} (r : Result A) : M A := fun db => (r, db).

Definition get : M t := fun db => (Ok db, db).

(** [.maybeSingle()]: no row is [null], several rows are an error. *)
Definition maybeSingle {A : Type} (rows : list A) : Result (option A) :=
  match rows with
  | [] => Ok None
  | [r] => Ok (Some r)
  | _ => Error (PgError "PGRST116")
  end.

(** [.single()]: exactly one row, or an error. *)
Definition single {A : Type} (rows : list A) : Result A :=
  match rows with
  | [r] => Ok r
  | _ => Error (PgError "PGRST116")
  end.

(** *** Constraints *)

Definition is_active_of (l : uuid) (p : Payment_plan) : bool :=
  (plan_liaison_id p =? l) && PlanStatus_eqb (status p) active.

Definition count_active (l : uuid) (rows : list Payment_plan) : nat :=
  List.length (filter (is_active_of l) rows).

(** [CREATE UNIQUE INDEX idx_active_payment_plan ON "Payment_plan"
    (liaison_id) WHERE status = 'active']: whether the rows satisfy it. *)
Definition idx_active_payment_plan (rows : list Payment_plan) : bool :=
  forallb (fun p => negb (PlanStatus_eqb (status p) active)
                    || (count_active (plan_liaison_id p) rows <=? 1)%nat)
          rows.

(** [CHECK (crs_score >= 0 AND crs_score <= 100)] *)
Definition crs_score_check (v : Z) : bool := (0 <=? v) && (v <=? 100).

(** [DEFAULT 85] *)
Definition crs_score_default : Z := 85.

Definition liaison_exists (db : t) (l : uuid) : bool :=
  existsb (fun r => liaison_id r =? l) (liaisons db).

Definition relationship_exists (db : t) (r : uuid) : bool :=
  existsb (fun x => rel_id x =? r) (company_relationships db).

(** No liaison has two active plans. *)
Definition plans_unique (db : t) : Prop :=
  forall l, (count_active l (plans db) <= 1)%nat.

(** Every stored score lies between 0 and 100. *)
Definition scores_in_range (db : t) : Prop :=
  Forall (fun l => 0 <= crs_score l <= 100) (liaisons db).

(** *** Statements *)

Definition set_status (p : Payment_plan) (s : PlanStatus) : Payment_plan :=
  {| plan_id := plan_id p;
     total_due := total_due p;
     payment_rate := payment_rate p;
     num_payment := num_payment p;
     plan_liaison_id := plan_liaison_id p;
     status := s;
     parent_plan_id := parent_plan_id p;
     modified_by := modified_by p |}.

Definition with_plans (db : t) (rows : list Payment_plan) (next : Z) : t :=
  {| company_relationships := company_relationships db;
     liaisons := liaisons db;
     plans := rows;
     messages := messages db;
     next_id := next |}.

(** [from('Payment_plan').insert({...}).select().single()] *)
Definition insert_Payment_plan (due rate num : Z) (l : uuid)
           (s : PlanStatus) (modifier : uuid) : M Payment_plan :=
  fun db =>
    let row := {| plan_id := next_id db;
                  total_due := due;
                  payment_rate := rate;
                  num_payment := num;
                  plan_liaison_id := l;
                  status := s;
                  parent_plan_id := None;
                  modified_by := Some modifier |} in
    if negb (liaison_exists db l) then (Error (PgError "23503"), db)
    else if negb (idx_active_payment_plan (plans db ++ [row]))
    then (Error (PgError "23505"), db)
    else (Ok row, with_plans db (plans db ++ [row]) (next_id db + 1)).

(** [from('Payment_plan').update({ status }).eq(...)...]: the rows that
    match are updated in one statement, which the index can refuse. *)
Definition update_Payment_plan_status (matching : Payment_plan -> bool)
           (s : PlanStatus) : M unit :=
  fun db =>
    let rows := map (fun p => if matching p then set_status p s else p)
                    (plans db) in
    if idx_active_payment_plan rows
    then (Ok tt, with_plans db rows (next_id db))
    else (Error (PgError "23505"), db).

(** [from('Payment_plan').select(...).eq('liaison_id', l)
    .eq('status', 'active').maybeSingle()] *)
Definition select_active_plan (l : uuid) : M (option Payment_plan) :=
  fun db => (maybeSingle (filter (is_active_of l) (plans db)), db).

(** [from('messages').insert({ liaison_id, sender_id, content,
    is_read: false })] *)
Definition insert_message (l sender : uuid) (c : Content) : M unit :=
  fun db =>
    if negb (liaison_exists db l) then (Error (PgError "23503"), db)
    else
      let row := {| msg_id := next_id db;
                    msg_liaison_id := l;
                    sender_id := sender;
                    content := c;
                    is_read := false |} in
      (Ok tt,
       {| company_relationships := company_relationships db;
          liaisons := liaisons db;
          plans := plans db;
          messages := messages db ++ [row];
          next_id := next_id db + 1 |}).

(** [from('company_relationships').insert([{...}]).select().single()],
    under [UNIQUE (accounting_firm_id, client_firm_id)]. *)
Definition insert_relationship (firm client_firm : uuid) (by_ : Party)
  : M Relationship :=
  fun db =>
    if existsb (fun r => (accounting_firm_id r =? firm)
                         && (client_firm_id r =? client_firm))
               (company_relationships db)
    then (Error (PgError "23505"), db)
    else
      let row := {| rel_id := next_id db;
                    accounting_firm_id := firm;
                    client_firm_id := client_firm;
                    verification_status := rel_pending;
                    initiated_by := by_ |} in
      (Ok row,
       {| company_relationships := company_relationships db ++ [row];
          liaisons := liaisons db;
          plans := plans db;
          messages := messages db;
          next_id := next_id db + 1 |}).

(** [from('liaisons').insert([{ company_relationship_id, accountant_id,
    client_id }]).select().single()]; a [crs_score] that the statement
    leaves out takes the column default, and the CHECK and the constraint
    [UNIQUE (company_relationship_id, accountant_id, client_id)] apply. *)
Definition insert_liaison (rel acc cli : uuid) (score : option Z) : M Liaison :=
  fun db =>
    let v := match score with Some z => z | None => crs_score_default end in
    if negb (relationship_exists db rel) then (Error (PgError "23503"), db)
    else if negb (crs_score_check v) then (Error (PgError "23514"), db)
    else if existsb (fun r => (company_relationship_id r =? rel)
                              && (accountant_id r =? acc)
                              && (client_id r =? cli)) (liaisons db)
    then (Error (PgError "23505"), db)
    else
      let row := {| liaison_id := next_id db;
                    company_relationship_id := rel;
                    accountant_id := acc;
                    client_id := cli;
                    crs_score := v |} in
      (Ok row,
       {| company_relationships := company_relationships db;
          liaisons := liaisons db ++ [row];
          plans := plans db;
          messages := messages db;
          next_id := next_id db + 1 |}).

(** [UPDATE liaisons SET crs_score = v WHERE ...], as the migrations that
    seed scores do; the CHECK refuses the whole statement. *)
Definition update_crs_score (matching : Liaison -> bool) (v : Z) : M unit :=
  fun db =>
    if existsb matching (liaisons db) && negb (crs_score_check v)
    then (Error (PgError "23514"), db)
    else
      (Ok tt,
       {| company_relationships := company_relationships db;
          liaisons :=
            map (fun r => if matching r
                          then {| liaison_id := liaison_id r;
                                  company_relationship_id :=
                                    company_relationship_id r;
                                  accountant_id := accountant_id r;
                                  client_id := client_id r;
                                  crs_score := v |}
                          else r) (liaisons db);
          plans := plans db;
          messages := messages db;
          next_id := next_id db |}).

(** [from('company_relationships').update({ verification_status:
    'verified' }).eq('id', r)] *)
Definition update_relationship_verified (r : uuid) : M unit :=
  fun db =>
    (Ok tt,
     {| company_relationships :=
          map (fun x => if rel_id x =? r
                        then {| rel_id := rel_id x;
                                accounting_firm_id := accounting_firm_id x;
                                client_firm_id := client_firm_id x;
                                verification_status := rel_verified;
                                initiated_by := initiated_by x |}
                        else x) (company_relationships db);
        liaisons := liaisons db;
        plans := plans db;
        messages := messages db;
        next_id := next_id db |}).

(** *** Reachable states *)

(** The statements that the application and the migrations issue. *)
Inductive statement :=
| InsertRelationship (firm client_firm : uuid) (by_ : Party)
| InsertLiaison (rel acc cli : uuid) (score : option Z)
| UpdateCrsScore (matching : Liaison -> bool) (v : Z)
| InsertPlan (due rate num : Z) (l : uuid) (s : PlanStatus) (modifier : uuid)
| UpdatePlanStatus (matching : Payment_plan -> bool) (s : PlanStatus)
| InsertMessage (l sender : uuid) (c : Content)
| UpdateRelationshipVerified (r : uuid).

(** The database after a statement (unchanged when it is refused). *)
Definition exec (st : statement) (db : t) : t :=
  match st with
  | InsertRelationship firm client_firm by_ =>
      snd (insert_relationship firm client_firm by_ db)
  | InsertLiaison rel acc cli score => snd (insert_liaison rel acc cli score db)
  | UpdateCrsScore matching v => snd (update_crs_score matching v db)
  | InsertPlan due rate num l s modifier =>
      snd (insert_Payment_plan due rate num l s modifier db)
  | UpdatePlanStatus matching s => snd (update_Payment_plan_status matching s db)
  | InsertMessage l sender c => snd (insert_message l sender c db)
  | UpdateRelationshipVerified r => snd (update_relationship_verified r db)
  end.

(** The states reached from the empty database by statements, each one
    atomic, in any order and by any actor. *)
Inductive reachable : t -> Prop :=
| reachable_empty : reachable empty
| reachable_exec (st : statement) (db : t) :
    reachable db -> reachable (exec st db).

(** A computation that only moves between reachable states. *)
Definition stays_reachable {A : Type} (m : M A) : Prop :=
  forall db, reachable db -> reachable (snd (m db)).

End Db.

Declare Scope db_scope.
Delimit Scope db_scope with db.
Notation "x <- m ;; k" := (Db.bind m (fun x => k))
  (at level 61, m at next level, right associativity) : db_scope.
Notation "m ;;; k" := (Db.bind m (fun _ => k))
  (at level 61, right associativity) : db_scope.

(* ===================================================================== *)
(** ** Handlers of the user interface *)
(* ===================================================================== *)

(** What a handler reports to the user. *)
Inductive Toast :=
| ToastError (message : string)
| ToastSuccess (message : string).

(** *** The payment-plan message of the chat (accept, reject, counter) *)

Module PaymentPlanMessage.

Import Db.
Local Open Scope db_scope.

Record Props := {
  currentPlan : PaymentPlan;
  newPlan : PaymentPlan;
  messageId : uuid;
  liaisonId : uuid;
  senderId : uuid;
  currentUserId : option uuid
}.

Inductive Status := st_pending | st_accepted | st_rejected.

Record State := {
  isEditing : bool;
  editedPlan : PaymentPlan;
  loading : bool;
  status : Status;
  generatingSuggestion : bool
}.

(** [useState] initial values. *)
Definition init (props : Props) : State := {|
  isEditing := false;
  editedPlan := newPlan props;
  loading := false;
  status := st_pending;
  generatingSuggestion := false
|}.

(** [const isRecipient = currentUserId !== senderId] *)
Definition isRecipient (props : Props) : bool :=
  match currentUserId props with
  | Some u => negb (u =? senderId props)
  | None => true
  end.

(** [supabase.auth.getUser()] followed by
    [if (!user) throw new Error('Not authenticated')]. *)
Definition getUser (session : option uuid) : M uuid :=
  match session with
  | Some u => ret u
  | None => throw (Thrown "Not authenticated")
  end.

(** "Check for existing active payment plan" and "If there's an
    existing active plan, cancel it": the first two calls of the [try]
    block of [handleAccept]. *)
Definition cancelExistingPlan (props : Props) : M unit :=
  existingPlan <- select_active_plan (liaisonId props) ;;
  match existingPlan with
  | Some p =>
      update_Payment_plan_status (fun r => plan_id r =? plan_id p) cancelled
  | None => ret tt
  end.

(** The [try] block of [handleAccept]. *)
Definition acceptBody (session : option uuid) (props : Props) : M unit :=
  user <- getUser session ;;
  cancelExistingPlan props ;;;
  _newPaymentPlan <- insert_Payment_plan
                       (totalAmount (newPlan props))
                       (paymentPeriod (newPlan props))
                       (numberOfPayments (newPlan props))
                       (liaisonId props) active user ;;
  insert_message (liaisonId props) user
    (Text "Payment plan accepted! The new payment schedule is now active.").

Definition set_done (st : State) (s : Status) : State :=
  {| isEditing := isEditing st;
     editedPlan := editedPlan st;
     loading := false;
     status := s;
     generatingSuggestion := generatingSuggestion st |}.

Definition handleAccept (session : option uuid) (props : Props) (st : State)
           (db : Db.t) : State * list Toast * Db.t :=
  match acceptBody session props db with
  | (Ok _, db') => (set_done st st_accepted, [], db')
  | (Error _, db') =>
      (set_done st (status st),
       [ToastError "Failed to accept payment plan"], db')
  end.

(** The [try] block of [handleReject]. *)
Definition rejectBody (session : option uuid) (props : Props) : M unit :=
  user <- getUser session ;;
  insert_message (liaisonId props) user
    (Text "Payment plan rejected. The current payment schedule remains in effect.").

Definition handleReject (session : option uuid) (props : Props) (st : State)
           (db : Db.t) : State * list Toast * Db.t :=
  match rejectBody session props db with
  | (Ok _, db') => (set_done st st_rejected, [], db')
  | (Error _, db') =>
      (set_done st (status st),
       [ToastError "Failed to reject payment plan"], db')
  end.

(** The [try] block of [handleCounterOffer]: the plan offered becomes
    the current plan of the new request, the edited plan its new plan. *)
Definition counterOfferBody (session : option uuid) (props : Props)
           (st : State) : M unit :=
  user <- getUser session ;;
  insert_message (liaisonId props) user
    (PaymentPlanRequest (newPlan props) (editedPlan st) (liaisonId props)).

Definition handleCounterOffer (session : option uuid) (props : Props)
           (st : State) (db : Db.t) : State * list Toast * Db.t :=
  if totalAmount (editedPlan st) <=? 0 then
    (st, [ToastError "Total amount must be greater than 0"], db)
  else
    match counterOfferBody session props st db with
    | (Ok _, db') =>
        ({| isEditing := false;
            editedPlan := editedPlan st;
            loading := false;
            status := status st;
            generatingSuggestion := generatingSuggestion st |},
         [ToastSuccess "Counter offer sent"], db')
    | (Error _, db') =>
        (set_done st (status st),
         [ToastError "Failed to send counter offer"], db')
    end.

Definition handleCancel (props : Props) (st : State) : State :=
  {| isEditing := false;
     editedPlan := newPlan props;
     loading := loading st;
     status := status st;
     generatingSuggestion := generatingSuggestion st |}.

(** The controls of the "Actions" block. [Edit] stands for a change made
    in the editable plan card and [Generate] for the suggestion button;
    both carry the plan that ends up in [editedPlan] (the suggestion is
    computed from the database without writing to it). *)
Inductive Control :=
| Cancel
| SendCounterOffer
| CounterOffer
| Reject
| Accept
| Generate (suggestedPlan : PaymentPlan)
| Edit (plan : PaymentPlan).

Definition is_pending (s : Status) : bool :=
  match s with st_pending => true | _ => false end.

(** Whether the control is rendered and not disabled:
    [status === 'pending' && isRecipient && (...)], with the editable
    card shown while [isEditing]. *)
Definition offered (props : Props) (st : State) (c : Control) : bool :=
  match c with
  | Edit _ => isEditing st
  | _ =>
      is_pending (status st) && isRecipient props &&
      match c with
      | Cancel => isEditing st
      | SendCounterOffer => isEditing st && negb (loading st)
      | CounterOffer => negb (isEditing st)
      | Reject => negb (isEditing st) && negb (loading st)
      | Accept => negb (isEditing st) && negb (loading st)
      | Generate _ => negb (isEditing st) && negb (generatingSuggestion st)
      | Edit _ => false
      end
  end.

Definition set_editing (st : State) (plan : PaymentPlan) : State :=
  {| isEditing := true;
     editedPlan := plan;
     loading := loading st;
     status := status st;
     generatingSuggestion := generatingSuggestion st |}.

(** A click on a control: nothing happens (None) unless it is offered. *)
Definition click (session : option uuid) (props : Props) (st : State)
           (c : Control) (db : Db.t) : option (State * list Toast * Db.t) :=
  if offered props st c then
    Some match c with
         | Cancel => (handleCancel props st, [], db)
         | SendCounterOffer => handleCounterOffer session props st db
         | CounterOffer => (set_editing st (editedPlan st), [], db)
         | Reject => handleReject session props st db
         | Accept => handleAccept session props st db
         | Generate plan => (set_editing st plan, [], db)
         | Edit plan => (set_editing st plan, [], db)
         end
  else None.

(** A run of clicks; a click on a control that is not offered is lost. *)
Fixpoint clicks (session : option uuid) (props : Props) (st : State)
         (db : Db.t) (cs : list Control) : State * list Toast * Db.t :=
  match cs with
  | [] => (st, [], db)
  | c :: rest =>
      match click session props st c db with
      | None => clicks session props st db rest
      | Some (st', toasts, db') =>
          let '(st'', toasts', db'') := clicks session props st' db' rest in
          (st'', toasts ++ toasts', db'')
      end
  end.

End PaymentPlanMessage.

(** *** The renegotiation page of the client *)

Module PaymentRenegotiationPage.

Import Db.
Local Open Scope db_scope.

Record State := {
  liaisonId : option uuid;
  currentPlan : PaymentPlan;
  newPlan : PaymentPlan;
  error : option string
}.

Definition set_error (st : State) (e : option string) : State :=
  {| liaisonId := liaisonId st;
     currentPlan := currentPlan st;
     newPlan := newPlan st;
     error := e |}.

Definition submitBody (session : option uuid) (st : State) (l : uuid)
  : M unit :=
  user <- PaymentPlanMessage.getUser session ;;
  insert_message l user (PaymentPlanRequest (currentPlan st) (newPlan st) l).

Definition failure_message (e : Failure) : string :=
  match e with
  | Thrown m => m
  | PgError _ => "Failed to submit payment plan"
  end.

(** [handleSubmit]: the request is sent as a chat message. *)
Definition handleSubmit (session : option uuid) (st : State) (db : Db.t)
  : State * Db.t :=
  match liaisonId st with
  | None => (set_error st (Some "No liaison ID found"%string), db)
  | Some l =>
      if totalAmount (newPlan st) <=? 0 then
        (set_error st (Some "Total amount must be greater than 0"%string), db)
      else
        match submitBody session st l db with
        | (Ok _, db') => (set_error st None, db')
        | (Error e, db') => (set_error st (Some (failure_message e)), db')
        end
  end.

End PaymentRenegotiationPage.

(** *** Onboarding: the last step of the "add client" dialog *)

Module AddClientModal.

Import Db.
Local Open Scope db_scope.

Definition initialPaymentPlan : PaymentPlan := {|
  type := installment;
  totalAmount := 0;
  paymentPeriod := 30;
  numberOfPayments := 1;
  paymentAmount := None;
  reason := Some ""%string
|}.

(** [disabled={loading || paymentPlan.totalAmount === 0}] on the button
    that calls [handleSubmit]. *)
Definition submitDisabled (loading : bool) (paymentPlan : PaymentPlan) : bool :=
  loading || (totalAmount paymentPlan =? 0).

(** [handleSubmit] from "Create company relationship" on. The steps
    before it resolve the two companies and the liaison user; their
    results are the arguments [accountingFirmId], [clientFirmId] and
    [liaisonUser]. *)
Definition submitBody (session : option uuid) (isClient : bool)
           (accountingFirmId clientFirmId liaisonUser : uuid)
           (paymentPlan : PaymentPlan) : M unit :=
  user <- PaymentPlanMessage.getUser session ;;
  relationship <- insert_relationship accountingFirmId clientFirmId
                    (if isClient then client else accountant) ;;
  liaison <- insert_liaison (rel_id relationship)
               (if isClient then liaisonUser else user)
               (if isClient then user else liaisonUser)
               None ;;
  _plan <- insert_Payment_plan (totalAmount paymentPlan)
             (paymentPeriod paymentPlan) (numberOfPayments paymentPlan)
             (liaison_id liaison) pending user ;;
  ret tt.

Definition handleSubmit (session : option uuid) (isClient : bool)
           (accountingFirmId clientFirmId liaisonUser : uuid)
           (paymentPlan : PaymentPlan) (db : Db.t) : option string * Db.t :=
  match submitBody session isClient accountingFirmId clientFirmId
                   liaisonUser paymentPlan db with
  | (Ok _, db') => (None, db')
  | (Error e, db') =>
      (Some match e with
            | Thrown m => m
            | PgError _ => "An error occurred"%string
            end, db')
  end.

(** A click on the submit button of the payment step. *)
Definition clickSubmit (session : option uuid) (isClient loading : bool)
           (accountingFirmId clientFirmId liaisonUser : uuid)
           (paymentPlan : PaymentPlan) (db : Db.t)
  : option (option string * Db.t) :=
  if submitDisabled loading paymentPlan then None
  else Some (handleSubmit session isClient accountingFirmId clientFirmId
                          liaisonUser paymentPlan db).

End AddClientModal.

(** *** The "accept connection" button *)

Module ConnectButton.

Import Db.
Local Open Scope db_scope.

(** The [try] block of [handleConnect]. *)
Definition connectBody (relationshipId : uuid) : M unit :=
  db <- get ;;
  liaison <- lift (single (filter (fun l => company_relationship_id l
                                            =? relationshipId)
                                  (liaisons db))) ;;
  update_Payment_plan_status
    (fun p => (plan_liaison_id p =? liaison_id liaison)
              && PlanStatus_eqb (Db.status p) pending)
    active ;;;
  update_relationship_verified relationshipId.

(** [handleConnect]: [if (loading || status === 'established') return]. *)
Definition handleConnect (relationshipId : uuid) (loading : bool)
           (status : RelStatus) (db : Db.t) : RelStatus * option string * Db.t :=
  match loading, status with
  | true, _ | _, rel_established => (status, None, db)
  | _, _ =>
      match connectBody relationshipId db with
      | (Ok _, db') => (rel_verified, None, db')
      | (Error e, db') =>
          (status,
           Some match e with
                | Thrown m => m
                | PgError _ => "Failed to update connection status"%string
                end, db')
      end
  end.

End ConnectButton.

(* ===================================================================== *)
(** ** The triggers on transactions and payment plans *)
(* ===================================================================== *)

(** The schema of the migration that carries the triggers: a plan has a
    [completed] flag and a pointer to its next transaction, a transaction
    has a number within its plan. Dates are days; [numeric] is an exact
    rational. A statement either succeeds or is rolled back as a whole. *)

Module PlanTriggers.

Definition uuid := Z.

Inductive TxStatus := PENDING | PAID | OVERDUE | RENEGO.

Definition TxStatus_eqb (a b : TxStatus) : bool :=
  match a, b with
  | PENDING, PENDING | PAID, PAID | OVERDUE, OVERDUE | RENEGO, RENEGO => true
  | _, _ => false
  end.

Record Payment_plan := {
  id : uuid;
  total_due : Q;
  payment_rate : Z;
  liaison_id : uuid;
  num_payment : Z;
  next_transaction_id : option uuid;
  completed : bool
}.

Record transaction := {
  tx_id : uuid;
  amount : Q;
  due_date : Z;
  status : TxStatus;
  payment_num : Z;
  payment_plan : uuid
}.

Record t := {
  plans : list Payment_plan;
  transactions : list transaction;
  next_uuid : Z
}.

Inductive Failure :=
| RaiseException (message : string)
| CheckViolation (constraint : string)
| UniqueViolation (constraint : string)
| ForeignKeyViolation (constraint : string).

Inductive Result (A : Type) :=
| Ok (a : A)
| Error (e : Failure).
Arguments Ok {A} a.
Arguments Error {A} e.

Definition of_plan (pid : uuid) (x : transaction) : bool :=
  payment_plan x =? pid.

Definition find_plan (db : t) (pid : uuid) : option Payment_plan :=
  find (fun p => id p =? pid) (plans db).

Definition find_transaction (db : t) (tid : uuid) : option transaction :=
  find (fun x => tx_id x =? tid) (transactions db).

(** [SELECT COALESCE(MAX(payment_num), 0) FROM transactions
    WHERE payment_plan = pid] *)
Definition max_payment_num (db : t) (pid : uuid) : Z :=
  match map payment_num (filter (of_plan pid) (transactions db)) with
  | [] => 0
  | n :: ns => fold_left Z.max ns n
  end.

Definition set_next_transaction (db : t) (pid tid : uuid) : t :=
  {| plans :=
       map (fun p => if id p =? pid
                     then {| id := id p;
                             total_due := total_due p;
                             payment_rate := payment_rate p;
                             liaison_id := liaison_id p;
                             num_payment := num_payment p;
                             next_transaction_id := Some tid;
                             completed := completed p |}
                     else p) (plans db);
     transactions := transactions db;
     next_uuid := next_uuid db |}.

(** [fn_update_payment_plan_transaction], AFTER INSERT ON transactions. *)
Definition fn_update_payment_plan_transaction (NEW : transaction) (db : t) : t :=
  set_next_transaction db (payment_plan NEW) (tx_id NEW).

(** [INSERT INTO transactions (payment_plan, amount, due_date, status,
    payment_num) VALUES (...) RETURNING id], with the constraints of the
    table and the trigger [trg_payment_plan_transaction]. *)
Definition insert_transaction (db : t) (pid : uuid) (amt : Q) (due : Z)
           (s : TxStatus) (num : Z) : Result (uuid * t) :=
  if Qle_bool amt 0 then Error (CheckViolation "transactions_amount_check")
  else if negb (0 <? num) then Error (CheckViolation "transactions_payment_num_check")
  else match find_plan db pid with
       | None => Error (ForeignKeyViolation "transactions_payment_plan_fkey")
       | Some _ =>
           if existsb (fun x => of_plan pid x && (payment_num x =? num))
                      (transactions db)
           then Error (UniqueViolation "unique_payment_num_per_plan")
           else
             let row := {| tx_id := next_uuid db;
                           amount := amt;
                           due_date := due;
                           status := s;
                           payment_num := num;
                           payment_plan := pid |} in
             Ok (tx_id row,
                 fn_update_payment_plan_transaction row
                   {| plans := plans db;
                      transactions := transactions db ++ [row];
                      next_uuid := next_uuid db + 1 |})
       end.

Definition outstanding (x : transaction) : bool :=
  match status x with
  | PENDING | OVERDUE => true
  | _ => false
  end.

(** [fn_validate_payment_plan_completion], BEFORE UPDATE OF completed. *)
Definition fn_validate_payment_plan_completion (OLD NEW : Payment_plan)
           (db : t) : Result Payment_plan :=
  if completed NEW && negb (completed OLD) then
    if existsb (fun x => of_plan (id NEW) x && outstanding x) (transactions db)
    then Error (RaiseException
                  "Cannot complete payment plan with active transactions")
    else Ok NEW
  else Ok NEW.

Definition set_completed (p : Payment_plan) (v : bool) : Payment_plan :=
  {| id := id p;
     total_due := total_due p;
     payment_rate := payment_rate p;
     liaison_id := liaison_id p;
     num_payment := num_payment p;
     next_transaction_id := next_transaction_id p;
     completed := v |}.

(** [UPDATE Payment_plan SET completed = v WHERE id = pid], with the
    trigger [trg_payment_plan_completion] run for the row. *)
Definition update_plan_completed (db : t) (pid : uuid) (v : bool) : Result t :=
  match find_plan db pid with
  | None => Ok db
  | Some OLD =>
      match fn_validate_payment_plan_completion OLD (set_completed OLD v) db with
      | Error e => Error e
      | Ok NEW =>
          Ok {| plans := map (fun p => if id p =? pid then NEW else p) (plans db);
                transactions := transactions db;
                next_uuid := next_uuid db |}
      end
  end.

(** The operation [complete(plan)] of the specification. *)
Definition complete (db : t) (pid : uuid) : Result t :=
  update_plan_completed db pid true.

(** [fn_generate_next_transaction], AFTER UPDATE OF status ON
    transactions; [db] already holds the updated row [NEW]. *)
Definition fn_generate_next_transaction (NEW : transaction) (db : t) : Result t :=
  match status NEW with
  | PAID =>
      match find_plan db (payment_plan NEW) with
      | None => Ok db
      | Some v_payment_plan =>
          let v_payment_num := max_payment_num db (payment_plan NEW) in
          if v_payment_num <? num_payment v_payment_plan then
            match insert_transaction db (payment_plan NEW)
                    (total_due v_payment_plan
                     / inject_Z (num_payment v_payment_plan))%Q
                    (due_date NEW + payment_rate v_payment_plan)
                    PENDING
                    (v_payment_num + 1) with
            | Error e => Error e
            | Ok (v_next_transaction_id, db') =>
                Ok (set_next_transaction db' (payment_plan NEW)
                                         v_next_transaction_id)
            end
          else Ok db
      end
  | RENEGO => update_plan_completed db (payment_plan NEW) true
  | _ => Ok db
  end.

Definition set_tx_status (x : transaction) (s : TxStatus) : transaction :=
  {| tx_id := tx_id x;
     amount := amount x;
     due_date := due_date x;
     status := s;
     payment_num := payment_num x;
     payment_plan := payment_plan x |}.

(** The table of transactions with the row [tid] replaced by [NEW]. *)
Definition replaced (tid : uuid) (NEW : transaction) (rows : list transaction)
  : list transaction :=
  map (fun x => if tx_id x =? tid then NEW else x) rows.

(** [UPDATE transactions SET status = s WHERE id = tid], with the trigger
    [trg_transaction_status_change], which runs
    [WHEN (OLD.status IS DISTINCT FROM NEW.status)]. This is the
    operation [advance(obligation, resolution)] of the specification. *)
Definition update_transaction_status (db : t) (tid : uuid) (s : TxStatus)
  : Result t :=
  match find_transaction db tid with
  | None => Ok db
  | Some OLD =>
      let NEW := set_tx_status OLD s in
      let db' := {| plans := plans db;
                    transactions := replaced tid NEW (transactions db);
                    next_uuid := next_uuid db |} in
      if TxStatus_eqb (status OLD) (status NEW) then Ok db'
      else fn_generate_next_transaction NEW db'
  end.


(** A run of status updates, stopping at the first one refused. *)
Fixpoint advance_all (db : t) (steps : list (uuid * TxStatus)) : Result t :=
  match steps with
  | [] => Ok db
  | (tid, s) :: rest =>
      match update_transaction_status db tid s with
      | Ok db' => advance_all db' rest
      | Error e => Error e
      end
  end.

End PlanTriggers.

(* ===================================================================== *)
(** ** The reminder policy of the accountant's chat page *)
(* ===================================================================== *)

Module ReminderPolicy.

Inductive LevelId := friendly | approaching | overdue | urgent.

(** The [ReminderLevel] interface (the icon, a glyph, is left out). *)
Record ReminderLevel := {
  id : LevelId;
  title : string;
  description : string;
  color : string;
  daysBeforeDue : Z;
  crsThreshold : Z
}.

Definition REMINDER_LEVELS : list ReminderLevel := [
  {| id := friendly;
     title := "Friendly Reminder";
     description := "For high CRS clients, sent well in advance";
     color := "green";
     daysBeforeDue := 7;
     crsThreshold := 85 |};
  {| id := approaching;
     title := "Payment Approaching";
     description := "Standard reminder for good standing clients";
     color := "blue";
     daysBeforeDue := 5;
     crsThreshold := 75 |};
  {| id := overdue;
     title := "Payment Overdue";
     description := "For missed payments, professional tone";
     color := "orange";
     daysBeforeDue := 0;
     crsThreshold := 65 |};
  {| id := urgent;
     title := "Urgent Action Required";
     description := "For significantly overdue payments";
     color := "red";
     daysBeforeDue := -7;
     crsThreshold := 0 |}
].

(** [Math.ceil((new Date(due_date).getTime() - new Date().getTime())
    / (1000 * 60 * 60 * 24))], times in milliseconds. *)
Definition daysUntilDue (due_date now : Z) : Z :=
  Js.ceil_div (due_date - now) (1000 * 60 * 60 * 24).

(** "Determine reminder level based on CRS score and due date": the
    chain of tests of [generateAIReminder]; [crsScore] is
    [liaison.crs_score] as read. *)
Definition reminderLevel (daysUntilDue : Z) (crsScore : option Z)
  : option ReminderLevel :=
  if (5 <? daysUntilDue) && Js.ge_num crsScore 85 then
    nth_error REMINDER_LEVELS 0
  else if (0 <? daysUntilDue) && Js.ge_num crsScore 75 then
    nth_error REMINDER_LEVELS 1
  else if -7 <? daysUntilDue then
    nth_error REMINDER_LEVELS 2
  else
    nth_error REMINDER_LEVELS 3.

(** [generateAIReminder] up to the choice of the level: the first
    pending transaction by due date, if any, decides. *)
Definition generateAIReminder (crs_score : option Z)
           (pending_due_dates : list Z) (now : Z)
  : option ReminderLevel + Toast :=
  match pending_due_dates with
  | [] => inr (ToastError "No pending payments found")
  | due_date :: _ => inl (reminderLevel (daysUntilDue due_date now) crs_score)
  end.

End ReminderPolicy.

(* ===================================================================== *)
(** ** Readers of the stored score *)
(* ===================================================================== *)

(** Each page reads [crs_score] from the rows it selects; the argument is
    the value as JavaScript sees it. *)

Module ScoreReaders.

(** CRS analysis page, [fetchCRSData]:
    [const currentScore = liaison.crs_score || 85]. *)
Definition CRSAnalysisPage (crs_score : option Z) : Z :=
  Js.or_num crs_score 85.

(** Accountant's home page, [fetchClients]:
    [crsScore: rel.liaisons[0]?.crs_score || 85]. *)
Definition accountingHomePage (liaisons : list (option Z)) : Z :=
  Js.or_num (match liaisons with
             | [] => None
             | l :: _ => l
             end) 85.


(** Analytics page, [fetchClients]: [crsScore: liaison.crs_score]. *)
Definition AnalyticsPage (crs_score : option Z) : option Z := crs_score.

(** Payment-plan message, [generateSuggestedPlan]:
    [const crsScore = liaison.crs_score]. *)
Definition generateSuggestedPlan (crs_score : option Z) : option Z := crs_score.

(** Accountant's chat page, [generateAIReminder]:
    [const crsScore = liaison.crs_score]. *)
Definition generateAIReminder (crs_score : option Z) : option Z := crs_score.

(** The value a page receives for the column of a row. *)
Definition column (l : Db.Liaison) : option Z := Some (Db.crs_score l).

End ScoreReaders.

(* ===================================================================== *)
(** ** Sample data *)
(* ===================================================================== *)

Module Sample.

Import Db.

(** One relationship (id 1) between firm 100 and client company 200, its
    liaison (id 2) between accountant 7 and client 8, and an active plan
    (id 3) of 1200 in 4 payments every 30 days. *)
Definition db_active : Db.t :=
  exec (InsertPlan 1200 30 4 2 active 7)
    (exec (InsertLiaison 1 7 8 None)
       (exec (InsertRelationship 100 200 accountant) empty)).

Definition plan_1200 : PaymentPlan := {|
  type := installment;
  totalAmount := 1200;
  paymentPeriod := 30;
  numberOfPayments := 4;
  paymentAmount := Some (300 # 1);
  reason := None
|}.

Definition plan_900 : PaymentPlan := {|
  type := installment;
  totalAmount := 900;
  paymentPeriod := 30;
  numberOfPayments := 3;
  paymentAmount := Some (300 # 1);
  reason := Some "Smaller plan"%string
|}.

(** A request of the client (user 8) to move from the plan of 1200 to
    the plan of 900, as the accountant (user 7) sees it. *)
Definition request_seen_by_accountant : PaymentPlanMessage.Props := {|
  PaymentPlanMessage.currentPlan := plan_1200;
  PaymentPlanMessage.newPlan := plan_900;
  PaymentPlanMessage.messageId := 50;
  PaymentPlanMessage.liaisonId := 2;
  PaymentPlanMessage.senderId := 8;
  PaymentPlanMessage.currentUserId := Some 7
|}.

(** The same request as its sender (user 8) sees it. *)
Definition request_seen_by_sender : PaymentPlanMessage.Props := {|
  PaymentPlanMessage.currentPlan := plan_1200;
  PaymentPlanMessage.newPlan := plan_900;
  PaymentPlanMessage.messageId := 50;
  PaymentPlanMessage.liaisonId := 2;
  PaymentPlanMessage.senderId := 8;
  PaymentPlanMessage.currentUserId := Some 8
|}.

(** The same request on the sender's page before the page has learnt who
    the current user is ([currentUserId] still [null]). *)
Definition request_before_user_known : PaymentPlanMessage.Props := {|
  PaymentPlanMessage.currentPlan := plan_1200;
  PaymentPlanMessage.newPlan := plan_900;
  PaymentPlanMessage.messageId := 50;
  PaymentPlanMessage.liaisonId := 2;
  PaymentPlanMessage.senderId := 8;
  PaymentPlanMessage.currentUserId := None
|}.

(** A plan of 100 in no payment at all. *)
Definition plan_no_payment : PaymentPlan := {|
  type := installment;
  totalAmount := 100;
  paymentPeriod := 30;
  numberOfPayments := 0;
  paymentAmount := None;
  reason := None
|}.

(** A plan with a negative total. *)
Definition plan_negative : PaymentPlan := {|
  type := installment;
  totalAmount := -5;
  paymentPeriod := 30;
  numberOfPayments := 0;
  paymentAmount := None;
  reason := None
|}.

(** A plan with nothing due. *)
Definition plan_zero : PaymentPlan := {|
  type := lumpsum;
  totalAmount := 0;
  paymentPeriod := 30;
  numberOfPayments := 1;
  paymentAmount := None;
  reason := None
|}.

(** The state of the message once the plan with no payment has been typed
    into the editable card. *)
Definition editing_no_payment : PaymentPlanMessage.State :=
  PaymentPlanMessage.set_editing
    (PaymentPlanMessage.init request_seen_by_accountant) plan_no_payment.

Definition editing_zero : PaymentPlanMessage.State :=
  PaymentPlanMessage.set_editing
    (PaymentPlanMessage.init request_seen_by_accountant) plan_zero.

Definition renegotiation_zero : PaymentRenegotiationPage.State := {|
  PaymentRenegotiationPage.liaisonId := Some 2;
  PaymentRenegotiationPage.currentPlan := plan_1200;
  PaymentRenegotiationPage.newPlan := plan_zero;
  PaymentRenegotiationPage.error := None
|}.

(** Every control of the message, clicked in turn. *)
Definition every_control : list PaymentPlanMessage.Control := [
  PaymentPlanMessage.Accept;
  PaymentPlanMessage.Reject;
  PaymentPlanMessage.CounterOffer;
  PaymentPlanMessage.Edit plan_900;
  PaymentPlanMessage.SendCounterOffer;
  PaymentPlanMessage.Generate plan_900;
  PaymentPlanMessage.Cancel
].

(** A plan (id 1) of 1200 in 3 payments every 30 days, and its first
    transaction (id 10) of 400, due on day 100 and pending. *)
Definition db_first_pending : PlanTriggers.t := {|
  PlanTriggers.plans := [
    {| PlanTriggers.id := 1;
       PlanTriggers.total_due := 1200;
       PlanTriggers.payment_rate := 30;
       PlanTriggers.liaison_id := 2;
       PlanTriggers.num_payment := 3;
       PlanTriggers.next_transaction_id := Some 10;
       PlanTriggers.completed := false |} ];
  PlanTriggers.transactions := [
    {| PlanTriggers.tx_id := 10;
       PlanTriggers.amount := 400;
       PlanTriggers.due_date := 100;
       PlanTriggers.status := PlanTriggers.PENDING;
       PlanTriggers.payment_num := 1;
       PlanTriggers.payment_plan := 1 |} ];
  PlanTriggers.next_uuid := 11
|}.

(** A transaction of 400 that was due on day 100 (in milliseconds) and is
    overdue, and one that was paid a day early with a streak of 1. *)
Definition overdue_400 : CRS.Transaction := {|
  CRS.amount := 400;
  CRS.due_date := 8640000000;
  CRS.completion_date := None;
  CRS.status := CRS.overdue;
  CRS.impact_score := Some (-5);
  CRS.days_to_payment := None;
  CRS.payment_streak := Some 0;
  CRS.payment_consistency_score := Some (60 # 1);
  CRS.risk_level := Some CRS.high
|}.

Definition paid_early_400 : CRS.Transaction := {|
  CRS.amount := 400;
  CRS.due_date := 8640000000;
  CRS.completion_date := Some 8553600000;
  CRS.status := CRS.paid;
  CRS.impact_score := Some 8;
  CRS.days_to_payment := Some (-1);
  CRS.payment_streak := Some 1;
  CRS.payment_consistency_score := Some (90 # 1);
  CRS.risk_level := Some CRS.low
|}.

(** Runs of score updates, each a count of misses and a streak. *)
Definition four_misses : list (Z * Z) := [(1, 0); (2, 0); (3, 0); (4, 0)].

Definition five_misses : list (Z * Z) := four_misses ++ [(5, 0)].

Definition four_misses_then_streak : list (Z * Z) := four_misses ++ [(0, 12)].


End Sample.

From Stdlib Require Import Qround Qabs.

Open Scope Z_scope.

(* ===================================================================== *)
(** ** CRS analysis page: impact factors *)
(* ===================================================================== *)

Module CRSPage.

(** An entry of [impactFactors] (its description, a text, is left out). *)
Record ImpactFactor := {
  factor : string;
  impact : Q
}.

(** "Generate impact factors" of [fetchCRSData]; [Math.ceil] of a rational
    is [Qceiling], [Math.abs] is [Qabs]. *)
Definition impactFactors (hasTransactions : bool) (currentStreak : Z)
           (averageDelay : Q) : list ImpactFactor :=
  if hasTransactions then
    [ {| factor := "Consecutive Payments";
         impact := (inject_Z currentStreak
                    * CRS.RECOVERY_INCREMENT CRS.CRS_CONSTANTS)%Q |};
      {| factor := "Payment Timing";
         impact := if Qle_bool averageDelay 0 then 5%Q
                   else (- CRS.calculatePenalty
                             (Qceiling (Qabs averageDelay / 7)))%Q |};
      {| factor := "Recovery Potential";
         impact := if 6 <=? currentStreak
                   then CRS.RECOVERY_BONUS CRS.CRS_CONSTANTS
                   else CRS.RECOVERY_INCREMENT CRS.CRS_CONSTANTS |} ]
  else
    [ {| factor := "Initial Score"; impact := 0%Q |};
      {| factor := "Future Potential";
         impact := CRS.RECOVERY_INCREMENT CRS.CRS_CONSTANTS |};
      {| factor := "Bonus Opportunity";
         impact := CRS.RECOVERY_BONUS CRS.CRS_CONSTANTS |} ].

(** The impact factors that [fetchCRSData] shows for a stored score and a
    history. *)
Definition fetchImpactFactors (crs_score : option Z)
           (transactions : list CRS.Transaction) : list ImpactFactor :=
  let metrics := snd (CRS.fetchCRSData crs_score transactions) in
  impactFactors (negb (List.length transactions =? 0)%nat)
                (CRS.currentStreak metrics) (CRS.averageDelay metrics).

End CRSPage.

(* ===================================================================== *)
(** ** Reminder levels in the order of their table *)
(* ===================================================================== *)

Module ReminderOrder.

(** The index of a level in [REMINDER_LEVELS]: 0 for the friendly
    reminder, 3 for the urgent one. *)
Definition index_of (l : ReminderPolicy.LevelId) : Z :=
  match l with
  | ReminderPolicy.friendly => 0
  | ReminderPolicy.approaching => 1
  | ReminderPolicy.overdue => 2
  | ReminderPolicy.urgent => 3
  end.

(** The index of the level chosen for a number of days and a score. *)
Definition chosen_index (daysUntilDue crsScore : Z) : option Z :=
  option_map (fun l => index_of (ReminderPolicy.id l))
             (ReminderPolicy.reminderLevel daysUntilDue (Some crsScore)).

End ReminderOrder.

(* ===================================================================== *)
(** ** The suggested counter-offer of the payment-plan message *)
(* ===================================================================== *)

Module Suggestion.

Import Db.

(** [from('transactions').select(...).order('created_at', { ascending:
    false }).limit(10)]: the ten newest rows, newest first. *)
Definition recentTransactions (table : list CRS.Transaction)
  : list CRS.Transaction :=
  firstn 10 (rev table).

(** [paymentHistory.length || 1] *)
Definition totalPayments (paymentHistory : list CRS.Transaction) : Z :=
  Js.or_num (Some (Z.of_nat (List.length paymentHistory))) 1.

(** [(onTimePayments / totalPayments) * 100] *)
Definition paymentReliability (paymentHistory : list CRS.Transaction) : Q :=
  let onTimePayments :=
    Z.of_nat (List.length (filter CRS.isOnTime paymentHistory)) in
  (inject_Z onTimePayments / inject_Z (totalPayments paymentHistory) * 100)%Q.

(** [paymentHistory.reduce((sum, t) => sum + Number(t.amount), 0)
    / totalPayments] *)
Definition avgAmount (paymentHistory : list CRS.Transaction) : Q :=
  (fold_left (fun sum t => sum + CRS.amount t) paymentHistory 0
   / inject_Z (totalPayments paymentHistory))%Q.

(** [paymentHistory.length > 0 ? paymentHistory[0].risk_level : 'medium'] *)
Definition riskLevel (paymentHistory : list CRS.Transaction)
  : option CRS.RiskLevel :=
  match paymentHistory with
  | [] => Some CRS.medium
  | t :: _ => CRS.risk_level t
  end.

Definition is_high (r : option CRS.RiskLevel) : bool :=
  match r with
  | Some CRS.high => true
  | _ => false
  end.

(** [Math.round] of a rational: halves go up. *)
Definition round (x : Q) : Z := Qfloor (x + (1 # 2)).

(** [generateSuggestedPlan], from the score read, the rows of the query
    and the plan offered to the plan put into the editor. The explanation
    that becomes the [reason] of the suggestion is a text built from the
    same figures; it is the argument [explanation]. A payment amount that
    is not a finite number (no payment to divide by) is [None]. *)
Definition generateSuggestedPlan (crsScore : option Z)
           (transactions : list CRS.Transaction) (newPlan : PaymentPlan)
           (explanation : string) : PaymentPlan :=
  let paymentHistory := transactions in
  let reliability := paymentReliability paymentHistory in
  let terms :=
    if Js.ge_num crsScore 90 && Qle_bool 95 reliability then
      (Z.min 12 (numberOfPayments newPlan + 2), 90)
    else if Js.ge_num crsScore 80 && Qle_bool 85 reliability then
      (Z.min 8 (numberOfPayments newPlan + 1), 60)
    else if Js.ge_num crsScore 70 && Qle_bool 75 reliability then
      (Z.min 6 (numberOfPayments newPlan), 45)
    else
      (Z.max 3 (numberOfPayments newPlan - 1), 30) in
  let total :=
    if negb (Qle_bool (avgAmount paymentHistory) 0)
       && negb (is_high (riskLevel paymentHistory))
    then round ((avgAmount paymentHistory + inject_Z (totalAmount newPlan)) / 2)
    else totalAmount newPlan in
  {| type := type newPlan;
     totalAmount := total;
     paymentPeriod := snd terms;
     numberOfPayments := fst terms;
     paymentAmount :=
       if fst terms =? 0 then None
       else Some (inject_Z total / inject_Z (fst terms))%Q;
     reason := Some explanation |}.


End Suggestion.

(** ** The numbering of the transactions of a plan *)

Module PlanSchedule.

Import PlanTriggers.

(** What the schema and the trigger functions maintain about the
    transactions: [id] is a primary key drawn fresh, the numbers of a plan
    start at 1 without a gap, and none lies beyond [num_payment]. *)
Record schedule_ok (db : t) : Prop := {
  primary_key : NoDup (map tx_id (transactions db));
  ids_generated : forall y, In y (transactions db) -> tx_id y < next_uuid db;
  numbers_positive : forall y, In y (transactions db) -> 0 < payment_num y;
  within_num_payment :
    forall y p, In y (transactions db) ->
                find_plan db (payment_plan y) = Some p ->
                payment_num y <= num_payment p;
  no_gaps :
    forall y k, In y (transactions db) -> 1 <= k <= payment_num y ->
                exists z, In z (transactions db)
                          /\ payment_plan z = payment_plan y
                          /\ payment_num z = k
}.

(** The part of a plan that no trigger function writes. *)
Definition terms (p : Payment_plan) : uuid * Q * Z * uuid * Z :=
  (id p, total_due p, payment_rate p, liaison_id p, num_payment p).

End PlanSchedule.

(** ** Generated ids and foreign keys *)

Module DbIds.

Import Db.

(** Every id stored was drawn from the generator, and the references of
    liaisons to relationships and of plans to liaisons were checked when
    the rows were inserted. *)
Definition ids_generated (db : t) : Prop :=
  (forall r, In r (company_relationships db) -> rel_id r < next_id db)
  /\ (forall l, In l (liaisons db) ->
                liaison_id l < next_id db
                /\ company_relationship_id l < next_id db)
  /\ (forall p, In p (plans db) -> plan_liaison_id p < next_id db).

End DbIds.

(** ** The renegotiation page: loading the current plan *)

Module RenegotiationFetch.

Import Db.






End RenegotiationFetch.

(** ** A chat message *)

Module ChatMessage.

Import Db.


End ChatMessage.


(** ** The migration that adds the index on active plans *)

Module ActivePlanMigration.

Import Db.

Definition is_active (p : Payment_plan) : bool :=
  PlanStatus_eqb (status p) active.

(** "Handle existing duplicate active payment plans": among the active
    plans of a liaison, [ROW_NUMBER() OVER (PARTITION BY liaison_id ORDER
    BY created_at DESC)] gives 1 to the latest, and the rows with [rn > 1]
    are cancelled. The table lists the rows oldest first, so a row has
    [rn > 1] exactly when a later row is an active plan of its liaison. *)
Fixpoint cancel_duplicates (rows : list Payment_plan) : list Payment_plan :=
  match rows with
  | [] => []
  | p :: later =>
      (if is_active p && existsb (is_active_of (plan_liaison_id p)) later
       then set_status p cancelled
       else p) :: cancel_duplicates later
  end.


End ActivePlanMigration.

(** ** Read receipts *)

Module ReadReceipts.

Import Db.

Definition set_read (m : Message) : Message :=
  {| msg_id := msg_id m;
     msg_liaison_id := msg_liaison_id m;
     sender_id := sender_id m;
     content := content m;
     is_read := true |}.

Definition mark (messageId : uuid) (m : Message) : Message :=
  if msg_id m =? messageId then set_read m else m.

(** [from('messages').update({ is_read: true }).eq('id', messageId)] *)
Definition update_message_read (messageId : uuid) (db : Db.t) : Db.t :=
  {| company_relationships := company_relationships db;
     liaisons := liaisons db;
     plans := plans db;
     messages := map (mark messageId) (messages db);
     next_id := next_id db |}.

(** [msg.sender_id !== currentUserId] *)
Definition from_other (currentUserId : option uuid) (m : Message) : bool :=
  match currentUserId with
  | Some u => negb (sender_id m =? u)
  | None => true
  end.

Definition of_liaison (liaisonId : uuid) (m : Message) : bool :=
  msg_liaison_id m =? liaisonId.

Definition unread (currentUserId : option uuid) (m : Message) : bool :=
  negb (is_read m) && from_other currentUserId m.

(** The state of the chat page that a receipt touches: the liaison of the
    client selected, the messages shown, and the object [unreadCounts]
    (a key that is missing is [None]). *)
Record State := {
  selectedClient : option uuid;
  shown : list Message;
  unreadCounts : uuid -> option Z
}.

(** [fetchMessages]: the messages of the liaison, oldest first, and the
    number of them that are unread and from the other party. *)
Definition fetchMessages (liaisonId : uuid) (currentUserId : option uuid)
           (st : State) (db : Db.t) : State :=
  let data := filter (of_liaison liaisonId) (messages db) in
  {| selectedClient := selectedClient st;
     shown := data;
     unreadCounts :=
       fun k => if k =? liaisonId
                then Some (Z.of_nat (List.length
                                       (filter (unread currentUserId) data)))
                else unreadCounts st k |}.

(** [handleMessageRead] of the chat page. *)
Definition handleMessageRead (messageId : uuid) (st : State) (db : Db.t)
  : State * Db.t :=
  (let shown' := map (mark messageId) (shown st) in
   match selectedClient st with
   | Some l =>
       {| selectedClient := selectedClient st;
          shown := shown';
          unreadCounts :=
            fun k => if k =? l
                     then Some (Z.max 0 (Js.or_num (unreadCounts st l) 0 - 1))
                     else unreadCounts st k |}
   | None =>
       {| selectedClient := selectedClient st;
          shown := shown';
          unreadCounts := unreadCounts st |}
   end,
   update_message_read messageId db).

(** The guard of [updateMessageStatus] in the message component:
    [inView && !isRead && senderId !== currentUserId && currentUserId]. *)
Definition shouldUpdate (inView : bool) (currentUserId : option uuid)
           (m : Message) : bool :=
  inView && negb (is_read m)
  && match currentUserId with
     | Some u => negb (sender_id m =? u)
     | None => false
     end.

(** [updateMessageStatus] for the message [m] as it is shown, with
    [onMessageRead] bound to [handleMessageRead m.id] as the chat page
    binds it: the update with [.select().single()], which is an error
    unless exactly one row was updated, then [refreshUnreadCount], which
    only recomputes the badge, then the callback. *)
Definition updateMessageStatus (inView : bool) (currentUserId : option uuid)
           (m : Message) (st : State) (db : Db.t) : State * Db.t :=
  if shouldUpdate inView currentUserId m then
    let db' := update_message_read (msg_id m) db in
    match single (filter (fun x => msg_id x =? msg_id m) (messages db)) with
    | Error _ => (st, db')
    | Ok _ => handleMessageRead (msg_id m) st db'
    end
  else (st, db).

(** The page shows what the database holds for the liaison selected. *)
Definition in_step (currentUserId : option uuid) (st : State) (db : Db.t)
  : Prop :=
  forall l, selectedClient st = Some l ->
            shown st = filter (of_liaison l) (messages db)
            /\ unreadCounts st l
               = Some (Z.of_nat (List.length
                                   (filter (unread currentUserId)
                                      (filter (of_liaison l) (messages db))))).

End ReadReceipts.

(** ** The badge of unread messages *)

Module UnreadBadge.

Import Db.

(** [.or(accountant_id.eq.u, client_id.eq.u)] on liaisons. *)
Definition party (u : uuid) (l : Liaison) : bool :=
  (accountant_id l =? u) || (client_id l =? u).

(** The other party of [l] sent the message: the test of
    [validUnreadMessages]. *)
Definition sent_to (u : uuid) (m : Message) (l : Liaison) : bool :=
  (accountant_id l =? u) && (client_id l =? sender_id m)
  || (client_id l =? u) && (accountant_id l =? sender_id m).

(** [fetchUnreadCount] of the provider: the new value of [unreadCount]. *)
Definition fetchUnreadCount (session : option uuid) (unreadCount : Z)
           (db : Db.t) : Z :=
  match session with
  | None => unreadCount
  | Some u =>
      let liaisons := filter (party u) (liaisons db) in
      match liaisons with
      | [] => 0
      | _ =>
          let messages :=
            filter (fun m => existsb (fun l => liaison_id l =? msg_liaison_id m)
                                     liaisons
                             && negb (is_read m)
                             && negb (sender_id m =? u))
                   (messages db) in
          let validUnreadMessages :=
            filter (fun m => existsb (sent_to u m) liaisons) messages in
          Z.of_nat (List.length validUnreadMessages)
      end
  end.

(** The query behind the count shown beside a client or an accountant in
    the chat pages: the unread messages of the liaison that the user did
    not send. *)
Definition unreadMessages (liaison u : uuid) (db : Db.t) : list Message :=
  filter (fun m => (msg_liaison_id m =? liaison)
                   && negb (is_read m)
                   && negb (sender_id m =? u))
         (messages db).

(** The counts of the chat pages, added up over the liaisons of the user. *)
Definition pageCounts (u : uuid) (db : Db.t) : nat :=
  list_sum (map (fun l => List.length (unreadMessages (liaison_id l) u db))
                (filter (party u) (liaisons db))).


End UnreadBadge.

(** ** Further sample data *)

Module Scenario.

(** The renegotiation page of the client of liaison 2, who asks to move
    from the plan of 1200 to the plan of 900. *)
Definition renegotiation_900 : PaymentRenegotiationPage.State := {|
  PaymentRenegotiationPage.liaisonId := Some 2;
  PaymentRenegotiationPage.currentPlan := Sample.plan_1200;
  PaymentRenegotiationPage.newPlan := Sample.plan_900;
  PaymentRenegotiationPage.error := None
|}.

(** The database once that request is sent: its message has id 4. *)
Definition db_requested : Db.t :=
  snd (PaymentRenegotiationPage.handleSubmit (Some 8) renegotiation_900
         Sample.db_active).

Definition request_message : Db.Message := {|
  Db.msg_id := 4;
  Db.msg_liaison_id := 2;
  Db.sender_id := 8;
  Db.content := Db.PaymentPlanRequest Sample.plan_1200 Sample.plan_900 2;
  Db.is_read := false
|}.

(** The chat page of the accountant (user 7) with liaison 2 selected and
    its messages fetched. *)
Definition page_of_accountant : ReadReceipts.State :=
  ReadReceipts.fetchMessages 2 (Some 7)
    {| ReadReceipts.selectedClient := Some 2;
       ReadReceipts.shown := [];
       ReadReceipts.unreadCounts := fun _ => None |}
    db_requested.

End Scenario.

(** ** The test data of the transactions migration *)

Module TransactionSeed.

(** The draws of [random()], each in [0, 1), in the order in which the
    block asks for them. *)
Definition Supply := nat -> Q.

Definition R (A : Type) : Type := Supply -> A * Supply.

Definition ret {A : Type} (a : A) : R A := fun s => (a, s).

Definition bind {A B : Type} (m : R A) (k : A -> R B) : R B :=
  fun s => let '(a, s') := m s in k a s'.

Definition random : R Q := fun s => (s 0%nat, fun k => s (S k)).

Inductive Status := pending | paid | overdue | cancelled.

Inductive PaymentType := installment | lumpsum.

(** A row of [transactions] as the block inserts it. Times are kept
    relative: the due date by the number of months before today, the
    completion date by its distance in days from the due date. *)
Record Row := {
  amount : Z;
  months_before_today : Z;
  completion : option Q;
  status : Status;
  payment_type : PaymentType;
  payment_number : Z;
  payment_plan_id : Z;
  impact_score : Z;
  days_to_payment : Z;
  payment_streak : Z;
  payment_consistency_score : Q;
  risk_level : CRS.RiskLevel;
  average_payment_delay : Q
}.

(** [calculate_payment_consistency(completion_date, due_date,
    payment_streak)] *)
Definition calculate_payment_consistency (completion : option Q)
           (payment_streak : Z) : R Q :=
  match completion with
  | None => ret 0%Q
  | Some late =>
      bind random (fun r =>
        let base_score := if Qle_bool late 0 then (80 + r * 10)%Q
                          else (50 + r * 30)%Q in
        let streak_bonus := inject_Z (Z.min (payment_streak * 2) 10) in
        ret (Qmin (base_score + streak_bonus) 100))
  end.

Definition risk_of (consistency_score : Q) : CRS.RiskLevel :=
  if Qle_bool 80 consistency_score then CRS.low
  else if Qle_bool 60 consistency_score then CRS.medium
  else CRS.high.

(** One turn of the loop [FOR i IN 1..num_payment]; [to_timestamp] is the
    rounding of [random_date] to the resolution of a timestamp. The result
    carries the streak for the next turn. *)
Definition seed_row (to_timestamp : Q -> Q) (i num_payment payment_amount
                     plan_id payment_streak : Z) : R (Row * Z) :=
  bind random (fun chance =>
    if Qle_bool (7 # 10) chance then
      (* overdue *)
      bind random (fun r_impact =>
      bind random (fun r_days =>
      bind (calculate_payment_consistency None 0) (fun consistency_score =>
        ret ({| amount := payment_amount;
                months_before_today := num_payment - i;
                completion := None;
                status := overdue;
                payment_type := installment;
                payment_number := i;
                payment_plan_id := plan_id;
                impact_score := Qfloor (r_impact * 10 - 10);
                days_to_payment := Qfloor (r_days * 30 + 5);
                payment_streak := 0;
                payment_consistency_score := consistency_score;
                risk_level := risk_of consistency_score;
                average_payment_delay := 30 |}, 0))))
    else
      (* paid, between 5 days early and 3 days late *)
      bind random (fun r_date =>
        let late := to_timestamp (- (5) + r_date * 8)%Q in
        let streak := payment_streak + 1 in
        bind random (fun r_impact =>
        bind random (fun r_days =>
        bind (calculate_payment_consistency (Some late) streak)
             (fun consistency_score =>
          ret ({| amount := payment_amount;
                  months_before_today := num_payment - i;
                  completion := Some late;
                  status := paid;
                  payment_type := installment;
                  payment_number := i;
                  payment_plan_id := plan_id;
                  impact_score :=
                    if Qle_bool late 0 then Qfloor (r_impact * 5 + 6)
                    else Qfloor (r_impact * 5 + 1);
                  days_to_payment :=
                    if Qle_bool late 0 then -1 * Qfloor (r_days * 5 + 1)
                    else Qfloor (r_days * 3 + 1);
                  payment_streak := streak;
                  payment_consistency_score := consistency_score;
                  risk_level := risk_of consistency_score;
                  average_payment_delay := late |}, streak)))))).

Fixpoint generate (to_timestamp : Q -> Q) (turns : nat)
         (i num_payment payment_amount plan_id payment_streak : Z)
  : R (list Row) :=
  match turns with
  | O => ret []
  | S turns' =>
      bind (seed_row to_timestamp i num_payment payment_amount plan_id
                     payment_streak)
           (fun '(row, streak') =>
              bind (generate to_timestamp turns' (i + 1) num_payment
                             payment_amount plan_id streak')
                   (fun rows => ret (row :: rows)))
  end.

(** The body of the loop over the active plans, for one plan:
    [payment_amount := total_due / num_payment] is a division of integers
    and raises [division_by_zero] ([None]) for [num_payment = 0]. *)
Definition seed_plan (to_timestamp : Q -> Q) (plan_id total_due num_payment : Z)
  : R (option (list Row)) :=
  if num_payment =? 0 then ret None
  else
    bind (generate to_timestamp (Z.to_nat num_payment) 1 num_payment
                   (Z.quot total_due num_payment) plan_id 0)
         (fun rows => ret (Some rows)).

(** The CHECK constraints of [transactions] and the range of the
    [smallint] column [payment_number]. *)
Definition checks (r : Row) : bool :=
  (0 <? amount r)
  && (-10 <=? impact_score r) && (impact_score r <=? 10)
  && Qle_bool 0 (payment_consistency_score r)
  && Qle_bool (payment_consistency_score r) 100
  && (-32768 <=? payment_number r) && (payment_number r <=? 32767).


Definition in_range (s : Supply) : Prop :=
  forall k, (0 <= s k)%Q /\ (s k < 1)%Q.

End TransactionSeed.

(* ===================================================================== *)
(** * Properties *)
(* ===================================================================== *)

(** ** Score engine *)

Section ScoreEngine.

Import CRS.

Lemma calculatePenalty_pos (n : Z) : (0 < calculatePenalty n)%Q.
Proof.
  unfold calculatePenalty; simpl.
  assert (H : (0 < (3 # 2) ^ (n - 1))%Q) by (apply Qpower_0_lt; reflexivity).
  lra.
Qed.

Lemma calculateRecoveryBonus_pos (m : Z) :
  0 < m -> (5 <= calculateRecoveryBonus m)%Q.
Proof.
  intros Hm. unfold calculateRecoveryBonus; simpl.
  assert (H : (0 <= inject_Z (m / 6))%Q).
  { change 0%Q with (inject_Z 0). rewrite <- Zle_Qle.
    apply Z.div_pos; lia. }
  lra.
Qed.

(** One update keeps a score of the range in the range. *)
Lemma predictedScore_bounds (b : bool) (s : Q) (missed streak : Z) :
  (0 <= s <= 100)%Q -> (0 <= predictedScore b s missed streak <= 100)%Q.
Proof.
  intros [Hlo Hhi]. unfold predictedScore.
  destruct b; [| split; assumption].
  destruct (0 <? missed) eqn:Hm.
  - pose proof (calculatePenalty_pos missed) as Hp. simpl.
    split.
    + apply Q.le_max_l.
    + apply Q.max_lub; lra.
  - destruct (0 <? streak) eqn:Hs; [| split; assumption].
    apply Z.ltb_lt in Hs.
    pose proof (calculateRecoveryBonus_pos streak Hs) as Hb. simpl.
    split.
    + apply Q.min_glb; lra.
    + apply Q.le_min_l.
Qed.

Lemma applyOutcomes_bounds (outcomes : list (Z * Z)) :
  forall s : Q, (0 <= s <= 100)%Q -> (0 <= applyOutcomes s outcomes <= 100)%Q.
Proof.
  unfold applyOutcomes.
  induction outcomes as [| o rest IH]; intros s Hs; cbn [fold_left].
  - exact Hs.
  - apply IH. apply predictedScore_bounds. exact Hs.
Qed.

End ScoreEngine.

(** ** The database keeps its constraints *)

Section DbInvariants.

Import Db.

(** The index holds of a table exactly when no liaison has two active
    plans in it. *)
Lemma idx_active_payment_plan_spec (rows : list Payment_plan) :
  idx_active_payment_plan rows = true <->
  forall l, (count_active l rows <= 1)%nat.
Proof.
  unfold idx_active_payment_plan. rewrite forallb_forall. split.
  - intros H l.
    destruct (filter (is_active_of l) rows) as [| p rest] eqn:Hf.
    + unfold count_active. rewrite Hf. simpl. lia.
    + assert (Hin : In p (filter (is_active_of l) rows))
        by (rewrite Hf; left; reflexivity).
      apply filter_In in Hin. destruct Hin as [Hin Hact].
      unfold is_active_of in Hact. apply andb_true_iff in Hact.
      destruct Hact as [Hl Hs]. apply Z.eqb_eq in Hl.
      specialize (H p Hin). rewrite Hs in H. simpl in H.
      apply Nat.leb_le in H. rewrite Hl in H. exact H.
  - intros H p _. apply orb_true_iff. right.
    apply Nat.leb_le. apply H.
Qed.

Lemma crs_score_check_spec (v : Z) :
  crs_score_check v = true <-> 0 <= v <= 100.
Proof. unfold crs_score_check. rewrite andb_true_iff. lia. Qed.

Lemma exec_plans_unique (st : statement) (db : t) :
  plans_unique db -> plans_unique (exec st db).
Proof.
  intros H. unfold plans_unique.
  destruct st; simpl.
  - unfold insert_relationship. destruct (existsb _ _); simpl; exact H.
  - unfold insert_liaison.
    destruct (negb (relationship_exists db rel)); [exact H |].
    destruct (negb (crs_score_check _)); [exact H |].
    destruct (existsb _ _); simpl; exact H.
  - unfold update_crs_score. destruct (_ && _); simpl; exact H.
  - unfold insert_Payment_plan.
    destruct (negb (liaison_exists db l)); [exact H |].
    destruct (idx_active_payment_plan _) eqn:Hidx; simpl; [| exact H].
    apply idx_active_payment_plan_spec. exact Hidx.
  - unfold update_Payment_plan_status.
    destruct (idx_active_payment_plan _) eqn:Hidx; simpl; [| exact H].
    apply idx_active_payment_plan_spec. exact Hidx.
  - unfold insert_message. destruct (negb _); simpl; exact H.
  - exact H.
Qed.

Lemma exec_scores_in_range (st : statement) (db : t) :
  scores_in_range db -> scores_in_range (exec st db).
Proof.
  intros H. unfold scores_in_range in *.
  destruct st; simpl.
  - unfold insert_relationship. destruct (existsb _ _); simpl; exact H.
  - unfold insert_liaison.
    destruct (negb (relationship_exists db rel)); [exact H |].
    destruct (crs_score_check _) eqn:Hc; simpl; [| exact H].
    destruct (existsb _ _); simpl; [exact H |].
    apply Forall_app. split; [exact H |].
    constructor; [| constructor]. simpl.
    apply crs_score_check_spec. exact Hc.
  - unfold update_crs_score.
    destruct (existsb matching (liaisons db)) eqn:He; simpl.
    + destruct (crs_score_check v) eqn:Hc; simpl; [| exact H].
      apply crs_score_check_spec in Hc.
      apply Forall_map. eapply Forall_impl; [| exact H].
      intros a Ha. destruct (matching a); simpl; assumption.
    + apply Forall_map. rewrite Forall_forall in *.
      intros a Ha.
      assert (Hm : matching a = false).
      { destruct (matching a) eqn:Hm; [| reflexivity].
        assert (existsb matching (liaisons db) = true)
          by (apply existsb_exists; exists a; split; assumption).
        congruence. }
      rewrite Hm. apply H. exact Ha.
  - unfold insert_Payment_plan.
    destruct (negb (liaison_exists db l)); [exact H |].
    destruct (negb _); simpl; exact H.
  - unfold update_Payment_plan_status.
    destruct (idx_active_payment_plan _); simpl; exact H.
  - unfold insert_message. destruct (negb _); simpl; exact H.
  - exact H.
Qed.

Lemma reachable_plans_unique (db : t) : reachable db -> plans_unique db.
Proof.
  induction 1 as [| st db _ IH].
  - intros l. unfold count_active. simpl. lia.
  - apply exec_plans_unique. exact IH.
Qed.

Lemma reachable_scores_in_range (db : t) : reachable db -> scores_in_range db.
Proof.
  induction 1 as [| st db _ IH].
  - constructor.
  - apply exec_scores_in_range. exact IH.
Qed.

(** *** Handlers only move between reachable states *)

Lemma stays_ret {A : Type} (a : A) : stays_reachable (ret a).
Proof. intros db H. exact H. Qed.

Lemma stays_throw {A : Type} (e : Failure) : stays_reachable (@throw A e).
Proof. intros db H. exact H. Qed.

Lemma stays_lift {A : Type} (r : Result A) : stays_reachable (lift r).
Proof. intros db H. exact H. Qed.

Lemma stays_get : stays_reachable get.
Proof. intros db H. exact H. Qed.

Lemma stays_bind {A B : Type} (m : M A) (k : A -> M B) :
  stays_reachable m -> (forall a, stays_reachable (k a)) ->
  stays_reachable (bind m k).
Proof.
  intros Hm Hk db H. unfold bind.
  specialize (Hm db H). destruct (m db) as [[a | e] db']; simpl in *.
  - apply Hk. exact Hm.
  - exact Hm.
Qed.

Lemma stays_select_active_plan (l : uuid) :
  stays_reachable (select_active_plan l).
Proof. intros db H. exact H. Qed.

Lemma stays_insert_Payment_plan due rate num l s modifier :
  stays_reachable (insert_Payment_plan due rate num l s modifier).
Proof.
  intros db H. exact (reachable_exec (InsertPlan due rate num l s modifier) db H).
Qed.

Lemma stays_update_Payment_plan_status matching s :
  stays_reachable (update_Payment_plan_status matching s).
Proof. intros db H. exact (reachable_exec (UpdatePlanStatus matching s) db H). Qed.

Lemma stays_insert_message l sender c :
  stays_reachable (insert_message l sender c).
Proof. intros db H. exact (reachable_exec (InsertMessage l sender c) db H). Qed.

Lemma stays_insert_relationship firm client_firm by_ :
  stays_reachable (insert_relationship firm client_firm by_).
Proof.
  intros db H. exact (reachable_exec (InsertRelationship firm client_firm by_) db H).
Qed.

Lemma stays_insert_liaison rel acc cli score :
  stays_reachable (insert_liaison rel acc cli score).
Proof.
  intros db H. exact (reachable_exec (InsertLiaison rel acc cli score) db H).
Qed.

Lemma stays_update_relationship_verified r :
  stays_reachable (update_relationship_verified r).
Proof.
  intros db H. exact (reachable_exec (UpdateRelationshipVerified r) db H).
Qed.

Lemma stays_getUser session : stays_reachable (PaymentPlanMessage.getUser session).
Proof. destruct session; [apply stays_ret | apply stays_throw]. Qed.

End DbInvariants.

Create HintDb stays.
#[export] Hint Resolve stays_ret stays_throw stays_lift stays_get
  stays_select_active_plan stays_insert_Payment_plan
  stays_update_Payment_plan_status stays_insert_message
  stays_insert_relationship stays_insert_liaison
  stays_update_relationship_verified stays_getUser : stays.

Ltac stays :=
  repeat first
    [ apply stays_bind; [| intros ? ]
    | match goal with
      | |- Db.stays_reachable (match ?x with _ => _ end) => destruct x
      end
    | solve [ auto with stays ] ].

(** ** Accepting a plan *)

Section Accept.

Import Db PaymentPlanMessage.




Lemma count_active_app l rows rows' :
  count_active l (rows ++ rows')
  = (count_active l rows + count_active l rows')%nat.
Proof. unfold count_active. rewrite filter_app, length_app. reflexivity. Qed.


Lemma count_active_single l (p : Payment_plan) :
  count_active l [p] = if is_active_of l p then 1%nat else 0%nat.
Proof. unfold count_active. simpl. destruct (is_active_of l p); reflexivity. Qed.


(** *** The handlers stay within the reachable states *)


Lemma handleReject_reachable session props st db :
  reachable db -> reachable (snd (handleReject session props st db)).
Proof.
  intros H. unfold handleReject.
  assert (Hs : stays_reachable (rejectBody session props))
    by (unfold rejectBody; stays).
  specialize (Hs db H).
  destruct (rejectBody session props db) as [[a | e] db']; exact Hs.
Qed.

Lemma handleCounterOffer_reachable session props st db :
  reachable db -> reachable (snd (handleCounterOffer session props st db)).
Proof.
  intros H. unfold handleCounterOffer.
  destruct (totalAmount (editedPlan st) <=? 0); [exact H |].
  assert (Hs : stays_reachable (counterOfferBody session props st))
    by (unfold counterOfferBody; stays).
  specialize (Hs db H).
  destruct (counterOfferBody session props st db) as [[a | e] db']; exact Hs.
Qed.

Lemma renegotiation_handleSubmit_reachable session st db :
  reachable db ->
  reachable (snd (PaymentRenegotiationPage.handleSubmit session st db)).
Proof.
  intros H. unfold PaymentRenegotiationPage.handleSubmit.
  destruct (PaymentRenegotiationPage.liaisonId st) as [l |]; [| exact H].
  destruct (_ <=? 0); [exact H |].
  assert (Hs : stays_reachable (PaymentRenegotiationPage.submitBody session st l))
    by (unfold PaymentRenegotiationPage.submitBody; stays).
  specialize (Hs db H).
  destruct (PaymentRenegotiationPage.submitBody session st l db)
    as [[a | e] db']; exact Hs.
Qed.

Lemma onboarding_handleSubmit_reachable session isClient firm cfirm lu plan db :
  reachable db ->
  reachable (snd (AddClientModal.handleSubmit session isClient firm cfirm lu
                                              plan db)).
Proof.
  intros H. unfold AddClientModal.handleSubmit.
  assert (Hs : stays_reachable
                 (AddClientModal.submitBody session isClient firm cfirm lu plan))
    by (unfold AddClientModal.submitBody; stays).
  specialize (Hs db H).
  destruct (AddClientModal.submitBody session isClient firm cfirm lu plan db)
    as [[a | e] db']; exact Hs.
Qed.

Lemma handleConnect_reachable r loading status db :
  reachable db ->
  reachable (snd (ConnectButton.handleConnect r loading status db)).
Proof.
  intros H. unfold ConnectButton.handleConnect.
  assert (Hs : stays_reachable (ConnectButton.connectBody r))
    by (unfold ConnectButton.connectBody; stays).
  specialize (Hs db H).
  destruct loading, status; try exact H;
    destruct (ConnectButton.connectBody r db) as [[a | e] db']; exact Hs.
Qed.

End Accept.



(** The accept of the sample request, evaluated: plan 3 is cancelled and
    plan 4 is the active one. *)
Example handleAccept_sample :
  map (fun p => (Db.plan_id p, Db.status p))
      (Db.plans (snd (PaymentPlanMessage.handleAccept (Some 7)
                        Sample.request_seen_by_accountant
                        (PaymentPlanMessage.init Sample.request_seen_by_accountant)
                        Sample.db_active)))
  = [(3, Db.cancelled); (4, Db.active)].
Proof. reflexivity. Qed.

(** ** Score bounds, formulas and risk bands *)

Lemma fetchCRSData_currentScore_bounds (v : Z) :
  0 <= v <= 100 ->
  (0 <= inject_Z (ScoreReaders.CRSAnalysisPage (Some v)) <= 100)%Q.
Proof.
  intros Hv. unfold ScoreReaders.CRSAnalysisPage, Js.or_num.
  change 0%Q with (inject_Z 0). change 100%Q with (inject_Z 100).
  rewrite <- !Zle_Qle. destruct (v =? 0); lia.
Qed.

(** The score that the CRS page predicts lies in the range. *)
Lemma fetchCRSData_predicted_bounds (v : Z) (transactions : list CRS.Transaction) :
  0 <= v <= 100 ->
  (0 <= CRS.metricsPredictedScore (snd (CRS.fetchCRSData (Some v) transactions))
   <= 100)%Q.
Proof.
  intros Hv. unfold CRS.fetchCRSData. cbn [snd CRS.metricsPredictedScore].
  apply predictedScore_bounds.
  exact (fetchCRSData_currentScore_bounds v Hv).
Qed.

(** C2. Whatever the stored score of a liaison in a reachable state and
    whatever the run of updates applied to the score read from it, the
    result lies between 0 and 100: an update after a miss never goes below
    0 and an update after on-time payments never goes above 100, from any
    score; and a score outside [0,100] cannot be stored: every stored score
    is in the range, and a statement that would write another is refused,
    leaving the database as it was. *)
Theorem score_within_bounds (db : Db.t) (l : Db.Liaison)
        (outcomes : list (Z * Z)) :
  Db.reachable db ->
  In l (Db.liaisons db) ->
  0 <= Db.crs_score l <= 100
  /\ (0 <= CRS.applyOutcomes
             (inject_Z (ScoreReaders.CRSAnalysisPage (ScoreReaders.column l)))
             outcomes <= 100)%Q
  /\ (forall transactions,
         (0 <= CRS.metricsPredictedScore
                 (snd (CRS.fetchCRSData (ScoreReaders.column l) transactions))
          <= 100)%Q)
  /\ (forall (s : Q) (missed streak : Z),
         0 < missed -> (0 <= CRS.predictedScore true s missed streak)%Q)
  /\ (forall (s : Q) (missed streak : Z),
         missed <= 0 -> 0 < streak ->
         (CRS.predictedScore true s missed streak <= 100)%Q)
  /\ (forall (matching : Db.Liaison -> bool) (v : Z),
         matching l = true -> ~ 0 <= v <= 100 ->
         Db.update_crs_score matching v db = (Db.Error (Db.PgError "23514"), db))
  /\ (forall (rel acc cli : Db.uuid) (v : Z),
         ~ 0 <= v <= 100 ->
         exists code,
           Db.insert_liaison rel acc cli (Some v) db
           = (Db.Error (Db.PgError code), db)).
Proof.
  intros Hr Hin.
  assert (Hl : 0 <= Db.crs_score l <= 100).
  { pose proof (reachable_scores_in_range db Hr) as Hall.
    unfold Db.scores_in_range in Hall. rewrite Forall_forall in Hall.
    exact (Hall l Hin). }
  split; [exact Hl |].
  split.
  { apply applyOutcomes_bounds. apply fetchCRSData_currentScore_bounds. exact Hl. }
  split.
  { intros transactions. apply fetchCRSData_predicted_bounds. exact Hl. }
  split.
  { intros s missed streak Hm. unfold CRS.predictedScore.
    apply Z.ltb_lt in Hm. rewrite Hm. apply Q.le_max_l. }
  split.
  { intros s missed streak Hm Hs. unfold CRS.predictedScore.
    apply Z.ltb_ge in Hm. rewrite Hm. apply Z.ltb_lt in Hs. rewrite Hs.
    apply Q.le_min_l. }
  split.
  { intros matching v Hm Hv. unfold Db.update_crs_score.
    assert (He : existsb matching (Db.liaisons db) = true)
      by (apply existsb_exists; exists l; split; assumption).
    assert (Hc : Db.crs_score_check v = false).
    { destruct (Db.crs_score_check v) eqn:Hc; [| reflexivity].
      apply crs_score_check_spec in Hc. contradiction. }
    rewrite He, Hc. reflexivity. }
  intros rel acc cli v Hv. unfold Db.insert_liaison.
  assert (Hc : Db.crs_score_check v = false).
  { destruct (Db.crs_score_check v) eqn:Hc; [| reflexivity].
    apply crs_score_check_spec in Hc. contradiction. }
  rewrite Hc.
  destruct (negb (Db.relationship_exists db rel)); eexists; reflexivity.
Qed.

Lemma score_within_bounds_witness :
  0 <= 85 <= 100
  /\ (0 <= CRS.applyOutcomes 85 Sample.four_misses_then_streak <= 100)%Q.
Proof.
  assert (R : Db.reachable Sample.db_active).
  { unfold Sample.db_active. repeat apply Db.reachable_exec.
    apply Db.reachable_empty. }
  destruct (score_within_bounds Sample.db_active
              {| Db.liaison_id := 2;
                 Db.company_relationship_id := 1;
                 Db.accountant_id := 7;
                 Db.client_id := 8;
                 Db.crs_score := 85 |}
              Sample.four_misses_then_streak R)
    as (H1 & H2 & _).
  - left. reflexivity.
  - split; [exact H1 | exact H2].
Defined.

(** Sample runs, evaluated: four misses in a row take 85 down to 3.75, a
    fifth is floored at 0; a streak of 12 after the four adds 25. *)
Example applyOutcomes_sample :
  (CRS.applyOutcomes 85 Sample.four_misses == 15 # 4)%Q
  /\ (CRS.applyOutcomes 85 Sample.five_misses == 0)%Q
  /\ (CRS.applyOutcomes 85 Sample.four_misses_then_streak == 115 # 4)%Q.
Proof. repeat split; vm_compute; reflexivity. Qed.

(** The CRS page on sample histories, for a stored score of 90: one
    overdue transaction predicts 80, two predict 75 (one penalty, for two
    misses), one payment made early predicts 95. *)
Example fetchCRSData_samples :
  (CRS.metricsPredictedScore
     (snd (CRS.fetchCRSData (Some 90%Z) [Sample.overdue_400])) == 80)%Q
  /\ (CRS.metricsPredictedScore
        (snd (CRS.fetchCRSData (Some 90%Z)
                [Sample.overdue_400; Sample.overdue_400])) == 75)%Q
  /\ (CRS.metricsPredictedScore
        (snd (CRS.fetchCRSData (Some 90%Z) [Sample.paid_early_400])) == 95)%Q
  /\ CRS.riskLevel (snd (CRS.fetchCRSData (Some 90%Z) [])) = CRS.low
  /\ CRS.riskLevel (snd (CRS.fetchCRSData (Some 90%Z) [Sample.overdue_400]))
     = CRS.high.
Proof. repeat split; vm_compute; reflexivity. Qed.



(** C4, as the specification words it, fails at 82: the code classifies
    82 as low although 70 <= 82 < 85. *)
Lemma classifyRisk_82_low :
  CRS.classifyRisk 82 = CRS.low
  /\ CRS.classifyRisk 82 <> CRS.medium
  /\ (70 <= 82)%Q /\ (82 < 85)%Q
  /\ CRS.risk_level_of_crs 82 = CRS.low.
Proof.
  repeat split; try reflexivity; discriminate.
Qed.

Lemma Qle_bool_false (x y : Q) : Qle_bool x y = false <-> (y < x)%Q.
Proof.
  split.
  - intros H. apply Qnot_le_lt. intros Hle.
    apply Qle_bool_iff in Hle. congruence.
  - intros H. destruct (Qle_bool x y) eqn:E; [| reflexivity].
    apply Qle_bool_iff in E. apply Qlt_not_le in H. contradiction.
Qed.

(** C4, amended: the risk level of a score is low exactly from 80 up,
    medium exactly from 70 up to 80 excluded, high exactly below 70; the
    page and the migration that seeds transactions agree. *)
Theorem classifyRisk_bands (score : Q) :
  (CRS.classifyRisk score = CRS.low <-> (80 <= score)%Q)
  /\ (CRS.classifyRisk score = CRS.medium <-> (70 <= score)%Q /\ (score < 80)%Q)
  /\ (CRS.classifyRisk score = CRS.high <-> (score < 70)%Q)
  /\ forall crs_score : Z,
       CRS.risk_level_of_crs crs_score = CRS.classifyRisk (inject_Z crs_score).
Proof.
  unfold CRS.classifyRisk.
  destruct (Qle_bool 80 score) eqn:H80;
    destruct (Qle_bool 70 score) eqn:H70;
    try apply Qle_bool_iff in H80; try apply Qle_bool_iff in H70;
    try apply Qle_bool_false in H80; try apply Qle_bool_false in H70;
    (split; [| split; [| split]]);
    try (split; intros; try discriminate; try reflexivity; lra).
  all: intros z; unfold CRS.risk_level_of_crs, CRS.classifyRisk.
  all: destruct (80 <=? z) eqn:E80; destruct (70 <=? z) eqn:E70;
    try apply Z.leb_le in E80; try apply Z.leb_le in E70;
    try apply Z.leb_gt in E80; try apply Z.leb_gt in E70;
    try lia.
  all: repeat match goal with
         | |- context [Qle_bool ?a (inject_Z ?b)] =>
             let E := fresh "E" in
             destruct (Qle_bool a (inject_Z b)) eqn:E;
             [ apply Qle_bool_iff in E | apply Qle_bool_false in E ]
         end;
    try reflexivity;
    repeat match goal with
      | H : (_ <= inject_Z _)%Q |- _ =>
          change 80%Q with (inject_Z 80) in H;
          change 70%Q with (inject_Z 70) in H;
          rewrite <- Zle_Qle in H
      | H : (inject_Z _ < _)%Q |- _ =>
          change 80%Q with (inject_Z 80) in H;
          change 70%Q with (inject_Z 70) in H;
          rewrite <- Zlt_Qlt in H
      end; lia.
Qed.

(** ** Reminder policy *)

Lemma reminderLevel_id (d s : Z) :
  option_map ReminderPolicy.id (ReminderPolicy.reminderLevel d (Some s))
  = Some (if (5 <? d) && (85 <=? s) then ReminderPolicy.friendly
          else if (0 <? d) && (75 <=? s) then ReminderPolicy.approaching
          else if -7 <? d then ReminderPolicy.overdue
          else ReminderPolicy.urgent).
Proof.
  unfold ReminderPolicy.reminderLevel, Js.ge_num.
  destruct ((5 <? d) && (85 <=? s)); [reflexivity |].
  destruct ((0 <? d) && (75 <=? s)); [reflexivity |].
  destruct (-7 <? d); reflexivity.
Qed.

(** C5. For every number of days until the due date and every score, the
    level of the reminder is chosen by the first test that passes:
    friendly when more than 5 days remain and the score is at least 85;
    otherwise approaching when more than 0 days remain and the score is at
    least 75; otherwise overdue when more than -7 days remain; otherwise
    urgent. With score 90: due in 10 days is friendly, due in 3 days is
    approaching, 10 days overdue is urgent. *)
Theorem reminder_tier_first_match (daysUntilDue score : Z) :
  (exists level,
      ReminderPolicy.reminderLevel daysUntilDue (Some score) = Some level
      /\ In level ReminderPolicy.REMINDER_LEVELS
      /\ (ReminderPolicy.id level = ReminderPolicy.friendly
          <-> 5 < daysUntilDue /\ 85 <= score)
      /\ (ReminderPolicy.id level = ReminderPolicy.approaching
          <-> ~ (5 < daysUntilDue /\ 85 <= score)
              /\ 0 < daysUntilDue /\ 75 <= score)
      /\ (ReminderPolicy.id level = ReminderPolicy.overdue
          <-> ~ (5 < daysUntilDue /\ 85 <= score)
              /\ ~ (0 < daysUntilDue /\ 75 <= score)
              /\ -7 < daysUntilDue)
      /\ (ReminderPolicy.id level = ReminderPolicy.urgent
          <-> ~ (5 < daysUntilDue /\ 85 <= score)
              /\ ~ (0 < daysUntilDue /\ 75 <= score)
              /\ ~ -7 < daysUntilDue))
  /\ option_map ReminderPolicy.id (ReminderPolicy.reminderLevel 10 (Some 90))
     = Some ReminderPolicy.friendly
  /\ option_map ReminderPolicy.id (ReminderPolicy.reminderLevel 3 (Some 90))
     = Some ReminderPolicy.approaching
  /\ option_map ReminderPolicy.id (ReminderPolicy.reminderLevel (-10) (Some 90))
     = Some ReminderPolicy.urgent.
Proof.
  split; [| repeat split; reflexivity].
  unfold ReminderPolicy.reminderLevel, Js.ge_num.
  destruct (5 <? daysUntilDue) eqn:H5;
    destruct (85 <=? score) eqn:H85;
    destruct (0 <? daysUntilDue) eqn:H0;
    destruct (75 <=? score) eqn:H75;
    destruct (-7 <? daysUntilDue) eqn:H7;
    cbn [andb nth_error ReminderPolicy.REMINDER_LEVELS];
    repeat match goal with
      | H : (_ <? _) = true |- _ => apply Z.ltb_lt in H
      | H : (_ <? _) = false |- _ => apply Z.ltb_ge in H
      | H : (_ <=? _) = true |- _ => apply Z.leb_le in H
      | H : (_ <=? _) = false |- _ => apply Z.leb_gt in H
      end;
    try lia;
    eexists; (split; [reflexivity |]);
    (split; [simpl; tauto |]);
    cbn [ReminderPolicy.id];
    repeat split; intros; try discriminate; try reflexivity; try lia.
Qed.

(** The days until the due date, from two times in milliseconds: a due
    date 10 days ahead, a due date 2 days and 1 hour ahead (rounded up to
    3), and a due date 10 days in the past. *)
Example daysUntilDue_samples :
  ReminderPolicy.daysUntilDue 864000000 0 = 10
  /\ ReminderPolicy.daysUntilDue 176400000 0 = 3
  /\ ReminderPolicy.daysUntilDue 0 864000000 = -10.
Proof. repeat split; reflexivity. Qed.

(** ** Validation of a proposed plan *)

(** C8, as the specification words it, fails twice. A counter-offer of 100
    in 0 payments is sent: the message is inserted and the sender is told
    "Counter offer sent". And the onboarding dialog, for a total of -5 in 0
    payments, offers its submit and writes the plan row. *)
Lemma proposal_not_validated :
  Db.numberOfPayments Sample.plan_no_payment < 1
  /\ (exists st' db',
         PaymentPlanMessage.handleCounterOffer (Some 7)
           Sample.request_seen_by_accountant Sample.editing_no_payment
           Sample.db_active
         = (st', [ToastSuccess "Counter offer sent"], db')
         /\ map (fun m => (Db.sender_id m, Db.content m)) (Db.messages db')
            = [(7, Db.PaymentPlanRequest Sample.plan_900 Sample.plan_no_payment 2)])
  /\ Db.totalAmount Sample.plan_negative <= 0
  /\ Db.numberOfPayments Sample.plan_negative < 1
  /\ (exists db',
         AddClientModal.clickSubmit (Some 7) false false 100 200 8
           Sample.plan_negative Db.empty
         = Some (None, db')
         /\ map (fun p => (Db.total_due p, Db.num_payment p, Db.status p))
                (Db.plans db')
            = [(-5, 0, Db.pending)]).
Proof.
  split; [reflexivity |].
  split; [do 2 eexists; split; reflexivity |].
  split; [discriminate |].
  split; [reflexivity |].
  eexists; split; reflexivity.
Qed.

(** C8, amended. The two operations that send a proposal as a chat message,
    the counter-offer and the renegotiation request, fail with "Total
    amount must be greater than 0" when the total is 0 or less, before
    anything is written: the database is as it was and no Notice exists
    that did not before; and the onboarding dialog does not offer its
    submit while the total is 0. *)
Theorem proposal_total_must_be_positive :
  (forall session props st db,
      Db.totalAmount (PaymentPlanMessage.editedPlan st) <= 0 ->
      PaymentPlanMessage.handleCounterOffer session props st db
      = (st, [ToastError "Total amount must be greater than 0"], db))
  /\ (forall session st db l,
         PaymentRenegotiationPage.liaisonId st = Some l ->
         Db.totalAmount (PaymentRenegotiationPage.newPlan st) <= 0 ->
         PaymentRenegotiationPage.handleSubmit session st db
         = (PaymentRenegotiationPage.set_error st
              (Some "Total amount must be greater than 0"%string), db))
  /\ (forall session isClient loading firm client_firm liaisonUser plan db,
         Db.totalAmount plan = 0 ->
         AddClientModal.clickSubmit session isClient loading firm client_firm
                                    liaisonUser plan db = None).
Proof.
  split; [| split].
  - intros session props st db H. unfold PaymentPlanMessage.handleCounterOffer.
    apply Z.leb_le in H. rewrite H. reflexivity.
  - intros session st db l Hl H. unfold PaymentRenegotiationPage.handleSubmit.
    rewrite Hl. apply Z.leb_le in H. rewrite H. reflexivity.
  - intros session isClient loading firm client_firm liaisonUser plan db H.
    unfold AddClientModal.clickSubmit, AddClientModal.submitDisabled.
    rewrite H. simpl. rewrite orb_true_r. reflexivity.
Qed.

Lemma proposal_total_must_be_positive_witness :
  PaymentPlanMessage.handleCounterOffer (Some 7)
    Sample.request_seen_by_accountant Sample.editing_zero Sample.db_active
  = (Sample.editing_zero,
     [ToastError "Total amount must be greater than 0"], Sample.db_active)
  /\ PaymentRenegotiationPage.handleSubmit (Some 8) Sample.renegotiation_zero
       Sample.db_active
     = (PaymentRenegotiationPage.set_error Sample.renegotiation_zero
          (Some "Total amount must be greater than 0"%string), Sample.db_active)
  /\ AddClientModal.clickSubmit (Some 7) false false 100 200 8
       Sample.plan_zero Db.empty = None.
Proof.
  destruct proposal_total_must_be_positive as (H1 & H2 & H3).
  split; [| split].
  - apply H1. simpl. lia.
  - apply (H2 (Some 8) Sample.renegotiation_zero Sample.db_active 2).
    + reflexivity.
    + simpl. lia.
  - apply H3. reflexivity.
Defined.

(** ** Who may answer a proposal *)

(** C9, as the specification words it, fails. The handler itself asks
    nothing about the sender: run by user 8 on the request that user 8
    sent, it cancels the active plan, activates the new one and sends the
    confirmation. The page offers it to the sender as long as it has not
    learnt who the current user is. And once it has, a click reports no
    error: there is nothing to click. *)
Lemma sender_can_accept_own_proposal :
  PaymentPlanMessage.senderId Sample.request_before_user_known = 8
  /\ (exists st' db',
         PaymentPlanMessage.click (Some 8) Sample.request_before_user_known
           (PaymentPlanMessage.init Sample.request_before_user_known)
           PaymentPlanMessage.Accept Sample.db_active
         = Some (st', [], db')
         /\ PaymentPlanMessage.status st' = PaymentPlanMessage.st_accepted
         /\ map (fun p => (Db.plan_id p, Db.status p, Db.modified_by p))
                (Db.plans db')
            = [(3, Db.cancelled, Some 7); (4, Db.active, Some 8)]
         /\ map Db.sender_id (Db.messages db') = [8])
  /\ (exists st' db',
         PaymentPlanMessage.handleAccept (Some 8) Sample.request_seen_by_sender
           (PaymentPlanMessage.init Sample.request_seen_by_sender)
           Sample.db_active
         = (st', [], db')
         /\ map (fun p => (Db.plan_id p, Db.status p)) (Db.plans db')
            = [(3, Db.cancelled); (4, Db.active)])
  /\ PaymentPlanMessage.click (Some 8) Sample.request_seen_by_sender
       (PaymentPlanMessage.init Sample.request_seen_by_sender)
       PaymentPlanMessage.Accept Sample.db_active
     = None.
Proof.
  split; [reflexivity |].
  split; [do 2 eexists; repeat split; reflexivity |].
  split; [do 2 eexists; repeat split; reflexivity |].
  reflexivity.
Qed.

Lemma click_sender_none session props st c db :
  PaymentPlanMessage.isRecipient props = false ->
  PaymentPlanMessage.isEditing st = false ->
  PaymentPlanMessage.click session props st c db = None.
Proof.
  intros Hr He. unfold PaymentPlanMessage.click, PaymentPlanMessage.offered.
  rewrite Hr, He, andb_false_r.
  destruct c; reflexivity.
Qed.

(** C9, amended. When the page knows the current user and the current user
    is the sender of the proposal, no control of the message is offered:
    whatever is clicked, in whatever order, no Notice is created, no plan
    changes, nothing is reported, and the message stays as it was shown. *)
Theorem sender_is_offered_nothing (session : option Db.uuid)
        (props : PaymentPlanMessage.Props) (db : Db.t)
        (cs : list PaymentPlanMessage.Control) :
  PaymentPlanMessage.currentUserId props
  = Some (PaymentPlanMessage.senderId props) ->
  PaymentPlanMessage.clicks session props (PaymentPlanMessage.init props) db cs
  = (PaymentPlanMessage.init props, [], db)
  /\ forall c, In c cs ->
               PaymentPlanMessage.click session props
                 (PaymentPlanMessage.init props) c db = None.
Proof.
  intros Hu.
  assert (Hr : PaymentPlanMessage.isRecipient props = false).
  { unfold PaymentPlanMessage.isRecipient. rewrite Hu, Z.eqb_refl. reflexivity. }
  split.
  - induction cs as [| c rest IH]; [reflexivity |].
    cbn [PaymentPlanMessage.clicks].
    rewrite (click_sender_none session props (PaymentPlanMessage.init props)
               c db Hr eq_refl).
    exact IH.
  - intros c _. apply click_sender_none; [exact Hr | reflexivity].
Qed.

Lemma sender_is_offered_nothing_witness :
  PaymentPlanMessage.clicks (Some 8) Sample.request_seen_by_sender
    (PaymentPlanMessage.init Sample.request_seen_by_sender)
    Sample.db_active Sample.every_control
  = (PaymentPlanMessage.init Sample.request_seen_by_sender, [], Sample.db_active).
Proof.
  apply (sender_is_offered_nothing (Some 8) Sample.request_seen_by_sender
           Sample.db_active Sample.every_control).
  reflexivity.
Defined.

(** The same clicks by the recipient do change the database. *)
Example recipient_clicks_sample :
  let '(_, toasts, db') :=
    PaymentPlanMessage.clicks (Some 7) Sample.request_seen_by_accountant
      (PaymentPlanMessage.init Sample.request_seen_by_accountant)
      Sample.db_active Sample.every_control in
  toasts = []
  /\ map (fun p => (Db.plan_id p, Db.status p)) (Db.plans db')
     = [(3, Db.cancelled); (4, Db.active)]
  /\ List.length (Db.messages db') = 1%nat.
Proof. repeat split; reflexivity. Qed.

(** ** Advancing an obligation *)

Section Advance.

Import PlanTriggers.




Lemma find_transaction_In (db : t) (tid : uuid) (x : transaction) :
  find_transaction db tid = Some x -> In x (transactions db) /\ tx_id x = tid.
Proof.
  unfold find_transaction. intros H. apply find_some in H.
  destruct H as [Hin He]. apply Z.eqb_eq in He. split; assumption.
Qed.

Lemma find_plan_id (db : t) (pid : uuid) (p : Payment_plan) :
  find_plan db pid = Some p -> id p = pid.
Proof.
  unfold find_plan. intros H. apply find_some in H.
  destruct H as [_ He]. apply Z.eqb_eq in He. exact He.
Qed.



Lemma NoDup_map_inj {A B : Type} (f : A -> B) (rows : list A) (a b : A) :
  NoDup (map f rows) -> In a rows -> In b rows -> f a = f b -> a = b.
Proof.
  induction rows as [| r rows IH]; intros Hnd Ha Hb Hf; [destruct Ha |].
  cbn [map] in Hnd. inversion Hnd as [| ? ? Hnotin Hnd']; subst.
  destruct Ha as [-> | Ha], Hb as [-> | Hb].
  - reflexivity.
  - exfalso. apply Hnotin. rewrite Hf. apply in_map. exact Hb.
  - exfalso. apply Hnotin. rewrite <- Hf. apply in_map. exact Ha.
  - apply IH; assumption.
Qed.


End Advance.




(** A plan paid to its end: three payments add two transactions, the third
    adds none. *)
Example paid_to_the_end :
  exists db',
    PlanTriggers.advance_all Sample.db_first_pending
      [(10, PlanTriggers.PAID); (11, PlanTriggers.PAID); (12, PlanTriggers.PAID)]
    = PlanTriggers.Ok db'
    /\ map (fun x => (PlanTriggers.tx_id x, PlanTriggers.payment_num x,
                      PlanTriggers.due_date x, PlanTriggers.status x))
           (PlanTriggers.transactions db')
       = [(10, 1, 100, PlanTriggers.PAID); (11, 2, 130, PlanTriggers.PAID);
          (12, 3, 160, PlanTriggers.PAID)]
    /\ map PlanTriggers.next_transaction_id (PlanTriggers.plans db') = [Some 12].
Proof. eexists. repeat split; reflexivity. Qed.

(** ** Completing a plan *)

(** C7, as the specification words it, fails on a plan that is already
    completed. Transaction 10 is renegotiated, which completes its plan;
    it is then resolved as paid, which adds the pending transaction 11;
    completing the plan again is accepted although 11 is pending. *)
Lemma completing_again_is_accepted :
  exists db2,
    PlanTriggers.advance_all Sample.db_first_pending
      [(10, PlanTriggers.RENEGO); (10, PlanTriggers.PAID)] = PlanTriggers.Ok db2
    /\ map (fun p => (PlanTriggers.id p, PlanTriggers.completed p))
           (PlanTriggers.plans db2) = [(1, true)]
    /\ map (fun x => (PlanTriggers.tx_id x, PlanTriggers.payment_plan x,
                      PlanTriggers.status x))
           (PlanTriggers.transactions db2)
       = [(10, 1, PlanTriggers.PAID); (11, 1, PlanTriggers.PENDING)]
    /\ PlanTriggers.complete db2 1 = PlanTriggers.Ok db2.
Proof. eexists. repeat split; reflexivity. Qed.

Lemma existsb_outstanding (db : PlanTriggers.t) (pid : PlanTriggers.uuid) :
  existsb (fun x => PlanTriggers.of_plan pid x && PlanTriggers.outstanding x)
          (PlanTriggers.transactions db) = true
  <-> exists x, In x (PlanTriggers.transactions db)
                /\ PlanTriggers.payment_plan x = pid
                /\ (PlanTriggers.status x = PlanTriggers.PENDING
                    \/ PlanTriggers.status x = PlanTriggers.OVERDUE).
Proof.
  rewrite existsb_exists. split.
  - intros (x & Hin & Hc). apply andb_true_iff in Hc. destruct Hc as [Hp Ho].
    apply Z.eqb_eq in Hp. exists x. split; [exact Hin |]. split; [exact Hp |].
    unfold PlanTriggers.outstanding in Ho.
    destruct (PlanTriggers.status x); try discriminate; auto.
  - intros (x & Hin & Hp & Hs). exists x. split; [exact Hin |].
    apply andb_true_iff. split.
    + apply Z.eqb_eq. exact Hp.
    + unfold PlanTriggers.outstanding. destruct Hs as [-> | ->]; reflexivity.
Qed.

(** C7, amended. Completing a plan that is not yet completed is refused
    with the exception "Cannot complete payment plan with active
    transactions", the database staying as it was, whenever a transaction
    of the plan is pending or overdue; otherwise it is accepted: the plan
    is completed and the transactions are untouched. *)
Theorem complete_guard (db : PlanTriggers.t) (pid : PlanTriggers.uuid)
        (p : PlanTriggers.Payment_plan) :
  PlanTriggers.find_plan db pid = Some p ->
  PlanTriggers.completed p = false ->
  ((exists x, In x (PlanTriggers.transactions db)
              /\ PlanTriggers.payment_plan x = pid
              /\ (PlanTriggers.status x = PlanTriggers.PENDING
                  \/ PlanTriggers.status x = PlanTriggers.OVERDUE)) ->
   PlanTriggers.complete db pid
   = PlanTriggers.Error
       (PlanTriggers.RaiseException
          "Cannot complete payment plan with active transactions"))
  /\ (~ (exists x, In x (PlanTriggers.transactions db)
                   /\ PlanTriggers.payment_plan x = pid
                   /\ (PlanTriggers.status x = PlanTriggers.PENDING
                       \/ PlanTriggers.status x = PlanTriggers.OVERDUE)) ->
      exists db',
        PlanTriggers.complete db pid = PlanTriggers.Ok db'
        /\ PlanTriggers.transactions db' = PlanTriggers.transactions db
        /\ option_map PlanTriggers.completed (PlanTriggers.find_plan db' pid)
           = Some true).
Proof.
  intros Hp Hc.
  pose proof (find_plan_id db pid p Hp) as Hid.
  unfold PlanTriggers.complete, PlanTriggers.update_plan_completed.
  rewrite Hp. unfold PlanTriggers.fn_validate_payment_plan_completion.
  cbn [PlanTriggers.set_completed PlanTriggers.completed PlanTriggers.id].
  rewrite Hc. subst pid. cbn [andb negb].
  split.
  - intros Hex. apply existsb_outstanding in Hex. rewrite Hex. reflexivity.
  - intros Hno.
    destruct (existsb _ (PlanTriggers.transactions db)) eqn:E.
    + apply existsb_outstanding in E. contradiction.
    + eexists. split; [reflexivity |]. split; [reflexivity |].
      unfold PlanTriggers.find_plan in *. cbn [PlanTriggers.plans].
      clear E Hno. revert Hp.
      induction (PlanTriggers.plans db) as [| q rows IH]; [discriminate |].
      cbn [map find]. destruct (PlanTriggers.id q =? PlanTriggers.id p) eqn:Eq.
      * intros _. cbn [PlanTriggers.id PlanTriggers.set_completed].
        rewrite Z.eqb_refl. reflexivity.
      * rewrite Eq. exact IH.
Qed.

Lemma complete_guard_witness :
  PlanTriggers.complete Sample.db_first_pending 1
  = PlanTriggers.Error
      (PlanTriggers.RaiseException
         "Cannot complete payment plan with active transactions").
Proof.
  refine (proj1 (complete_guard Sample.db_first_pending 1
                   {| PlanTriggers.id := 1;
                      PlanTriggers.total_due := 1200;
                      PlanTriggers.payment_rate := 30;
                      PlanTriggers.liaison_id := 2;
                      PlanTriggers.num_payment := 3;
                      PlanTriggers.next_transaction_id := Some 10;
                      PlanTriggers.completed := false |} _ _) _).
  - reflexivity.
  - reflexivity.
  - eexists. split; [left; reflexivity |]. split; [reflexivity |].
    left. reflexivity.
Defined.

(** Once the three payments are made the plan can be completed. *)
Example complete_after_all_paid :
  exists db' db'',
    PlanTriggers.advance_all Sample.db_first_pending
      [(10, PlanTriggers.PAID); (11, PlanTriggers.PAID); (12, PlanTriggers.PAID)]
    = PlanTriggers.Ok db'
    /\ PlanTriggers.complete db' 1 = PlanTriggers.Ok db''
    /\ map PlanTriggers.completed (PlanTriggers.plans db'') = [true].
Proof. do 2 eexists. repeat split; reflexivity. Qed.

(** ** The score of a fresh relationship *)






(** The readers with the fallback also replace a stored score of 0. *)
Example stored_zero_reads_85 :
  Db.crs_score_check 0 = true
  /\ ScoreReaders.CRSAnalysisPage (Some 0) = 85
  /\ ScoreReaders.accountingHomePage [Some 0] = 85
  /\ ScoreReaders.AnalyticsPage (Some 0) = Some 0.
Proof. repeat split; reflexivity. Qed.

(* ===================================================================== *)
(** * Further properties of the code *)
(* ===================================================================== *)

(** ** Score engine: escalation and recovery *)



Lemma penalty_escalates_bound (n : Z) :
  1 <= n -> (10 <= CRS.calculatePenalty n)%Q.
Proof.
  intros Hn. unfold CRS.calculatePenalty.
  cbn [CRS.BASE_PENALTY CRS.PENALTY_MULTIPLIER CRS.CRS_CONSTANTS].
  assert (H1 : (1 <= (3 # 2) ^ (n - 1))%Q).
  { apply Qpower_1_le; [discriminate | lia]. }
  lra.
Qed.


(** The recovery bonus is 5 for a streak below 6, gains 10 with every 6
    further payments in the streak, and never decreases as the streak
    grows. *)
Theorem recovery_bonus_steps (m m' : Z) :
  (CRS.calculateRecoveryBonus (m + 6) == CRS.calculateRecoveryBonus m + 10)%Q
  /\ (0 <= m < 6 -> (CRS.calculateRecoveryBonus m == 5)%Q)
  /\ (m <= m' ->
      (CRS.calculateRecoveryBonus m <= CRS.calculateRecoveryBonus m')%Q).
Proof.
  unfold CRS.calculateRecoveryBonus.
  cbn [CRS.RECOVERY_INCREMENT CRS.RECOVERY_BONUS CRS.CRS_CONSTANTS].
  split; [| split].
  - replace ((m + 6) / 6) with (m / 6 + 1)
      by (rewrite <- (Z.div_add m 1 6) by lia; f_equal; lia).
    rewrite inject_Z_plus. ring.
  - intros Hm. rewrite Z.div_small by lia. ring.
  - intros Hle.
    assert (H : (inject_Z (m / 6) <= inject_Z (m' / 6))%Q).
    { rewrite <- Zle_Qle. apply Z.div_le_mono; lia. }
    lra.
Qed.

Lemma recovery_bonus_steps_witness :
  (CRS.calculateRecoveryBonus 3 == 5)%Q
  /\ (CRS.calculateRecoveryBonus 3 <= CRS.calculateRecoveryBonus 20)%Q.
Proof.
  destruct (recovery_bonus_steps 3 20) as (_ & H1 & H2).
  split; [apply H1 | apply H2]; lia.
Defined.

(** ** CRS analysis page: what the history does to the prediction *)

Lemma filter_length_le {A : Type} (f : A -> bool) (rows : list A) :
  (List.length (filter f rows) <= List.length rows)%nat.
Proof.
  induction rows as [| r rows IH]; simpl; [lia |].
  destruct (f r); simpl; lia.
Qed.

(** The counts shown by the CRS page are consistent, and one settled
    transaction that was not paid on time decides the prediction: with a
    stored score in range, any late or unpaid settled transaction makes the
    predicted score at most the current one, whatever the streak, while a
    history without one never predicts less than the current score. *)
Theorem late_payment_blocks_recovery (crs_score : Z)
        (transactions : list CRS.Transaction) :
  0 <= crs_score <= 100 ->
  let current := fst (CRS.fetchCRSData (Some crs_score) transactions) in
  let metrics := snd (CRS.fetchCRSData (Some crs_score) transactions) in
  0 <= CRS.onTimePayments metrics <= CRS.totalTransactions metrics
  /\ CRS.totalTransactions metrics <= Z.of_nat (List.length transactions)
  /\ (CRS.onTimePayments metrics < CRS.totalTransactions metrics ->
      (CRS.metricsPredictedScore metrics <= current)%Q)
  /\ (CRS.onTimePayments metrics = CRS.totalTransactions metrics ->
      (current <= CRS.metricsPredictedScore metrics)%Q).
Proof.
  intros Hv current metrics.
  assert (Hcur : (0 <= current <= 100)%Q)
    by exact (fetchCRSData_currentScore_bounds crs_score Hv).
  unfold metrics, current in *. unfold CRS.fetchCRSData in *.
  cbn [fst snd CRS.onTimePayments CRS.totalTransactions
       CRS.metricsPredictedScore] in *.
  set (completed := filter _ transactions).
  set (cur := inject_Z (Js.or_num (Some crs_score) 85)) in *.
  pose proof (filter_length_le CRS.isOnTime completed) as H1.
  pose proof (filter_length_le
                (fun t => negb (CRS.TxStatus_eqb (CRS.status t) CRS.pending))
                transactions) as H2.
  fold completed in H2.
  split; [lia |]. split; [lia |]. split.
  - intros Hlt.
    assert (Hne : transactions <> []).
    { intros ->. unfold completed in Hlt. simpl in Hlt. lia. }
    destruct transactions as [| t0 rest]; [congruence |].
    cbn [List.length Nat.eqb negb]. unfold CRS.predictedScore.
    assert (Hm : (0 <? Z.of_nat (List.length completed)
                       - Z.of_nat (List.length (filter CRS.isOnTime completed)))
                 = true) by (apply Z.ltb_lt; lia).
    rewrite Hm. cbn [CRS.MIN_SCORE CRS.CRS_CONSTANTS].
    pose proof (calculatePenalty_pos
                  (Z.of_nat (List.length completed)
                   - Z.of_nat (List.length (filter CRS.isOnTime completed)))).
    apply Q.max_lub; lra.
  - intros Heq. unfold CRS.predictedScore.
    destruct (negb _); [| lra].
    assert (Hm : (0 <? Z.of_nat (List.length completed)
                       - Z.of_nat (List.length (filter CRS.isOnTime completed)))
                 = false) by (apply Z.ltb_ge; lia).
    rewrite Hm.
    match goal with
    | |- context [0 <? ?s] => destruct (0 <? s) eqn:Hs; [| lra]
    end.
    apply Z.ltb_lt in Hs.
    match type of Hs with
    | 0 < ?s => pose proof (calculateRecoveryBonus_pos s Hs)
    end.
    cbn [CRS.MAX_SCORE CRS.CRS_CONSTANTS]. apply Q.min_glb; lra.
Qed.

Lemma late_payment_blocks_recovery_witness :
  (CRS.metricsPredictedScore
     (snd (CRS.fetchCRSData (Some 90%Z)
             [Sample.overdue_400; Sample.paid_early_400]))
   <= fst (CRS.fetchCRSData (Some 90%Z)
             [Sample.overdue_400; Sample.paid_early_400]))%Q.
Proof.
  refine (proj1 (proj2 (proj2
            (late_payment_blocks_recovery 90
               [Sample.overdue_400; Sample.paid_early_400] _))) _).
  - lia.
  - vm_compute. reflexivity.
Defined.

Lemma Qceiling_pos (x : Q) : (0 < x)%Q -> 1 <= Qceiling x.
Proof.
  intros Hx. pose proof (Qle_ceiling x) as Hc.
  assert (H : (0 < inject_Z (Qceiling x))%Q) by lra.
  change 0%Q with (inject_Z 0) in H. rewrite <- Zlt_Qlt in H. lia.
Qed.

(** The "Payment Timing" factor of the CRS page is worth +5 when the
    average delay is zero or negative, and costs at least the base penalty
    of 10 as soon as the average delay is positive, however small. *)
Theorem payment_timing_impact (currentStreak : Z) (averageDelay : Q) :
  exists a b c,
    CRSPage.impactFactors true currentStreak averageDelay = [a; b; c]
    /\ CRSPage.factor b = "Payment Timing"%string
    /\ ((averageDelay <= 0)%Q -> CRSPage.impact b = 5%Q)
    /\ ((0 < averageDelay)%Q -> (CRSPage.impact b <= - (10))%Q).
Proof.
  unfold CRSPage.impactFactors. do 3 eexists.
  split; [reflexivity |]. split; [reflexivity |].
  cbn [CRSPage.impact]. split.
  - intros H. apply Qle_bool_iff in H. rewrite H. reflexivity.
  - intros H. apply Qle_bool_false in H. rewrite H.
    apply Qle_bool_false in H.
    assert (Hc : 1 <= Qceiling (Qabs averageDelay / 7)).
    { apply Qceiling_pos. apply Qlt_shift_div_l; [reflexivity |].
      rewrite Qmult_0_l. rewrite Qabs_pos by lra. exact H. }
    pose proof (penalty_escalates_bound (Qceiling (Qabs averageDelay / 7)) Hc).
    lra.
Qed.

Lemma payment_timing_impact_witness :
  exists a b c,
    CRSPage.impactFactors true 2 (1 # 2) = [a; b; c]
    /\ (CRSPage.impact b <= - (10))%Q.
Proof.
  destruct (payment_timing_impact 2 (1 # 2)) as (a & b & c & H & _ & _ & Hlate).
  exists a, b, c. split; [exact H |]. apply Hlate. reflexivity.
Defined.

(** ** Reminder policy: order and rounding *)

(** The reminder never softens as the due date comes closer or passes, nor
    as the score falls: with fewer days left and a score no higher, the
    level chosen is the same or one further down the table of levels. *)
Theorem reminder_level_monotone (d d' s s' : Z) :
  d' <= d -> s' <= s ->
  exists i i',
    ReminderOrder.chosen_index d s = Some i
    /\ ReminderOrder.chosen_index d' s' = Some i'
    /\ i <= i'.
Proof.
  intros Hd Hs.
  unfold ReminderOrder.chosen_index, ReminderPolicy.reminderLevel, Js.ge_num.
  destruct (5 <? d) eqn:A; destruct (85 <=? s) eqn:B;
    destruct (0 <? d) eqn:C; destruct (75 <=? s) eqn:D;
    destruct (-7 <? d) eqn:E;
    destruct (5 <? d') eqn:A'; destruct (85 <=? s') eqn:B';
    destruct (0 <? d') eqn:C'; destruct (75 <=? s') eqn:D';
    destruct (-7 <? d') eqn:E';
    repeat match goal with
      | H : (_ <? _) = true |- _ => apply Z.ltb_lt in H
      | H : (_ <? _) = false |- _ => apply Z.ltb_ge in H
      | H : (_ <=? _) = true |- _ => apply Z.leb_le in H
      | H : (_ <=? _) = false |- _ => apply Z.leb_gt in H
      end;
    try lia;
    cbn; do 2 eexists; (split; [reflexivity |]); (split; [reflexivity |]); lia.
Qed.

Lemma reminder_level_monotone_witness :
  exists i i',
    ReminderOrder.chosen_index 10 90 = Some i
    /\ ReminderOrder.chosen_index (-8) 60 = Some i'
    /\ i <= i'.
Proof. apply (reminder_level_monotone 10 (-8) 90 60); lia. Defined.

(** The days until the due date are the time left rounded up to whole
    days: the result is [k] exactly when the time left, in milliseconds,
    is more than [k - 1] days and at most [k] days. Due in one millisecond
    counts as one day, due right now as zero, one millisecond late still
    as zero. *)
Theorem daysUntilDue_rounds_up (due_date now k : Z) :
  ReminderPolicy.daysUntilDue due_date now = k
  <-> (k - 1) * 86400000 < due_date - now <= k * 86400000.
Proof.
  unfold ReminderPolicy.daysUntilDue, Js.ceil_div.
  change (1000 * 60 * 60 * 24) with 86400000.
  pose proof (Z.div_mod (- (due_date - now)) 86400000 ltac:(lia)) as Hdm.
  pose proof (Z.mod_pos_bound (- (due_date - now)) 86400000 ltac:(lia)) as Hb.
  split; intros H; nia.
Qed.

Example daysUntilDue_edges :
  ReminderPolicy.daysUntilDue 1 0 = 1
  /\ ReminderPolicy.daysUntilDue 0 0 = 0
  /\ ReminderPolicy.daysUntilDue 0 1 = 0
  /\ ReminderPolicy.daysUntilDue 0 86400000 = -1.
Proof. repeat split; reflexivity. Qed.

(** ** The suggested counter-offer *)




(** A higher score never shortens the suggested payment period: for the
    same history and the same offered plan, the period suggested for a
    score is at most the period suggested for any higher score. *)
Theorem suggestion_period_monotone (c c' : Z)
        (transactions : list CRS.Transaction) (newPlan : Db.PaymentPlan)
        (explanation : string) :
  c <= c' ->
  Db.paymentPeriod (Suggestion.generateSuggestedPlan (Some c) transactions
                      newPlan explanation)
  <= Db.paymentPeriod (Suggestion.generateSuggestedPlan (Some c') transactions
                         newPlan explanation).
Proof.
  intros Hc. unfold Suggestion.generateSuggestedPlan, Js.ge_num.
  cbn [Db.paymentPeriod].
  destruct (Qle_bool 95 _); destruct (Qle_bool 85 _); destruct (Qle_bool 75 _);
    destruct (90 <=? c) eqn:A; destruct (80 <=? c) eqn:B;
    destruct (70 <=? c) eqn:C;
    destruct (90 <=? c') eqn:A'; destruct (80 <=? c') eqn:B';
    destruct (70 <=? c') eqn:C';
    repeat match goal with
      | H : (_ <=? _) = true |- _ => apply Z.leb_le in H
      | H : (_ <=? _) = false |- _ => apply Z.leb_gt in H
      end;
    try lia; cbn; lia.
Qed.

Lemma suggestion_period_monotone_witness :
  Db.paymentPeriod (Suggestion.generateSuggestedPlan (Some 60)
                      [Sample.paid_early_400] Sample.plan_900 "")
  <= Db.paymentPeriod (Suggestion.generateSuggestedPlan (Some 95)
                         [Sample.paid_early_400] Sample.plan_900 "").
Proof.
  apply (suggestion_period_monotone 60 95 [Sample.paid_early_400]
           Sample.plan_900 ""). lia.
Defined.

(** The number of payments is not monotone in the same way: for one
    payment offered, a score of 60 is suggested three payments and a score
    of 75, with the same spotless history, one. *)
Example suggestion_number_not_monotone :
  Db.numberOfPayments (Suggestion.generateSuggestedPlan (Some 60)
                         [Sample.paid_early_400] Sample.plan_zero "") = 3
  /\ Db.numberOfPayments (Suggestion.generateSuggestedPlan (Some 75)
                            [Sample.paid_early_400] Sample.plan_zero "") = 1.
Proof. split; reflexivity. Qed.

(** Without a payment made on time among the rows of the query, and so in
    particular without any row, the suggestion is the conservative one
    whatever the score: 30 days and the larger of 3 and one payment fewer
    than offered; and without any row the total is the one offered. *)
Theorem suggestion_without_record (crsScore : option Z)
        (transactions : list CRS.Transaction) (newPlan : Db.PaymentPlan)
        (explanation : string) :
  filter CRS.isOnTime transactions = [] ->
  let s := Suggestion.generateSuggestedPlan crsScore transactions newPlan
                                            explanation in
  Db.paymentPeriod s = 30
  /\ Db.numberOfPayments s = Z.max 3 (Db.numberOfPayments newPlan - 1)
  /\ (transactions = [] -> Db.totalAmount s = Db.totalAmount newPlan).
Proof.
  intros Hf s. unfold s, Suggestion.generateSuggestedPlan.
  cbn [Db.paymentPeriod Db.numberOfPayments Db.totalAmount].
  assert (Hr : (Suggestion.paymentReliability transactions == 0)%Q).
  { unfold Suggestion.paymentReliability. rewrite Hf. simpl.
    unfold Qdiv. ring. }
  assert (H95 : Qle_bool 95 (Suggestion.paymentReliability transactions) = false)
    by (apply Qle_bool_false; rewrite Hr; reflexivity).
  assert (H85 : Qle_bool 85 (Suggestion.paymentReliability transactions) = false)
    by (apply Qle_bool_false; rewrite Hr; reflexivity).
  assert (H75 : Qle_bool 75 (Suggestion.paymentReliability transactions) = false)
    by (apply Qle_bool_false; rewrite Hr; reflexivity).
  rewrite H95, H85, H75, !andb_false_r. cbn [fst snd].
  split; [reflexivity |]. split; [reflexivity |].
  intros ->. reflexivity.
Qed.

Lemma suggestion_without_record_witness :
  Db.paymentPeriod (Suggestion.generateSuggestedPlan (Some 100)
                      (Suggestion.recentTransactions []) Sample.plan_900 "")
  = 30.
Proof.
  exact (proj1 (suggestion_without_record (Some 100)
                  (Suggestion.recentTransactions []) Sample.plan_900 ""
                  eq_refl)).
Defined.




(** ** The controls of the payment-plan message *)

Lemma clicks_editing_cancel (session : option Db.uuid)
      (props : PaymentPlanMessage.Props) (db : Db.t)
      (plans : list Db.PaymentPlan) :
  PaymentPlanMessage.isRecipient props = true ->
  forall p,
    PaymentPlanMessage.clicks session props
      (PaymentPlanMessage.set_editing (PaymentPlanMessage.init props) p) db
      (map PaymentPlanMessage.Edit plans ++ [PaymentPlanMessage.Cancel])
    = (PaymentPlanMessage.init props, [], db).
Proof.
  intros Hr. induction plans as [| q plans IH]; intros p.
  - cbn [map app PaymentPlanMessage.clicks].
    unfold PaymentPlanMessage.click.
    cbn [PaymentPlanMessage.offered PaymentPlanMessage.set_editing
         PaymentPlanMessage.init PaymentPlanMessage.status
         PaymentPlanMessage.isEditing PaymentPlanMessage.is_pending].
    rewrite Hr. reflexivity.
  - cbn [map app PaymentPlanMessage.clicks].
    unfold PaymentPlanMessage.click at 1.
    cbn [PaymentPlanMessage.offered PaymentPlanMessage.set_editing
         PaymentPlanMessage.isEditing].
    change (PaymentPlanMessage.set_editing
              (PaymentPlanMessage.set_editing (PaymentPlanMessage.init props) p) q)
      with (PaymentPlanMessage.set_editing (PaymentPlanMessage.init props) q).
    rewrite (IH q). reflexivity.
Qed.

(** Cancel discards the edits: the recipient who opens the editor, by the
    counter-offer button or by a suggestion, changes the plan any number
    of times and cancels, finds the message as it was first shown, and the
    database untouched. *)
Theorem cancel_discards_edits (session : option Db.uuid)
        (props : PaymentPlanMessage.Props) (db : Db.t)
        (suggested : Db.PaymentPlan) (edits : list Db.PaymentPlan) :
  PaymentPlanMessage.isRecipient props = true ->
  PaymentPlanMessage.clicks session props (PaymentPlanMessage.init props) db
    (PaymentPlanMessage.CounterOffer
       :: map PaymentPlanMessage.Edit edits ++ [PaymentPlanMessage.Cancel])
  = (PaymentPlanMessage.init props, [], db)
  /\ PaymentPlanMessage.clicks session props (PaymentPlanMessage.init props) db
       (PaymentPlanMessage.Generate suggested
          :: map PaymentPlanMessage.Edit edits ++ [PaymentPlanMessage.Cancel])
     = (PaymentPlanMessage.init props, [], db).
Proof.
  intros Hr. split.
  - cbn [PaymentPlanMessage.clicks]. unfold PaymentPlanMessage.click at 1.
    cbn [PaymentPlanMessage.offered PaymentPlanMessage.init
         PaymentPlanMessage.status PaymentPlanMessage.isEditing
         PaymentPlanMessage.is_pending PaymentPlanMessage.editedPlan].
    rewrite Hr. cbn [andb negb].
    rewrite (clicks_editing_cancel session props db edits Hr). reflexivity.
  - cbn [PaymentPlanMessage.clicks]. unfold PaymentPlanMessage.click at 1.
    cbn [PaymentPlanMessage.offered PaymentPlanMessage.init
         PaymentPlanMessage.status PaymentPlanMessage.isEditing
         PaymentPlanMessage.generatingSuggestion
         PaymentPlanMessage.is_pending].
    rewrite Hr. cbn [andb negb].
    rewrite (clicks_editing_cancel session props db edits Hr). reflexivity.
Qed.

Lemma cancel_discards_edits_witness :
  PaymentPlanMessage.clicks (Some 7) Sample.request_seen_by_accountant
    (PaymentPlanMessage.init Sample.request_seen_by_accountant) Sample.db_active
    (PaymentPlanMessage.CounterOffer
       :: map PaymentPlanMessage.Edit [Sample.plan_zero; Sample.plan_negative]
          ++ [PaymentPlanMessage.Cancel])
  = (PaymentPlanMessage.init Sample.request_seen_by_accountant, [],
     Sample.db_active).
Proof.
  apply (cancel_discards_edits (Some 7) Sample.request_seen_by_accountant
           Sample.db_active Sample.plan_900
           [Sample.plan_zero; Sample.plan_negative]).
  reflexivity.
Defined.

Section ClickEffects.

Import Db.

Lemma insert_message_effect l sender c db r db' :
  insert_message l sender c db = (r, db') ->
  plans db' = plans db /\ liaisons db' = liaisons db
  /\ company_relationships db' = company_relationships db
  /\ exists new,
       messages db' = messages db ++ new
       /\ (List.length new <= 1)%nat
       /\ forall m, In m new ->
                    sender_id m = sender /\ msg_liaison_id m = l
                    /\ content m = c /\ is_read m = false.
Proof.
  unfold insert_message. destruct (negb (liaison_exists db l)); intros H;
    inversion H; subst; cbn [plans liaisons company_relationships messages].
  - repeat split. exists []. rewrite app_nil_r.
    split; [reflexivity |]. split; [simpl; lia | intros m []].
  - repeat split. eexists. split; [reflexivity |].
    split; [simpl; lia |].
    intros m [<- | []]. repeat split.
Qed.

Lemma insert_Payment_plan_frame due rate num l s modifier db r db' :
  insert_Payment_plan due rate num l s modifier db = (r, db') ->
  messages db' = messages db /\ liaisons db' = liaisons db
  /\ company_relationships db' = company_relationships db.
Proof.
  unfold insert_Payment_plan.
  destruct (negb (liaison_exists db l)); [intros H; inversion H; auto |].
  destruct (negb (idx_active_payment_plan _)); intros H; inversion H; auto.
Qed.

Lemma update_Payment_plan_status_frame matching s db r db' :
  update_Payment_plan_status matching s db = (r, db') ->
  messages db' = messages db /\ liaisons db' = liaisons db
  /\ company_relationships db' = company_relationships db.
Proof.
  unfold update_Payment_plan_status.
  destruct (idx_active_payment_plan _); intros H; inversion H; auto.
Qed.

Lemma cancelExistingPlan_frame props db r db' :
  PaymentPlanMessage.cancelExistingPlan props db = (r, db') ->
  messages db' = messages db /\ liaisons db' = liaisons db
  /\ company_relationships db' = company_relationships db.
Proof.
  unfold PaymentPlanMessage.cancelExistingPlan, bind, select_active_plan.
  destruct (maybeSingle _) as [[p |] | e].
  - apply update_Payment_plan_status_frame.
  - intros H; inversion H; auto.
  - intros H; inversion H; auto.
Qed.

End ClickEffects.

(** What a click on the payment-plan message can do to the database: it
    never touches liaisons or relationships, it changes plan rows only if
    it is the accept, and it adds at most one message and alters none; a
    message it adds is unread, belongs to the liaison of the request and
    carries the signed-in user as its sender. *)
Theorem click_effects (session : option Db.uuid)
        (props : PaymentPlanMessage.Props) (st st' : PaymentPlanMessage.State)
        (c : PaymentPlanMessage.Control) (toasts : list Toast) (db db' : Db.t) :
  PaymentPlanMessage.click session props st c db = Some (st', toasts, db') ->
  Db.liaisons db' = Db.liaisons db
  /\ Db.company_relationships db' = Db.company_relationships db
  /\ (c <> PaymentPlanMessage.Accept -> Db.plans db' = Db.plans db)
  /\ exists new,
       Db.messages db' = Db.messages db ++ new
       /\ (List.length new <= 1)%nat
       /\ forall m, In m new ->
                    Some (Db.sender_id m) = session
                    /\ Db.msg_liaison_id m = PaymentPlanMessage.liaisonId props
                    /\ Db.is_read m = false.
Proof.
  assert (Hnone : forall d : Db.t,
             Db.liaisons d = Db.liaisons d
             /\ Db.company_relationships d = Db.company_relationships d
             /\ (c <> PaymentPlanMessage.Accept -> Db.plans d = Db.plans d)
             /\ exists new,
                  Db.messages d = Db.messages d ++ new
                  /\ (List.length new <= 1)%nat
                  /\ forall m, In m new ->
                               Some (Db.sender_id m) = session
                               /\ Db.msg_liaison_id m
                                  = PaymentPlanMessage.liaisonId props
                               /\ Db.is_read m = false).
  { intros d. repeat split. exists []. rewrite app_nil_r.
    split; [reflexivity |]. split; [simpl; lia | intros m []]. }
  unfold PaymentPlanMessage.click.
  destruct (PaymentPlanMessage.offered props st c); [| discriminate].
  intros H. injection H as H.
  destruct c.
  - (* Cancel *) inversion H; subst. apply Hnone.
  - (* SendCounterOffer *)
    unfold PaymentPlanMessage.handleCounterOffer in H.
    destruct (_ <=? 0); [inversion H; subst; apply Hnone |].
    unfold PaymentPlanMessage.counterOfferBody, Db.bind,
      PaymentPlanMessage.getUser in H.
    destruct session as [u |];
      [| cbn in H; inversion H; subst; apply Hnone].
    cbn [Db.ret] in H.
    destruct (Db.insert_message _ u _ db) as [r d] eqn:Hm.
    apply insert_message_effect in Hm.
    destruct Hm as (Hp & Hl & Hr & new & Hn & Hlen & Hall).
    assert (d = db') by (destruct r; inversion H; reflexivity). subst d.
    split; [exact Hl |]. split; [exact Hr |]. split; [intros _; exact Hp |].
    exists new. split; [exact Hn |]. split; [exact Hlen |].
    intros m Hin. destruct (Hall m Hin) as (-> & -> & _ & ->). auto.
  - (* CounterOffer *) inversion H; subst. apply Hnone.
  - (* Reject *)
    unfold PaymentPlanMessage.handleReject, PaymentPlanMessage.rejectBody,
      Db.bind, PaymentPlanMessage.getUser in H.
    destruct session as [u |];
      [| cbn in H; inversion H; subst; apply Hnone].
    cbn [Db.ret] in H.
    destruct (Db.insert_message _ u _ db) as [r d] eqn:Hm.
    apply insert_message_effect in Hm.
    destruct Hm as (Hp & Hl & Hr & new & Hn & Hlen & Hall).
    assert (d = db') by (destruct r; inversion H; reflexivity). subst d.
    split; [exact Hl |]. split; [exact Hr |]. split; [intros _; exact Hp |].
    exists new. split; [exact Hn |]. split; [exact Hlen |].
    intros m Hin. destruct (Hall m Hin) as (-> & -> & _ & ->). auto.
  - (* Accept *)
    unfold PaymentPlanMessage.handleAccept, PaymentPlanMessage.acceptBody,
      Db.bind, PaymentPlanMessage.getUser in H.
    destruct session as [u |];
      [| cbn in H; inversion H; subst; apply Hnone].
    cbn [Db.ret] in H.
    destruct (PaymentPlanMessage.cancelExistingPlan props db) as [r1 d1] eqn:H1.
    apply cancelExistingPlan_frame in H1. destruct H1 as (Hm1 & Hl1 & Hr1).
    destruct r1 as [[] | e1].
    2:{ inversion H; subst. rewrite Hm1, Hl1, Hr1.
        repeat split; try congruence.
        exists []. rewrite app_nil_r.
        split; [reflexivity |]. split; [simpl; lia | intros m []]. }
    destruct (Db.insert_Payment_plan _ _ _ _ _ u d1) as [r2 d2] eqn:H2.
    apply insert_Payment_plan_frame in H2. destruct H2 as (Hm2 & Hl2 & Hr2).
    destruct r2 as [row | e2].
    2:{ inversion H; subst. rewrite Hm2, Hl2, Hr2, Hm1, Hl1, Hr1.
        repeat split; try congruence.
        exists []. rewrite app_nil_r.
        split; [reflexivity |]. split; [simpl; lia | intros m []]. }
    destruct (Db.insert_message _ u _ d2) as [r3 d3] eqn:H3.
    apply insert_message_effect in H3.
    destruct H3 as (_ & Hl3 & Hr3 & new & Hn & Hlen & Hall).
    assert (d3 = db') by (destruct r3; inversion H; reflexivity). subst d3.
    rewrite Hl3, Hr3, Hl2, Hr2, Hl1, Hr1, Hn, Hm2, Hm1.
    repeat split; try congruence.
    exists new. split; [reflexivity |]. split; [exact Hlen |].
    intros m Hin. destruct (Hall m Hin) as (-> & -> & _ & ->). auto.
  - (* Generate *) inversion H; subst. apply Hnone.
  - (* Edit *) inversion H; subst. apply Hnone.
Qed.

Lemma click_effects_witness :
  Db.plans (snd (PaymentPlanMessage.handleReject (Some 7)
                   Sample.request_seen_by_accountant
                   (PaymentPlanMessage.init Sample.request_seen_by_accountant)
                   Sample.db_active))
  = Db.plans Sample.db_active.
Proof.
  refine (proj1 (proj2 (proj2
            (click_effects (Some 7) Sample.request_seen_by_accountant
               (PaymentPlanMessage.init Sample.request_seen_by_accountant)
               _ PaymentPlanMessage.Reject _ Sample.db_active _ _))) _).
  - reflexivity.
  - discriminate.
Defined.

(** ** The trigger functions on transactions *)

Section Triggers.

Import PlanTriggers PlanSchedule.

Lemma set_tx_status_same (x : transaction) : set_tx_status x (status x) = x.
Proof. destruct x; reflexivity. Qed.

Lemma TxStatus_eqb_eq (a b : TxStatus) : TxStatus_eqb a b = true <-> a = b.
Proof. destruct a, b; simpl; split; congruence. Qed.

Lemma replaced_same (rows : list transaction) (x : transaction) :
  NoDup (map tx_id rows) -> In x rows -> replaced (tx_id x) x rows = rows.
Proof.
  intros Hpk Hx. unfold replaced.
  rewrite <- (map_id rows) at 2. apply map_ext_in.
  intros y Hy. destruct (tx_id y =? tx_id x) eqn:E; [| reflexivity].
  apply Z.eqb_eq in E. symmetry.
  exact (NoDup_map_inj tx_id rows y x Hpk Hy Hx E).
Qed.

Lemma replaced_In (tid : uuid) (NEW y' : transaction) (rows : list transaction) :
  In y' (replaced tid NEW rows) ->
  (y' = NEW /\ exists y, In y rows /\ tx_id y = tid)
  \/ (In y' rows /\ tx_id y' <> tid).
Proof.
  unfold replaced. intros H. apply in_map_iff in H.
  destruct H as (y & Hy & Hin).
  destruct (tx_id y =? tid) eqn:E.
  - left. apply Z.eqb_eq in E. split; [auto | exists y; auto].
  - right. apply Z.eqb_neq in E. subst y'. auto.
Qed.

Lemma replaced_keeps (tid : uuid) (NEW y : transaction) (rows : list transaction) :
  In y rows -> tx_id y <> tid -> In y (replaced tid NEW rows).
Proof.
  intros Hin Hne. unfold replaced. apply in_map_iff. exists y.
  split; [| exact Hin]. apply Z.eqb_neq in Hne. rewrite Hne. reflexivity.
Qed.

Lemma replaced_new (tid : uuid) (NEW y : transaction) (rows : list transaction) :
  In y rows -> tx_id y = tid -> In NEW (replaced tid NEW rows).
Proof.
  intros Hin He. unfold replaced. apply in_map_iff. exists y.
  split; [| exact Hin]. apply Z.eqb_eq in He. rewrite He. reflexivity.
Qed.

Lemma replaced_ids (tid : uuid) (NEW : transaction) (rows : list transaction) :
  tx_id NEW = tid -> map tx_id (replaced tid NEW rows) = map tx_id rows.
Proof.
  intros He. unfold replaced. rewrite map_map. apply map_ext.
  intros y. destruct (tx_id y =? tid) eqn:E; [| reflexivity].
  apply Z.eqb_eq in E. congruence.
Qed.

(** The three ways in which a status update that is accepted ends: the
    row is rewritten and nothing else; the next transaction is added; the
    plan is completed. *)
Lemma update_transaction_status_cases (db db' : t) (tid : uuid) (s : TxStatus)
      (OLD : transaction) :
  find_transaction db tid = Some OLD ->
  update_transaction_status db tid s = Ok db' ->
  let rows := replaced tid (set_tx_status OLD s) (transactions db) in
  let db1 := {| plans := plans db; transactions := rows;
                next_uuid := next_uuid db |} in
  db' = db1
  \/ (s = PAID /\ status OLD <> PAID /\ exists p,
        find_plan db (payment_plan OLD) = Some p
        /\ max_payment_num db1 (payment_plan OLD) < num_payment p
        /\ db' = set_next_transaction
                   (set_next_transaction
                      {| plans := plans db;
                         transactions :=
                           rows ++ [{| tx_id := next_uuid db;
                                       amount := (total_due p
                                                  / inject_Z (num_payment p))%Q;
                                       due_date := due_date OLD + payment_rate p;
                                       status := PENDING;
                                       payment_num :=
                                         max_payment_num db1 (payment_plan OLD) + 1;
                                       payment_plan := payment_plan OLD |}];
                         next_uuid := next_uuid db + 1 |}
                      (payment_plan OLD) (next_uuid db))
                   (payment_plan OLD) (next_uuid db))
  \/ (s = RENEGO /\ status OLD <> RENEGO /\ exists p,
        find_plan db (payment_plan OLD) = Some p
        /\ (completed p = false ->
            existsb (fun x => of_plan (payment_plan OLD) x && outstanding x) rows
            = false)
        /\ db' = {| plans := map (fun q => if id q =? payment_plan OLD
                                           then set_completed p true else q)
                                 (plans db);
                    transactions := rows;
                    next_uuid := next_uuid db |}).
Proof.
  intros Hx H rows db1. unfold update_transaction_status in H.
  rewrite Hx in H. cbv zeta in H. fold rows in H. fold db1 in H.
  destruct (TxStatus_eqb (status OLD) (status (set_tx_status OLD s))) eqn:Heq;
    [left; inversion H; reflexivity |].
  assert (Hne : status OLD <> s).
  { intros E. rewrite <- E, set_tx_status_same in Heq.
    assert (TxStatus_eqb (status OLD) (status OLD) = true)
      by (apply TxStatus_eqb_eq; reflexivity).
    congruence. }
  unfold fn_generate_next_transaction in H.
  change (status (set_tx_status OLD s)) with s in H.
  change (payment_plan (set_tx_status OLD s)) with (payment_plan OLD) in H.
  change (due_date (set_tx_status OLD s)) with (due_date OLD) in H.
  destruct s.
  - left. inversion H. reflexivity.
  - change (find_plan db1 (payment_plan OLD))
      with (find_plan db (payment_plan OLD)) in H.
    destruct (find_plan db (payment_plan OLD)) as [p |] eqn:Hp;
      [| left; inversion H; reflexivity].
    destruct (max_payment_num db1 (payment_plan OLD) <? num_payment p) eqn:Hlt;
      [| left; inversion H; reflexivity].
    apply Z.ltb_lt in Hlt.
    unfold insert_transaction in H.
    destruct (Qle_bool _ 0); [discriminate |].
    destruct (negb _); [discriminate |].
    change (find_plan db1 (payment_plan OLD))
      with (find_plan db (payment_plan OLD)) in H.
    rewrite Hp in H.
    destruct (existsb _ (transactions db1)); [discriminate |].
    right. left. split; [reflexivity |]. split; [exact Hne |].
    exists p. split; [reflexivity |]. split; [exact Hlt |].
    inversion H. reflexivity.
  - left. inversion H. reflexivity.
  - unfold update_plan_completed in H.
    change (find_plan db1 (payment_plan OLD))
      with (find_plan db (payment_plan OLD)) in H.
    destruct (find_plan db (payment_plan OLD)) as [p |] eqn:Hp;
      [| left; inversion H; reflexivity].
    pose proof (find_plan_id db _ p Hp) as Hid.
    unfold fn_validate_payment_plan_completion in H.
    cbn [completed set_completed id] in H. rewrite Hid in H.
    right. right. split; [reflexivity |]. split; [exact Hne |].
    exists p. split; [reflexivity |].
    destruct (completed p) eqn:Hc; cbn [negb andb] in H.
    + split; [discriminate |]. inversion H. reflexivity.
    + change (transactions db1) with rows in H.
      destruct (existsb _ rows); [discriminate |].
      split; [reflexivity |]. inversion H. reflexivity.
Qed.

Lemma find_map_id (f : Payment_plan -> Payment_plan) (rows : list Payment_plan)
      (pid : uuid) :
  (forall q, In q rows -> id (f q) = id q) ->
  find (fun p => id p =? pid) (map f rows)
  = option_map f (find (fun p => id p =? pid) rows).
Proof.
  induction rows as [| q rows IH]; intros H; [reflexivity |].
  cbn [map find]. rewrite (H q (or_introl eq_refl)).
  destruct (id q =? pid); [reflexivity |].
  apply IH. intros r Hr. apply H. right. exact Hr.
Qed.

Lemma set_next_transaction_find (db : t) (pid tid pid' : uuid) (p' : Payment_plan) :
  find_plan (set_next_transaction db pid tid) pid' = Some p' ->
  exists q, find_plan db pid' = Some q /\ terms p' = terms q.
Proof.
  unfold find_plan, set_next_transaction. cbn [plans].
  rewrite find_map_id.
  - destruct (find _ (plans db)) as [q |]; [| discriminate].
    cbn [option_map]. intros H. inversion H. exists q. split; [reflexivity |].
    destruct (id q =? pid); reflexivity.
  - intros q _. destruct (id q =? pid); reflexivity.
Qed.

Lemma set_next_transaction_terms (db : t) (pid tid : uuid) :
  map terms (plans (set_next_transaction db pid tid)) = map terms (plans db).
Proof.
  unfold set_next_transaction. cbn [plans]. rewrite map_map.
  apply map_ext. intros q. destruct (id q =? pid); reflexivity.
Qed.

Lemma find_plan_after (db db' : t) (tid pid : uuid) (s : TxStatus)
      (p' : Payment_plan) :
  update_transaction_status db tid s = Ok db' ->
  find_plan db' pid = Some p' ->
  exists q, find_plan db pid = Some q /\ terms p' = terms q.
Proof.
  intros H Hf.
  destruct (find_transaction db tid) as [OLD |] eqn:Hx.
  2:{ unfold update_transaction_status in H. rewrite Hx in H.
      inversion H; subst. exists p'. auto. }
  destruct (update_transaction_status_cases db db' tid s OLD Hx H)
    as [-> | [(_ & _ & p & Hp & _ & ->) | (_ & _ & p & Hp & _ & ->)]].
  - exists p'. auto.
  - apply set_next_transaction_find in Hf. destruct Hf as (q1 & Hf & E1).
    apply set_next_transaction_find in Hf. destruct Hf as (q & Hf & E2).
    exists q. split; [exact Hf | congruence].
  - pose proof (find_plan_id db _ p Hp) as Hid.
    unfold find_plan in Hf. cbn [plans] in Hf.
    rewrite find_map_id in Hf.
    + fold (find_plan db pid) in Hf.
      destruct (find_plan db pid) as [q |] eqn:Hq; [| discriminate].
      cbn [option_map] in Hf. inversion Hf. exists q. split; [reflexivity |].
      destruct (id q =? payment_plan OLD) eqn:E; [| reflexivity].
      apply Z.eqb_eq in E. pose proof (find_plan_id db _ q Hq) as Hid'.
      assert (q = p) by congruence. subst q. reflexivity.
    + intros q _. destruct (id q =? payment_plan OLD) eqn:E; [| reflexivity].
      apply Z.eqb_eq in E. cbn [id set_completed]. congruence.
Qed.

Lemma max_payment_num_attained (db : t) (pid : uuid) (y : transaction) :
  In y (transactions db) -> payment_plan y = pid ->
  exists z, In z (transactions db) /\ payment_plan z = pid
            /\ payment_num z = max_payment_num db pid.
Proof.
  intros Hy Hp. unfold max_payment_num.
  assert (Hne : In y (filter (of_plan pid) (transactions db))).
  { apply filter_In. split; [exact Hy |]. unfold of_plan.
    apply Z.eqb_eq. exact Hp. }
  assert (Hall : forall ns n,
             fold_left Z.max ns n = n \/ In (fold_left Z.max ns n) ns).
  { induction ns as [| k ns IH]; intros n; cbn [fold_left]; [auto |].
    destruct (IH (Z.max n k)) as [E | Hin].
    - rewrite E. destruct (Z.max_spec n k) as [[_ ->] | [_ ->]];
        [right; left; reflexivity | left; reflexivity].
    - right. right. exact Hin. }
  destruct (filter (of_plan pid) (transactions db)) as [| a rest] eqn:Hf;
    [destruct Hne |].
  cbn [map].
  assert (Hm : In (fold_left Z.max (map payment_num rest) (payment_num a))
                  (map payment_num (a :: rest))).
  { destruct (Hall (map payment_num rest) (payment_num a)) as [-> | Hin];
      [left; reflexivity | right; exact Hin]. }
  apply in_map_iff in Hm. destruct Hm as (z & Hz & Hin).
  rewrite <- Hf in Hin. apply filter_In in Hin. destruct Hin as [Hin Hof].
  exists z. split; [exact Hin |]. split; [| exact Hz].
  unfold of_plan in Hof. apply Z.eqb_eq in Hof. exact Hof.
Qed.

End Triggers.

(** The trigger on transactions runs only
    [WHEN (OLD.status IS DISTINCT FROM NEW.status)]: writing to a
    transaction the status it already has changes nothing at all, so that
    paying a paid transaction again adds no further transaction. *)
Theorem repeated_status_is_silent (db : PlanTriggers.t)
        (x : PlanTriggers.transaction) :
  NoDup (map PlanTriggers.tx_id (PlanTriggers.transactions db)) ->
  PlanTriggers.find_transaction db (PlanTriggers.tx_id x) = Some x ->
  PlanTriggers.update_transaction_status db (PlanTriggers.tx_id x)
                                         (PlanTriggers.status x)
  = PlanTriggers.Ok db.
Proof.
  intros Hpk Hx. unfold PlanTriggers.update_transaction_status.
  rewrite Hx. cbv zeta. rewrite set_tx_status_same.
  assert (He : PlanTriggers.TxStatus_eqb (PlanTriggers.status x)
                                         (PlanTriggers.status x) = true)
    by (apply TxStatus_eqb_eq; reflexivity).
  rewrite He. rewrite replaced_same.
  - destruct db; reflexivity.
  - exact Hpk.
  - apply (find_transaction_In db (PlanTriggers.tx_id x) x Hx).
Qed.

Lemma repeated_status_is_silent_witness :
  PlanTriggers.update_transaction_status Sample.db_first_pending 10
                                         PlanTriggers.PENDING
  = PlanTriggers.Ok Sample.db_first_pending.
Proof.
  apply (repeated_status_is_silent Sample.db_first_pending
           {| PlanTriggers.tx_id := 10;
              PlanTriggers.amount := 400;
              PlanTriggers.due_date := 100;
              PlanTriggers.status := PlanTriggers.PENDING;
              PlanTriggers.payment_num := 1;
              PlanTriggers.payment_plan := 1 |}).
  - repeat constructor. simpl. tauto.
  - reflexivity.
Defined.



(** Resolving a transaction as renegotiated completes its plan through
    the UPDATE of the trigger function, which the completion trigger
    guards: for a plan not yet completed the whole statement is refused
    (the transaction keeps its status) exactly when another transaction of
    the plan is pending or overdue, and otherwise the transaction is
    rewritten and the plan is completed. *)
Theorem renego_completes_or_is_refused (db : PlanTriggers.t)
        (x : PlanTriggers.transaction) (p : PlanTriggers.Payment_plan) :
  PlanTriggers.find_transaction db (PlanTriggers.tx_id x) = Some x ->
  PlanTriggers.status x <> PlanTriggers.RENEGO ->
  PlanTriggers.find_plan db (PlanTriggers.payment_plan x) = Some p ->
  PlanTriggers.completed p = false ->
  ((exists y, In y (PlanTriggers.transactions db)
              /\ PlanTriggers.tx_id y <> PlanTriggers.tx_id x
              /\ PlanTriggers.payment_plan y = PlanTriggers.payment_plan x
              /\ PlanTriggers.outstanding y = true) ->
   PlanTriggers.update_transaction_status db (PlanTriggers.tx_id x)
                                          PlanTriggers.RENEGO
   = PlanTriggers.Error
       (PlanTriggers.RaiseException
          "Cannot complete payment plan with active transactions"))
  /\ ((forall y, In y (PlanTriggers.transactions db) ->
                 PlanTriggers.tx_id y <> PlanTriggers.tx_id x ->
                 PlanTriggers.payment_plan y = PlanTriggers.payment_plan x ->
                 PlanTriggers.outstanding y = false) ->
      exists db',
        PlanTriggers.update_transaction_status db (PlanTriggers.tx_id x)
                                               PlanTriggers.RENEGO
        = PlanTriggers.Ok db'
        /\ PlanTriggers.transactions db'
           = PlanTriggers.replaced (PlanTriggers.tx_id x)
               (PlanTriggers.set_tx_status x PlanTriggers.RENEGO)
               (PlanTriggers.transactions db)
        /\ option_map PlanTriggers.completed
                      (PlanTriggers.find_plan db' (PlanTriggers.payment_plan x))
           = Some true).
Proof.
  intros Hx Hs Hp Hc.
  pose proof (find_plan_id db _ p Hp) as Hid.
  assert (Hst : PlanTriggers.TxStatus_eqb (PlanTriggers.status x)
                                          PlanTriggers.RENEGO = false)
    by (destruct (PlanTriggers.status x); try reflexivity; congruence).
  assert (Hrun :
            PlanTriggers.update_transaction_status db (PlanTriggers.tx_id x)
                                                   PlanTriggers.RENEGO
            = if existsb (fun y => PlanTriggers.of_plan
                                     (PlanTriggers.payment_plan x) y
                                   && PlanTriggers.outstanding y)
                         (PlanTriggers.replaced (PlanTriggers.tx_id x)
                            (PlanTriggers.set_tx_status x PlanTriggers.RENEGO)
                            (PlanTriggers.transactions db))
              then PlanTriggers.Error
                     (PlanTriggers.RaiseException
                        "Cannot complete payment plan with active transactions")
              else PlanTriggers.Ok
                     {| PlanTriggers.plans :=
                          map (fun q => if PlanTriggers.id q
                                           =? PlanTriggers.payment_plan x
                                        then PlanTriggers.set_completed p true
                                        else q) (PlanTriggers.plans db);
                        PlanTriggers.transactions :=
                          PlanTriggers.replaced (PlanTriggers.tx_id x)
                            (PlanTriggers.set_tx_status x PlanTriggers.RENEGO)
                            (PlanTriggers.transactions db);
                        PlanTriggers.next_uuid := PlanTriggers.next_uuid db |}).
  { unfold PlanTriggers.update_transaction_status. rewrite Hx. cbv zeta.
    change (PlanTriggers.status
              (PlanTriggers.set_tx_status x PlanTriggers.RENEGO))
      with PlanTriggers.RENEGO.
    rewrite Hst. unfold PlanTriggers.fn_generate_next_transaction.
    change (PlanTriggers.status
              (PlanTriggers.set_tx_status x PlanTriggers.RENEGO))
      with PlanTriggers.RENEGO.
    cbv iota.
    change (PlanTriggers.payment_plan
              (PlanTriggers.set_tx_status x PlanTriggers.RENEGO))
      with (PlanTriggers.payment_plan x).
    unfold PlanTriggers.update_plan_completed.
    match goal with
    | |- context [PlanTriggers.find_plan ?d (PlanTriggers.payment_plan x)] =>
        change (PlanTriggers.find_plan d (PlanTriggers.payment_plan x))
          with (PlanTriggers.find_plan db (PlanTriggers.payment_plan x))
    end.
    rewrite Hp. unfold PlanTriggers.fn_validate_payment_plan_completion.
    cbn [PlanTriggers.completed PlanTriggers.set_completed PlanTriggers.id
         PlanTriggers.transactions].
    rewrite Hc, Hid. cbn [negb andb].
    destruct (existsb _ _); reflexivity. }
  rewrite Hrun. split.
  - intros (y & Hy & Hne & Hpl & Ho).
    assert (He : existsb (fun y => PlanTriggers.of_plan
                                     (PlanTriggers.payment_plan x) y
                                   && PlanTriggers.outstanding y)
                         (PlanTriggers.replaced (PlanTriggers.tx_id x)
                            (PlanTriggers.set_tx_status x PlanTriggers.RENEGO)
                            (PlanTriggers.transactions db)) = true).
    { apply existsb_exists. exists y. split.
      - apply replaced_keeps; assumption.
      - unfold PlanTriggers.of_plan. rewrite Hpl, Z.eqb_refl, Ho. reflexivity. }
    rewrite He. reflexivity.
  - intros Hall.
    assert (He : existsb (fun y => PlanTriggers.of_plan
                                     (PlanTriggers.payment_plan x) y
                                   && PlanTriggers.outstanding y)
                         (PlanTriggers.replaced (PlanTriggers.tx_id x)
                            (PlanTriggers.set_tx_status x PlanTriggers.RENEGO)
                            (PlanTriggers.transactions db)) = false).
    { destruct (existsb _ _) eqn:E; [| reflexivity].
      apply existsb_exists in E. destruct E as (y & Hy & Hcond).
      apply andb_true_iff in Hcond. destruct Hcond as [Hof Ho].
      apply replaced_In in Hy. destruct Hy as [[-> _] | [Hy Hne]].
      - discriminate Ho.
      - unfold PlanTriggers.of_plan in Hof. apply Z.eqb_eq in Hof.
        rewrite (Hall y Hy Hne Hof) in Ho. discriminate. }
    rewrite He. eexists. split; [reflexivity |]. split; [reflexivity |].
    unfold PlanTriggers.find_plan. cbn [PlanTriggers.plans].
    rewrite find_map_id.
    + fold (PlanTriggers.find_plan db (PlanTriggers.payment_plan x)).
      rewrite Hp. cbn [option_map]. rewrite Hid, Z.eqb_refl. reflexivity.
    + intros q _.
      destruct (PlanTriggers.id q =? PlanTriggers.payment_plan x) eqn:E;
        [| reflexivity].
      apply Z.eqb_eq in E. cbn [PlanTriggers.id PlanTriggers.set_completed].
      congruence.
Qed.

Lemma renego_completes_or_is_refused_witness :
  exists db',
    PlanTriggers.update_transaction_status Sample.db_first_pending 10
                                           PlanTriggers.RENEGO
    = PlanTriggers.Ok db'
    /\ PlanTriggers.transactions db'
       = PlanTriggers.replaced 10
           (PlanTriggers.set_tx_status
              {| PlanTriggers.tx_id := 10;
                 PlanTriggers.amount := 400;
                 PlanTriggers.due_date := 100;
                 PlanTriggers.status := PlanTriggers.PENDING;
                 PlanTriggers.payment_num := 1;
                 PlanTriggers.payment_plan := 1 |} PlanTriggers.RENEGO)
           (PlanTriggers.transactions Sample.db_first_pending)
    /\ option_map PlanTriggers.completed (PlanTriggers.find_plan db' 1)
       = Some true.
Proof.
  refine (proj2 (renego_completes_or_is_refused Sample.db_first_pending
                   {| PlanTriggers.tx_id := 10;
                      PlanTriggers.amount := 400;
                      PlanTriggers.due_date := 100;
                      PlanTriggers.status := PlanTriggers.PENDING;
                      PlanTriggers.payment_num := 1;
                      PlanTriggers.payment_plan := 1 |}
                   _ _ _ _ _) _).
  - reflexivity.
  - discriminate.
  - reflexivity.
  - reflexivity.
  - intros y [<- | []] Hne. exfalso. apply Hne. reflexivity.
Defined.

Section Schedule.

Import PlanTriggers PlanSchedule.

Lemma NoDup_snoc {A : Type} (l : list A) (a : A) :
  NoDup l -> ~ In a l -> NoDup (l ++ [a]).
Proof.
  induction l as [| b l IH]; intros Hnd Hnot; cbn [app].
  - constructor; [intros [] | constructor].
  - inversion Hnd as [| ? ? Hb Hl]; subst. constructor.
    + intros Hin. apply in_app_or in Hin. destruct Hin as [Hin | [-> | []]].
      * exact (Hb Hin).
      * apply Hnot. left. reflexivity.
    + apply IH; [exact Hl |]. intros Hin. apply Hnot. right. exact Hin.
Qed.

Lemma terms_num_payment (p q : Payment_plan) :
  terms p = terms q -> num_payment p = num_payment q.
Proof. unfold terms. intros H. inversion H. reflexivity. Qed.

(** Rewriting the status of a row keeps the schedule. *)
Lemma schedule_ok_replaced (db : t) (tid : uuid) (s : TxStatus)
      (OLD : transaction) :
  schedule_ok db ->
  find_transaction db tid = Some OLD ->
  schedule_ok {| plans := plans db;
                 transactions := replaced tid (set_tx_status OLD s)
                                          (transactions db);
                 next_uuid := next_uuid db |}.
Proof.
  intros [Hpk Hfresh Hpos Hwithin Hgaps] Hx.
  destruct (find_transaction_In db tid OLD Hx) as [Hin Hid].
  set (NEW := set_tx_status OLD s).
  assert (Hb : forall y', In y' (replaced tid NEW (transactions db)) ->
                          exists y, In y (transactions db)
                                    /\ tx_id y' = tx_id y
                                    /\ payment_plan y' = payment_plan y
                                    /\ payment_num y' = payment_num y).
  { intros y' Hy'. apply replaced_In in Hy'.
    destruct Hy' as [[-> _] | [Hy' _]].
    - exists OLD. repeat split. exact Hin.
    - exists y'. repeat split. exact Hy'. }
  assert (Hc : forall y, In y (transactions db) ->
                         exists y', In y' (replaced tid NEW (transactions db))
                                    /\ payment_plan y' = payment_plan y
                                    /\ payment_num y' = payment_num y).
  { intros y Hy. destruct (Z.eq_dec (tx_id y) tid) as [E | E].
    - assert (y = OLD)
        by (apply (NoDup_map_inj tx_id (transactions db) y OLD Hpk Hy Hin);
            congruence).
      subst y. exists NEW. repeat split.
      apply (replaced_new tid NEW OLD); assumption.
    - exists y. repeat split. apply replaced_keeps; assumption. }
  constructor; cbn [transactions next_uuid].
  - rewrite replaced_ids; [exact Hpk | exact Hid].
  - intros y' Hy'. destruct (Hb y' Hy') as (y & Hy & -> & _). apply Hfresh. exact Hy.
  - intros y' Hy'. destruct (Hb y' Hy') as (y & Hy & _ & _ & ->). apply Hpos. exact Hy.
  - intros y' p Hy' Hp. destruct (Hb y' Hy') as (y & Hy & _ & Epl & ->).
    rewrite Epl in Hp. apply (Hwithin y p Hy). exact Hp.
  - intros y' k Hy' Hk. destruct (Hb y' Hy') as (y & Hy & _ & Epl & Enum).
    rewrite Enum in Hk. destruct (Hgaps y k Hy Hk) as (z & Hz & Hzp & Hzn).
    destruct (Hc z Hz) as (z' & Hz' & Ep' & En').
    exists z'. split; [exact Hz' |]. split; congruence.
Qed.

End Schedule.

(** No trigger function rewrites the terms of a plan: after a status
    update that is accepted every plan has the id, total, interval, liaison
    and number of payments it had, in the same order; only
    [next_transaction_id] and [completed] move. *)
Theorem status_update_keeps_plan_terms (db db' : PlanTriggers.t)
        (tid : PlanTriggers.uuid) (s : PlanTriggers.TxStatus) :
  NoDup (map PlanTriggers.id (PlanTriggers.plans db)) ->
  PlanTriggers.update_transaction_status db tid s = PlanTriggers.Ok db' ->
  map PlanSchedule.terms (PlanTriggers.plans db')
  = map PlanSchedule.terms (PlanTriggers.plans db).
Proof.
  intros Hpk H.
  destruct (PlanTriggers.find_transaction db tid) as [OLD |] eqn:Hx.
  2:{ unfold PlanTriggers.update_transaction_status in H. rewrite Hx in H.
      inversion H. reflexivity. }
  destruct (update_transaction_status_cases db db' tid s OLD Hx H)
    as [-> | [(_ & _ & p & Hp & _ & ->) | (_ & _ & p & Hp & _ & ->)]].
  - reflexivity.
  - rewrite !set_next_transaction_terms. reflexivity.
  - cbn [PlanTriggers.plans]. rewrite map_map. apply map_ext_in. intros q Hq.
    destruct (PlanTriggers.id q =? PlanTriggers.payment_plan OLD) eqn:E;
      [| reflexivity].
    apply Z.eqb_eq in E.
    assert (Hin : In p (PlanTriggers.plans db)).
    { unfold PlanTriggers.find_plan in Hp. apply find_some in Hp. tauto. }
    pose proof (find_plan_id db _ p Hp) as Hid.
    assert (q = p)
      by (apply (NoDup_map_inj PlanTriggers.id (PlanTriggers.plans db) q p
                   Hpk Hq Hin); congruence).
    subst q. reflexivity.
Qed.

Lemma status_update_keeps_plan_terms_witness :
  match PlanTriggers.update_transaction_status Sample.db_first_pending 10
                                               PlanTriggers.PAID with
  | PlanTriggers.Ok db' =>
      map PlanSchedule.terms (PlanTriggers.plans db')
      = map PlanSchedule.terms (PlanTriggers.plans Sample.db_first_pending)
  | PlanTriggers.Error _ => False
  end.
Proof.
  cbv beta iota delta [PlanTriggers.update_transaction_status].
  apply (status_update_keeps_plan_terms Sample.db_first_pending _ 10
           PlanTriggers.PAID).
  - repeat constructor. simpl. tauto.
  - reflexivity.
Defined.



(** The numbering of transactions is an invariant of status updates: if
    the ids are a primary key below the generator, and the numbers of each
    plan are positive, without a gap from 1 on and not beyond the number
    of payments of the plan, the same holds after any status update that
    is accepted. *)
Theorem status_update_keeps_schedule (db db' : PlanTriggers.t)
        (tid : PlanTriggers.uuid) (s : PlanTriggers.TxStatus) :
  PlanSchedule.schedule_ok db ->
  PlanTriggers.update_transaction_status db tid s = PlanTriggers.Ok db' ->
  PlanSchedule.schedule_ok db'.
Proof.
  intros Hok H.
  destruct (PlanTriggers.find_transaction db tid) as [OLD |] eqn:Hx.
  2:{ unfold PlanTriggers.update_transaction_status in H. rewrite Hx in H.
      inversion H; subst. exact Hok. }
  pose proof (schedule_ok_replaced db tid s OLD Hok Hx) as Hok1.
  assert (Hplan : forall pid p',
             PlanTriggers.find_plan db' pid = Some p' ->
             exists q, PlanTriggers.find_plan db pid = Some q
                       /\ PlanTriggers.num_payment p'
                          = PlanTriggers.num_payment q).
  { intros pid p' Hf.
    destruct (find_plan_after db db' tid pid s p' H Hf) as (q & Hq & Ht).
    exists q. split; [exact Hq | apply terms_num_payment; exact Ht]. }
  destruct (find_transaction_In db tid OLD Hx) as [Hin Hid].
  destruct (update_transaction_status_cases db db' tid s OLD Hx H)
    as [-> | [(-> & _ & p & Hp & Hlt & E) | (-> & _ & p & Hp & _ & E)]].
  - exact Hok1.
  - destruct Hok1 as [Hpk Hfresh Hpos Hwithin Hgaps].
    cbn [PlanTriggers.transactions PlanTriggers.next_uuid PlanTriggers.plans]
      in Hpk, Hfresh, Hpos, Hwithin, Hgaps.
    set (rows := PlanTriggers.replaced tid
                   (PlanTriggers.set_tx_status OLD PlanTriggers.PAID)
                   (PlanTriggers.transactions db)) in *.
    set (db1 := {| PlanTriggers.plans := PlanTriggers.plans db;
                   PlanTriggers.transactions := rows;
                   PlanTriggers.next_uuid := PlanTriggers.next_uuid db |}) in *.
    set (m := PlanTriggers.max_payment_num db1 (PlanTriggers.payment_plan OLD))
      in *.
    set (next := {| PlanTriggers.tx_id := PlanTriggers.next_uuid db;
                    PlanTriggers.amount :=
                      (PlanTriggers.total_due p
                       / inject_Z (PlanTriggers.num_payment p))%Q;
                    PlanTriggers.due_date :=
                      PlanTriggers.due_date OLD + PlanTriggers.payment_rate p;
                    PlanTriggers.status := PlanTriggers.PENDING;
                    PlanTriggers.payment_num := m + 1;
                    PlanTriggers.payment_plan := PlanTriggers.payment_plan OLD |})
      in *.
    assert (Htx : PlanTriggers.transactions db' = rows ++ [next])
      by (rewrite E; reflexivity).
    assert (Hnu : PlanTriggers.next_uuid db' = PlanTriggers.next_uuid db + 1)
      by (rewrite E; reflexivity).
    assert (Hnew : In (PlanTriggers.set_tx_status OLD PlanTriggers.PAID) rows)
      by (apply (replaced_new tid _ OLD); assumption).
    destruct (max_payment_num_attained db1 (PlanTriggers.payment_plan OLD)
                (PlanTriggers.set_tx_status OLD PlanTriggers.PAID) Hnew eq_refl)
      as (top & Htop & Htopp & Htopn).
    fold m in Htopn. cbn [PlanTriggers.transactions db1] in Htop.
    assert (Hm : 0 < m) by (rewrite <- Htopn; apply Hpos; exact Htop).
    clear E. constructor; rewrite ?Htx, ?Hnu.
    + rewrite map_app. cbn [map]. apply NoDup_snoc; [exact Hpk |].
      intros Hc. apply in_map_iff in Hc. destruct Hc as (y & Hy & Hyin).
      pose proof (Hfresh y Hyin). cbn [PlanTriggers.tx_id next] in Hy. lia.
    + intros y Hy. apply in_app_or in Hy. destruct Hy as [Hy | [<- | []]].
      * pose proof (Hfresh y Hy). lia.
      * cbn [PlanTriggers.tx_id next]. lia.
    + intros y Hy. apply in_app_or in Hy. destruct Hy as [Hy | [<- | []]].
      * apply Hpos. exact Hy.
      * cbn [PlanTriggers.payment_num next]. lia.
    + intros y p' Hy Hf. destruct (Hplan _ _ Hf) as (q & Hq & ->).
      apply in_app_or in Hy. destruct Hy as [Hy | [<- | []]].
      * apply (Hwithin y q Hy). exact Hq.
      * cbn [PlanTriggers.payment_plan PlanTriggers.payment_num next] in *.
        assert (q = p) by congruence. subst q. lia.
    + intros y k Hy Hk. apply in_app_or in Hy. destruct Hy as [Hy | [<- | []]].
      * destruct (Hgaps y k Hy Hk) as (z & Hz & Hzp & Hzn).
        exists z. split; [apply in_or_app; left; exact Hz | split; assumption].
      * cbn [PlanTriggers.payment_plan PlanTriggers.payment_num next] in *.
        destruct (Z.eq_dec k (m + 1)) as [-> | Hne].
        -- exists next. split; [apply in_or_app; right; left; reflexivity |].
           split; reflexivity.
        -- assert (Hk' : 1 <= k <= PlanTriggers.payment_num top) by lia.
           destruct (Hgaps top k Htop Hk') as (z & Hz & Hzp & Hzn).
           exists z. split; [apply in_or_app; left; exact Hz |].
           split; [congruence | exact Hzn].
  - destruct Hok1 as [Hpk Hfresh Hpos Hwithin Hgaps].
    cbn [PlanTriggers.transactions PlanTriggers.next_uuid PlanTriggers.plans]
      in Hpk, Hfresh, Hpos, Hwithin, Hgaps.
    assert (Htx : PlanTriggers.transactions db'
                  = PlanTriggers.replaced tid
                      (PlanTriggers.set_tx_status OLD PlanTriggers.RENEGO)
                      (PlanTriggers.transactions db))
      by (rewrite E; reflexivity).
    assert (Hnu : PlanTriggers.next_uuid db' = PlanTriggers.next_uuid db)
      by (rewrite E; reflexivity).
    clear E. constructor; rewrite ?Htx, ?Hnu; try assumption.
    intros y p' Hy Hf. destruct (Hplan _ _ Hf) as (q & Hq & ->).
    apply (Hwithin y q Hy). exact Hq.
Qed.

Lemma status_update_keeps_schedule_witness :
  match PlanTriggers.update_transaction_status Sample.db_first_pending 10
                                               PlanTriggers.PAID with
  | PlanTriggers.Ok db' => PlanSchedule.schedule_ok db'
  | PlanTriggers.Error _ => False
  end.
Proof.
  cbv beta iota delta [PlanTriggers.update_transaction_status].
  apply (status_update_keeps_schedule Sample.db_first_pending _ 10
           PlanTriggers.PAID).
  - constructor; cbn.
    + repeat constructor. simpl. tauto.
    + intros y [<- | []]. reflexivity.
    + intros y [<- | []]. reflexivity.
    + intros y p [<- | []]. cbn. intros E. inversion E. cbn. lia.
    + intros y k [<- | []]. cbn. intros Hk. eexists. split; [left; reflexivity |].
      cbn. split; [reflexivity | lia].
  - reflexivity.
Defined.

(** ** Onboarding and the connection button *)

Section Connect.

Import Db DbIds.

Lemma exec_ids_generated (st : statement) (db : t) :
  ids_generated db -> ids_generated (exec st db).
Proof.
  intros (Hr & Hl & Hp). destruct st; cbn [exec].
  - unfold insert_relationship. destruct (existsb _ _); cbn [snd];
      [exact (conj Hr (conj Hl Hp)) |].
    split; [| split]; cbn [company_relationships liaisons plans next_id].
    + intros r Hin. apply in_app_or in Hin. destruct Hin as [Hin | [<- | []]].
      * pose proof (Hr r Hin). lia.
      * cbn. lia.
    + intros l Hin. pose proof (Hl l Hin). lia.
    + intros p Hin. pose proof (Hp p Hin). lia.
  - unfold insert_liaison.
    destruct (relationship_exists db rel) eqn:Hrel; cbn [negb];
      [| exact (conj Hr (conj Hl Hp))].
    destruct (negb (crs_score_check _)); [exact (conj Hr (conj Hl Hp)) |].
    destruct (existsb _ (liaisons db)); cbn [snd]; [exact (conj Hr (conj Hl Hp)) |].
    unfold relationship_exists in Hrel. apply existsb_exists in Hrel.
    destruct Hrel as (x & Hx & Hxe). apply Z.eqb_eq in Hxe.
    pose proof (Hr x Hx) as Hlt.
    split; [| split]; cbn [company_relationships liaisons plans next_id].
    + intros r Hin. pose proof (Hr r Hin). lia.
    + intros l Hin. apply in_app_or in Hin. destruct Hin as [Hin | [<- | []]].
      * pose proof (Hl l Hin). lia.
      * cbn. lia.
    + intros p Hin. pose proof (Hp p Hin). lia.
  - unfold update_crs_score. destruct (_ && _); cbn [snd];
      [exact (conj Hr (conj Hl Hp)) |].
    split; [| split]; cbn [company_relationships liaisons plans next_id].
    + exact Hr.
    + intros l Hin. apply in_map_iff in Hin. destruct Hin as (l0 & <- & Hin).
      pose proof (Hl l0 Hin). destruct (matching l0); cbn; lia.
    + exact Hp.
  - unfold insert_Payment_plan.
    destruct (liaison_exists db l) eqn:Hle; cbn [negb];
      [| exact (conj Hr (conj Hl Hp))].
    destruct (negb (idx_active_payment_plan _)); cbn [snd];
      [exact (conj Hr (conj Hl Hp)) |].
    unfold liaison_exists in Hle. apply existsb_exists in Hle.
    destruct Hle as (x & Hx & Hxe). apply Z.eqb_eq in Hxe.
    pose proof (Hl x Hx) as Hlt.
    split; [| split];
      cbn [with_plans company_relationships liaisons plans next_id].
    + intros r Hin. pose proof (Hr r Hin). lia.
    + intros l0 Hin. pose proof (Hl l0 Hin). lia.
    + intros p Hin. apply in_app_or in Hin. destruct Hin as [Hin | [<- | []]].
      * pose proof (Hp p Hin). lia.
      * cbn. lia.
  - unfold update_Payment_plan_status.
    destruct (idx_active_payment_plan _); cbn [snd];
      [| exact (conj Hr (conj Hl Hp))].
    split; [| split];
      cbn [with_plans company_relationships liaisons plans next_id].
    + exact Hr.
    + exact Hl.
    + intros p Hin. apply in_map_iff in Hin. destruct Hin as (p0 & <- & Hin).
      pose proof (Hp p0 Hin). destruct (matching p0); cbn; lia.
  - unfold insert_message. destruct (negb _); cbn [snd];
      [exact (conj Hr (conj Hl Hp)) |].
    split; [| split]; cbn [company_relationships liaisons plans next_id].
    + intros r0 Hin. pose proof (Hr r0 Hin). lia.
    + intros l0 Hin. pose proof (Hl l0 Hin). lia.
    + intros p Hin. pose proof (Hp p Hin). lia.
  - unfold update_relationship_verified. cbn [snd].
    split; [| split]; cbn [company_relationships liaisons plans next_id].
    + intros x Hin. apply in_map_iff in Hin. destruct Hin as (x0 & <- & Hin).
      pose proof (Hr x0 Hin). destruct (rel_id x0 =? r); cbn; lia.
    + exact Hl.
    + exact Hp.
Qed.

Lemma reachable_ids_generated (db : t) : reachable db -> ids_generated db.
Proof.
  induction 1 as [| st db _ IH].
  - split; [| split]; intros ? [].
  - apply exec_ids_generated. exact IH.
Qed.

Lemma filter_none {A : Type} (f : A -> bool) (rows : list A) :
  (forall a, In a rows -> f a = false) -> filter f rows = [].
Proof.
  induction rows as [| a rows IH]; intros H; [reflexivity |].
  cbn [filter]. rewrite (H a (or_introl eq_refl)).
  apply IH. intros b Hb. apply H. right. exact Hb.
Qed.

Lemma map_unchanged {A : Type} (f : A -> A) (rows : list A) :
  (forall a, In a rows -> f a = a) -> map f rows = rows.
Proof.
  intros H. rewrite <- (map_id rows) at 2. apply map_ext_in. exact H.
Qed.

End Connect.

(** Accepting a connection a second time changes nothing: when
    [handleConnect] has gone through, running it again on the database it
    left goes through as well and leaves every table as it is (no plan is
    pending any more for the liaison, and the relationship is verified
    already). *)
Theorem connect_again_changes_nothing (r : Db.uuid) (db db1 : Db.t) :
  ConnectButton.connectBody r db = (Db.Ok tt, db1) ->
  ConnectButton.connectBody r db1 = (Db.Ok tt, db1).
Proof.
  unfold ConnectButton.connectBody, Db.bind, Db.get, Db.lift.
  cbv beta iota.
  destruct (Db.single (filter (fun l => Db.company_relationship_id l =? r)
                              (Db.liaisons db))) as [l | e] eqn:Hs;
    [| discriminate].
  unfold Db.update_Payment_plan_status.
  set (f := fun p : Db.Payment_plan =>
              if (Db.plan_liaison_id p =? Db.liaison_id l)
                 && Db.PlanStatus_eqb (Db.status p) Db.pending
              then Db.set_status p Db.active else p).
  destruct (Db.idx_active_payment_plan (map f (Db.plans db))) eqn:Hidx;
    [| discriminate].
  unfold Db.update_relationship_verified, Db.with_plans.
  cbn [Db.company_relationships Db.liaisons Db.plans Db.messages Db.next_id].
  intros H. inversion H as [Hdb]. clear H.
  cbn [Db.company_relationships Db.liaisons Db.plans Db.messages Db.next_id].
  rewrite Hs.
  assert (Hf : map f (map f (Db.plans db)) = map f (Db.plans db)).
  { rewrite map_map. apply map_ext. intros p. unfold f.
    destruct ((Db.plan_liaison_id p =? Db.liaison_id l)
              && Db.PlanStatus_eqb (Db.status p) Db.pending) eqn:E.
    - cbn [Db.set_status Db.status Db.plan_liaison_id Db.PlanStatus_eqb].
      rewrite andb_false_r. reflexivity.
    - rewrite E. reflexivity. }
  fold f. rewrite Hf, Hidx.
  cbn [Db.company_relationships Db.liaisons Db.plans Db.messages Db.next_id].
  rewrite map_map. f_equal. f_equal. apply map_ext. intros x.
  destruct (Db.rel_id x =? r) eqn:E; cbn [Db.rel_id]; rewrite E; reflexivity.
Qed.

Lemma connect_again_changes_nothing_witness :
  ConnectButton.connectBody 1
    (snd (ConnectButton.connectBody 1
            (snd (AddClientModal.submitBody (Some 7) false 20 21 8
                    Sample.plan_1200 Db.empty))))
  = (Db.Ok tt,
     snd (ConnectButton.connectBody 1
            (snd (AddClientModal.submitBody (Some 7) false 20 21 8
                    Sample.plan_1200 Db.empty)))).
Proof.
  apply (connect_again_changes_nothing 1
           (snd (AddClientModal.submitBody (Some 7) false 20 21 8
                   Sample.plan_1200 Db.empty))).
  reflexivity.
Defined.

(** Onboarding followed by the acceptance of the connection: from any
    reachable database, when the onboarding has gone through, accepting the
    relationship it created goes through too, shows "verified", and leaves
    the new liaison with exactly one active plan, which carries the terms
    entered in the onboarding; the plans of the other liaisons are not
    touched. *)
Theorem onboarding_then_connect (session : option Db.uuid) (isClient : bool)
        (firm client_firm liaisonUser : Db.uuid) (plan : Db.PaymentPlan)
        (db db1 : Db.t) :
  Db.reachable db ->
  AddClientModal.submitBody session isClient firm client_firm liaisonUser
                            plan db = (Db.Ok tt, db1) ->
  let r := Db.next_id db in
  let l := Db.next_id db + 1 in
  exists db2 row,
    ConnectButton.handleConnect r false Db.rel_pending db1
    = (Db.rel_verified, None, db2)
    /\ Db.plans db2 = Db.plans db ++ [row]
    /\ filter (Db.is_active_of l) (Db.plans db2) = [row]
    /\ Db.total_due row = Db.totalAmount plan
    /\ Db.payment_rate row = Db.paymentPeriod plan
    /\ Db.num_payment row = Db.numberOfPayments plan
    /\ Db.modified_by row = session
    /\ map Db.verification_status
           (filter (fun x => Db.rel_id x =? r) (Db.company_relationships db2))
       = [Db.rel_verified].
Proof.
  intros Hreach Hsub r l. subst r l.
  pose proof (reachable_ids_generated db Hreach) as (Hrel & Hlia & Hpl).
  pose proof (reachable_plans_unique db Hreach) as Hu.
  revert Hsub. unfold AddClientModal.submitBody, Db.bind.
  destruct session as [u |]; [| discriminate].
  cbn [PaymentPlanMessage.getUser Db.ret].
  unfold Db.insert_relationship.
  destruct (existsb _ (Db.company_relationships db)); [discriminate |].
  cbv beta iota zeta. unfold Db.insert_liaison.
  destruct (negb (Db.relationship_exists _ _)); [discriminate |].
  destruct (negb (Db.crs_score_check _)); [discriminate |].
  cbn [Db.liaisons Db.rel_id].
  destruct (existsb _ (Db.liaisons db)); [discriminate |].
  cbv beta iota zeta. unfold Db.insert_Payment_plan.
  destruct (negb (Db.liaison_exists _ _)); [discriminate |].
  cbn [Db.plans Db.next_id Db.liaison_id].
  destruct (negb (Db.idx_active_payment_plan _)); [discriminate |].
  cbv beta iota zeta. unfold Db.with_plans.
  cbn [Db.company_relationships Db.liaisons Db.plans Db.messages Db.next_id].
  intros Hsub. inversion Hsub as [Hdb1]. clear Hsub.
  set (r := Db.next_id db) in *.
  set (lrow := {| Db.liaison_id := r + 1;
                  Db.company_relationship_id := r;
                  Db.accountant_id := if isClient then liaisonUser else u;
                  Db.client_id := if isClient then u else liaisonUser;
                  Db.crs_score := Db.crs_score_default |}).
  set (prow := {| Db.plan_id := r + 1 + 1;
                  Db.total_due := Db.totalAmount plan;
                  Db.payment_rate := Db.paymentPeriod plan;
                  Db.num_payment := Db.numberOfPayments plan;
                  Db.plan_liaison_id := r + 1;
                  Db.status := Db.pending;
                  Db.parent_plan_id := None;
                  Db.modified_by := Some u |}).
  set (rrow := {| Db.rel_id := r;
                  Db.accounting_firm_id := firm;
                  Db.client_firm_id := client_firm;
                  Db.verification_status := Db.rel_pending;
                  Db.initiated_by := if isClient then Db.client
                                     else Db.accountant |}).
  unfold ConnectButton.handleConnect, ConnectButton.connectBody,
    Db.bind, Db.get, Db.lift.
  cbv beta iota.
  cbn [Db.company_relationships Db.liaisons Db.plans Db.messages Db.next_id].
  (* the liaison of the relationship *)
  assert (Hfl : filter (fun x => Db.company_relationship_id x =? r)
                       (Db.liaisons db ++ [lrow]) = [lrow]).
  { rewrite filter_app, filter_none.
    - cbn [filter lrow Db.company_relationship_id app].
      rewrite Z.eqb_refl. reflexivity.
    - intros a Ha. apply Z.eqb_neq. pose proof (Hlia a Ha). lia. }
  rewrite Hfl. cbn [Db.single]. cbv beta iota.
  (* its pending plan becomes active *)
  unfold Db.update_Payment_plan_status.
  cbn [Db.plans Db.liaison_id lrow].
  set (f := fun p : Db.Payment_plan =>
              if (Db.plan_liaison_id p =? r + 1)
                 && Db.PlanStatus_eqb (Db.status p) Db.pending
              then Db.set_status p Db.active else p).
  assert (Hrows : map f (Db.plans db ++ [prow])
                  = Db.plans db ++ [Db.set_status prow Db.active]).
  { rewrite map_app. f_equal.
    - apply map_unchanged. intros p Hp. unfold f.
      assert (E : (Db.plan_liaison_id p =? r + 1) = false)
        by (apply Z.eqb_neq; pose proof (Hpl p Hp); lia).
      rewrite E. reflexivity.
    - cbn [map f prow Db.plan_liaison_id Db.status Db.PlanStatus_eqb].
      unfold f. cbn [prow Db.plan_liaison_id Db.status Db.PlanStatus_eqb].
      rewrite Z.eqb_refl. reflexivity. }
  rewrite Hrows.
  assert (Hnone : filter (Db.is_active_of (r + 1)) (Db.plans db) = []).
  { apply filter_none. intros p Hp. unfold Db.is_active_of.
    assert (E : (Db.plan_liaison_id p =? r + 1) = false)
      by (apply Z.eqb_neq; pose proof (Hpl p Hp); lia).
    rewrite E. reflexivity. }
  assert (Hact : Db.is_active_of (r + 1) (Db.set_status prow Db.active) = true).
  { unfold Db.is_active_of. cbn. rewrite Z.eqb_refl. reflexivity. }
  assert (Hidx : Db.idx_active_payment_plan
                   (Db.plans db ++ [Db.set_status prow Db.active]) = true).
  { apply idx_active_payment_plan_spec. intros l'.
    rewrite count_active_app, count_active_single.
    destruct (Db.is_active_of l' (Db.set_status prow Db.active)) eqn:E.
    - unfold Db.is_active_of in E. apply andb_true_iff in E.
      destruct E as [E _]. apply Z.eqb_eq in E. cbn in E. subst l'.
      unfold Db.count_active. rewrite Hnone. cbn. lia.
    - pose proof (Hu l'). lia. }
  rewrite Hidx. cbv beta iota.
  unfold Db.update_relationship_verified, Db.with_plans.
  cbn [Db.company_relationships Db.liaisons Db.plans Db.messages Db.next_id].
  do 2 eexists. split; [reflexivity |].
  cbn [Db.company_relationships Db.plans].
  split; [reflexivity |].
  split.
  { rewrite filter_app, Hnone. cbn [filter app]. rewrite Hact. reflexivity. }
  do 4 (split; [reflexivity |]).
  rewrite map_app, filter_app, map_app.
  rewrite filter_none.
  - cbn [map filter rrow Db.rel_id app]. rewrite Z.eqb_refl.
    cbn [Db.rel_id]. rewrite Z.eqb_refl. reflexivity.
  - intros a Ha. apply in_map_iff in Ha. destruct Ha as (x & <- & Hx).
    pose proof (Hrel x Hx).
    assert (E : (Db.rel_id x =? r) = false) by (apply Z.eqb_neq; lia).
    rewrite E. exact E.
Qed.

Lemma onboarding_then_connect_witness :
  exists db2 row,
    ConnectButton.handleConnect 1 false Db.rel_pending
      (snd (AddClientModal.submitBody (Some 7) false 20 21 8
              Sample.plan_1200 Db.empty))
    = (Db.rel_verified, None, db2)
    /\ Db.plans db2 = [] ++ [row]
    /\ filter (Db.is_active_of 2) (Db.plans db2) = [row]
    /\ Db.total_due row = Db.totalAmount Sample.plan_1200
    /\ Db.payment_rate row = Db.paymentPeriod Sample.plan_1200
    /\ Db.num_payment row = Db.numberOfPayments Sample.plan_1200
    /\ Db.modified_by row = Some 7
    /\ map Db.verification_status
           (filter (fun x => Db.rel_id x =? 1) (Db.company_relationships db2))
       = [Db.rel_verified].
Proof.
  apply (onboarding_then_connect (Some 7) false 20 21 8 Sample.plan_1200
           Db.empty).
  - constructor.
  - reflexivity.
Defined.

(** ** A renegotiation from request to the plan shown afterwards *)

Section RoundTrip.

Import Db PaymentPlanMessage.


End RoundTrip.



(** ** The migration that adds the index on active plans *)

Section Migration.

Import Db ActivePlanMigration.





End Migration.


Example migration_sample :
  map Db.status
      (ActivePlanMigration.cancel_duplicates
         [ {| Db.plan_id := 1; Db.total_due := 100; Db.payment_rate := 30;
              Db.num_payment := 1; Db.plan_liaison_id := 2;
              Db.status := Db.active; Db.parent_plan_id := None;
              Db.modified_by := None |};
           {| Db.plan_id := 2; Db.total_due := 200; Db.payment_rate := 30;
              Db.num_payment := 2; Db.plan_liaison_id := 3;
              Db.status := Db.active; Db.parent_plan_id := None;
              Db.modified_by := None |};
           {| Db.plan_id := 3; Db.total_due := 300; Db.payment_rate := 30;
              Db.num_payment := 3; Db.plan_liaison_id := 2;
              Db.status := Db.pending; Db.parent_plan_id := None;
              Db.modified_by := None |};
           {| Db.plan_id := 4; Db.total_due := 400; Db.payment_rate := 30;
              Db.num_payment := 4; Db.plan_liaison_id := 2;
              Db.status := Db.active; Db.parent_plan_id := None;
              Db.modified_by := None |} ])
  = [Db.cancelled; Db.active; Db.pending; Db.active].
Proof. reflexivity. Qed.

(** ** Read receipts *)

Section Receipts.

Import Db ReadReceipts.

Lemma mark_other (messageId : uuid) (rows : list Message) :
  ~ In messageId (map msg_id rows) -> map (mark messageId) rows = rows.
Proof.
  intros H. apply map_unchanged. intros x Hx. unfold mark.
  destruct (msg_id x =? messageId) eqn:E; [| reflexivity].
  apply Z.eqb_eq in E. exfalso. apply H. rewrite <- E. apply in_map. exact Hx.
Qed.

Lemma mark_twice (messageId : uuid) (rows : list Message) :
  map (mark messageId) (map (mark messageId) rows) = map (mark messageId) rows.
Proof.
  rewrite map_map. apply map_ext. intros x. unfold mark.
  destruct (msg_id x =? messageId) eqn:E.
  - cbn [set_read msg_id]. rewrite E. reflexivity.
  - rewrite E. reflexivity.
Qed.

Lemma mark_of_liaison (messageId l : uuid) (rows : list Message) :
  filter (of_liaison l) (map (mark messageId) rows)
  = map (mark messageId) (filter (of_liaison l) rows).
Proof.
  induction rows as [| x rows IH]; [reflexivity |].
  cbn [map filter].
  assert (E : of_liaison l (mark messageId x) = of_liaison l x)
    by (unfold mark; destruct (msg_id x =? messageId); reflexivity).
  rewrite E. destruct (of_liaison l x); cbn [map]; rewrite IH; reflexivity.
Qed.

(** Marking an unread message of the other party lowers the number of
    unread messages by exactly one. *)
Lemma unread_after_mark (u : option uuid) (m : Message) (rows : list Message) :
  NoDup (map msg_id rows) -> In m rows -> unread u m = true ->
  (List.length (filter (unread u) (map (mark (msg_id m)) rows)) + 1
   = List.length (filter (unread u) rows))%nat.
Proof.
  induction rows as [| x rows IH]; intros Hnd Hin Hm; [destruct Hin |].
  cbn [map] in Hnd. inversion Hnd as [| ? ? Hx Hnd']; subst.
  destruct Hin as [-> | Hin].
  - cbn [map filter]. rewrite (mark_other (msg_id m) rows Hx).
    unfold mark at 1. rewrite Z.eqb_refl.
    assert (E : unread u (set_read m) = false) by reflexivity.
    rewrite E, Hm. cbn [List.length]. lia.
  - assert (Hne : (msg_id x =? msg_id m) = false).
    { apply Z.eqb_neq. intros E. apply Hx. rewrite E. apply in_map. exact Hin. }
    cbn [map filter]. unfold mark at 1. rewrite Hne.
    specialize (IH Hnd' Hin Hm).
    destruct (unread u x); cbn [List.length]; lia.
Qed.

Lemma filter_id_single (m : Message) (rows : list Message) :
  NoDup (map msg_id rows) -> In m rows ->
  filter (fun x => msg_id x =? msg_id m) rows = [m].
Proof.
  induction rows as [| x rows IH]; intros Hnd Hin; [destruct Hin |].
  cbn [map] in Hnd. inversion Hnd as [| ? ? Hx Hnd']; subst.
  destruct Hin as [-> | Hin]; cbn [filter].
  - rewrite Z.eqb_refl. f_equal. apply filter_none. intros y Hy.
    apply Z.eqb_neq. intros E. apply Hx. rewrite <- E. apply in_map. exact Hy.
  - assert (Hne : (msg_id x =? msg_id m) = false).
    { apply Z.eqb_neq. intros E. apply Hx. rewrite E. apply in_map. exact Hin. }
    rewrite Hne. apply IH; assumption.
Qed.

Lemma NoDup_filter_ids (f : Message -> bool) (rows : list Message) :
  NoDup (map msg_id rows) -> NoDup (map msg_id (filter f rows)).
Proof.
  induction rows as [| x rows IH]; intros Hnd; [constructor |].
  cbn [map] in Hnd. inversion Hnd as [| ? ? Hx Hnd']; subst.
  cbn [filter]. destruct (f x); [| apply IH; exact Hnd'].
  cbn [map]. constructor; [| apply IH; exact Hnd'].
  intros Hin. apply Hx. apply in_map_iff in Hin.
  destruct Hin as (y & Hy & Hyin). apply filter_In in Hyin.
  rewrite <- Hy. apply in_map. tauto.
Qed.

End Receipts.

(** A read receipt keeps the chat page in step with the database. If the
    page shows the messages of the selected liaison as the database holds
    them and its unread count for that liaison is the number of unread
    messages from the other party, then after a message shown has come
    into view the same holds again, whether the receipt was written or
    not; the counts of the other liaisons are not touched; and a message
    that is already read, or that the viewer sent, or that is seen before
    the user is known, changes nothing. *)
Theorem read_receipt_keeps_page_in_step
        (u : option Db.uuid) (inView : bool) (m : Db.Message)
        (st : ReadReceipts.State) (db : Db.t) :
  NoDup (map Db.msg_id (Db.messages db)) ->
  In m (ReadReceipts.shown st) ->
  ReadReceipts.in_step u st db ->
  ReadReceipts.selectedClient st <> None ->
  let '(st', db') := ReadReceipts.updateMessageStatus inView u m st db in
  ReadReceipts.in_step u st' db'
  /\ (forall k, ReadReceipts.selectedClient st <> Some k ->
                ReadReceipts.unreadCounts st' k = ReadReceipts.unreadCounts st k)
  /\ (ReadReceipts.unread u m = false \/ u = None \/ inView = false ->
      st' = st /\ db' = db).
Proof.
  intros Hpk Hin Hstep Hsel.
  destruct (ReadReceipts.selectedClient st) as [l |] eqn:Hl; [| congruence].
  destruct (Hstep l Hl) as [Hshown Hcount].
  assert (Hm : In m (Db.messages db) /\ ReadReceipts.of_liaison l m = true).
  { rewrite Hshown in Hin. apply filter_In in Hin. exact Hin. }
  destruct Hm as [Hmdb Hml].
  unfold ReadReceipts.updateMessageStatus.
  destruct (ReadReceipts.shouldUpdate inView u m) eqn:Hg.
  2:{ split; [exact Hstep |]. split; [reflexivity |]. auto. }
  unfold ReadReceipts.shouldUpdate in Hg.
  apply andb_true_iff in Hg. destruct Hg as [Hg Hu].
  apply andb_true_iff in Hg. destruct Hg as [Hv Hr].
  destruct u as [u |]; [| discriminate].
  assert (Hun : ReadReceipts.unread (Some u) m = true).
  { unfold ReadReceipts.unread, ReadReceipts.from_other. rewrite Hr, Hu.
    reflexivity. }
  rewrite (filter_id_single m (Db.messages db) Hpk Hmdb). cbn [Db.single].
  unfold ReadReceipts.handleMessageRead. rewrite Hl.
  split; [| split].
  - intros l' Hl'. cbn [ReadReceipts.selectedClient] in Hl'.
    assert (l' = l) by congruence. subst l'.
    cbn [ReadReceipts.shown ReadReceipts.unreadCounts
         ReadReceipts.update_message_read Db.messages].
    rewrite mark_twice, Z.eqb_refl, mark_of_liaison, <- Hshown.
    split; [reflexivity |].
    rewrite Hcount. f_equal.
    assert (Hnd : NoDup (map Db.msg_id (ReadReceipts.shown st)))
      by (rewrite Hshown; apply NoDup_filter_ids; exact Hpk).
    pose proof (unread_after_mark (Some u) m (ReadReceipts.shown st)
                  Hnd Hin Hun) as Hc.
    rewrite <- Hshown.
    set (a := List.length
                (filter (ReadReceipts.unread (Some u))
                   (map (ReadReceipts.mark (Db.msg_id m))
                      (ReadReceipts.shown st)))) in *.
    set (b := List.length
                (filter (ReadReceipts.unread (Some u))
                   (ReadReceipts.shown st))) in *.
    unfold Js.or_num.
    destruct (Z.of_nat b =? 0) eqn:E; [apply Z.eqb_eq in E; lia | lia].
  - intros k Hk. cbn [ReadReceipts.unreadCounts].
    destruct (k =? l) eqn:E; [| reflexivity].
    apply Z.eqb_eq in E. congruence.
  - intros [H | [H | H]]; [congruence | discriminate | congruence].
Qed.

Lemma read_receipt_keeps_page_in_step_witness :
  let '(st', db') :=
    ReadReceipts.updateMessageStatus true (Some 7) Scenario.request_message
      Scenario.page_of_accountant Scenario.db_requested in
  ReadReceipts.in_step (Some 7) st' db'
  /\ (forall k, ReadReceipts.selectedClient Scenario.page_of_accountant
                <> Some k ->
                ReadReceipts.unreadCounts st' k
                = ReadReceipts.unreadCounts Scenario.page_of_accountant k)
  /\ (ReadReceipts.unread (Some 7) Scenario.request_message = false
      \/ Some 7 = None \/ true = false ->
      st' = Scenario.page_of_accountant /\ db' = Scenario.db_requested).
Proof.
  apply (read_receipt_keeps_page_in_step (Some 7) true Scenario.request_message
           Scenario.page_of_accountant Scenario.db_requested).
  - cbn. repeat constructor. intros [].
  - cbn. left. reflexivity.
  - intros l Hl. cbn in Hl. inversion Hl; subst l. split; reflexivity.
  - discriminate.
Defined.

Example read_receipt_sample :
  ReadReceipts.unreadCounts Scenario.page_of_accountant 2 = Some 1
  /\ ReadReceipts.unreadCounts
       (fst (ReadReceipts.updateMessageStatus true (Some 7)
               Scenario.request_message Scenario.page_of_accountant
               Scenario.db_requested)) 2
     = Some 0
  /\ ReadReceipts.updateMessageStatus true (Some 8)
       Scenario.request_message Scenario.page_of_accountant
       Scenario.db_requested
     = (Scenario.page_of_accountant, Scenario.db_requested).
Proof. repeat split; reflexivity. Qed.

(** ** The test data of the transactions migration *)

Section Seed.

Import TransactionSeed.


Lemma in_range_tail (s : Supply) : in_range s -> in_range (fun k => s (S k)).
Proof. intros H k. apply H. Qed.





End Seed.



(** A plan whose total is smaller than its number of payments cannot be
    seeded: the integer quotient is 0, which the CHECK on [amount]
    refuses. *)
Example seed_small_total_is_refused :
  option_map (map TransactionSeed.checks)
             (fst (TransactionSeed.seed_plan (fun t => t) 1 3 4
                     (fun _ => 1 # 2)))
  = Some [false; false; false; false].
Proof. vm_compute. reflexivity. Qed.

(** ** The badge of unread messages *)

Section Badge.

Import Db UnreadBadge.






End Badge.



(** A message sent into a liaison by somebody who is not a party of it
    (here the acceptance that user 9 sends into liaison 2) is counted
    beside the contact, but not by the badge. *)
Example badge_misses_outsider_message :
  let db := snd (PaymentPlanMessage.handleAccept (Some 9)
                   Sample.request_seen_by_accountant
                   (PaymentPlanMessage.init Sample.request_seen_by_accountant)
                   Sample.db_active) in
  UnreadBadge.fetchUnreadCount (Some 7) 0 db = 0
  /\ UnreadBadge.pageCounts 7 db = 1%nat.
Proof. split; reflexivity. Qed.
